(** * Tasq: a sequential queue that drives a pipeline of callbacks

    Shallow embedding of [src/Tasq.ts] (the variant with the run counter
    [nth] and the [blocking] option) and the properties of its execution
    engine; then the two plainer versions of the class, the second class of
    [src/Tasq.ts] and the class of [unnamed/part_001], and how the three
    relate.

    Modelling choices, all read off the source:

    - JavaScript functions are references; the engine never looks inside a
      callback, it only stores and invokes it.  A callback is therefore a
      name ([nat]), and what a callback does is supplied from outside: the
      calls it (or any other code) makes on the engine while the engine is
      suspended are inputs of the machine below, and the value or exception
      it settles with is the input that resumes the suspended run.
    - [runAsync] is an [async] function: it runs synchronously up to an
      [await], where it is suspended; the machine keeps the locals of every
      suspended run ([nth], [callbackIndex], [callback]) in a table.
    - the fields [nth], [index] and [callbackIndex] are JavaScript numbers
      that are only ever reset to [0] and incremented: they are [nat]; the
      value [this.index - 1] computed by [finally] can be [-1] and is a [Z].
    - optional fields ([data?], [break?], [error?], [blocking?]) and
      [T | undefined] are [option]s. *)

From Stdlib Require Import ZArith Lia String.
From stdpp Require Import base option list gmap.

Local Open Scope nat_scope.

Section Engine.

(** [T] is the type of the queued items, [D] the type of the [data] a stage
    forwards to the next one ([any] in the source), [Err] the type of thrown
    values ([unknown] in the source). *)
Context {T D Err : Type}.

(** ** Interfaces (lines 1-43)

    The fields bear the names of the source behind a prefix that tells the
    interfaces apart ([nth] and [items] occur in several of them). *)

Record TasqOptions := mkOptions { blocking : option bool }.

Record TasqDoneResult := mkDoneResult {
  done_nth : nat;
  done_items : list T }.

Record TasqRunResult := mkRunResult {
  run_nth : nat;
  run_items : list T;
  run_error : option Err }.

Record TasqErrorResult := mkErrorResult {
  err_nth : nat;
  err_items : list T;
  err_error : option Err;
  err_index : Z;
  err_callbackIndex : nat }.

Record TasqCallbackResult := mkCallbackResult {
  res_data : option D;
  res_break : option bool }.

(** The [data] of a stage call: the first stage receives a queued item,
    a later stage receives [result.data] of the previous result. *)
Inductive Payload :=
| Item (item : T)
| Forwarded (data : option D).

Record TasqCallbackArgs := mkArgs {
  arg_nth : nat;
  arg_data : Payload }.

Definition TasqCallback := nat.
Definition TasqDoneCallback := nat.
Definition TasqErrorCallback := nat.

(** ** The fields of the class (lines 46-55) *)

Record Tasq := mkTasq {
  nth : nat;
  index : nat;
  callbackIndex : nat;
  running : bool;
  current : option T;
  items : list T;
  callbacks : list TasqCallback;
  onDone : option TasqDoneCallback;
  onError : option TasqErrorCallback;
  options : TasqOptions }.

Definition set_nth (v : nat) (t : Tasq) : Tasq :=
  mkTasq v (index t) (callbackIndex t) (running t) (current t) (items t)
         (callbacks t) (onDone t) (onError t) (options t).
Definition set_index (v : nat) (t : Tasq) : Tasq :=
  mkTasq (nth t) v (callbackIndex t) (running t) (current t) (items t)
         (callbacks t) (onDone t) (onError t) (options t).
Definition set_callbackIndex (v : nat) (t : Tasq) : Tasq :=
  mkTasq (nth t) (index t) v (running t) (current t) (items t)
         (callbacks t) (onDone t) (onError t) (options t).
Definition set_running (v : bool) (t : Tasq) : Tasq :=
  mkTasq (nth t) (index t) (callbackIndex t) v (current t) (items t)
         (callbacks t) (onDone t) (onError t) (options t).
Definition set_current (v : option T) (t : Tasq) : Tasq :=
  mkTasq (nth t) (index t) (callbackIndex t) (running t) v (items t)
         (callbacks t) (onDone t) (onError t) (options t).
Definition set_items (v : list T) (t : Tasq) : Tasq :=
  mkTasq (nth t) (index t) (callbackIndex t) (running t) (current t) v
         (callbacks t) (onDone t) (onError t) (options t).
Definition set_callbacks (v : list TasqCallback) (t : Tasq) : Tasq :=
  mkTasq (nth t) (index t) (callbackIndex t) (running t) (current t) (items t)
         v (onDone t) (onError t) (options t).
Definition set_onDone (v : option TasqDoneCallback) (t : Tasq) : Tasq :=
  mkTasq (nth t) (index t) (callbackIndex t) (running t) (current t) (items t)
         (callbacks t) v (onError t) (options t).
Definition set_onError (v : option TasqErrorCallback) (t : Tasq) : Tasq :=
  mkTasq (nth t) (index t) (callbackIndex t) (running t) (current t) (items t)
         (callbacks t) (onDone t) v (options t).

(** [constructor] (lines 57-60): [blocking] defaults to [true]. *)
Definition constructor (opts : TasqOptions) : Tasq :=
  mkTasq 0 0 0 false None [] [] None None
         (mkOptions (Some (default true (blocking opts)))).

(** Truthiness of [this.options.blocking]. *)
Definition is_blocking (t : Tasq) : bool := default false (blocking (options t)).

(** ** Accessors and mutators (lines 62-109) *)

Definition isRunning (t : Tasq) : bool := running t.
Definition getItems (t : Tasq) : list T := items t.
Definition getCurrent (t : Tasq) : option T := current t.
Definition getIndex (t : Tasq) : nat := index t.
Definition getCallbackIndex (t : Tasq) : nat := callbackIndex t.

Definition add (xs : list T) (t : Tasq) : Tasq := set_items (items t ++ xs) t.

Definition done (callback : TasqDoneCallback) (t : Tasq) : Tasq :=
  set_onDone (Some callback) t.

Definition catch (callback : TasqErrorCallback) (t : Tasq) : Tasq :=
  set_onError (Some callback) t.

(** [_clear] (lines 163-170): the cursor goes back to [0], the whole backlog
    is spliced out and returned, and [current] is reset only when the
    [running] flag is down. *)
Definition _clear (t : Tasq) : Tasq * list T :=
  let t1 := set_index 0 t in
  let removed := items t1 in
  let t2 := set_items [] t1 in
  let t3 := if negb (running t2) then set_current None t2 else t2 in
  (t3, removed).

Definition clear (t : Tasq) : Tasq := fst (_clear t).

(** [do] (lines 102-109): a [null] first callback empties the stage list and
    discards the trailing ones. *)
Definition do (callback : option TasqCallback) (rest : list TasqCallback)
    (t : Tasq) : Tasq :=
  let all := match callback with Some c => c :: rest | None => [] end in
  set_callbacks all t.

(** ** Finalization (lines 172-214) *)

(** The handler [finish] invokes, with the argument it passes. *)
Inductive HandlerCall :=
| OnError (callback : TasqErrorCallback) (result : TasqErrorResult)
| OnDone (callback : TasqDoneCallback) (result : TasqDoneResult).

(** [finish], up to its [await] (lines 201-206): [this.onError?.(...)] or
    [this.onDone?.(...)]; an unregistered handler is not called. *)
Definition finish (doneResult : TasqDoneResult) (errorResult : TasqErrorResult)
    (didError : bool) (t : Tasq) : option HandlerCall :=
  if didError then
    match onError t with
    | Some h => Some (OnError h errorResult)
    | None => None
    end
  else
    match onDone t with
    | Some h => Some (OnDone h doneResult)
    | None => None
    end.

(** [finish], after its [await] (lines 207-213): what the handler settled
    with is either nothing or a thrown value; a thrown value is caught and
    written to [console.error] under the label of the handler. *)
Inductive FinishOutcome :=
| Completed
| Reported (label : string) (error : Err).

Definition finish_settle (didError : bool) (thrown : option Err) : FinishOutcome :=
  match thrown with
  | None => Completed
  | Some error =>
      let label := if didError then "error"%string else "done"%string in
      Reported label error
  end.

(** [finally] (lines 172-194). *)
Definition finally (nth_ : nat) (error : option Err) (didError : bool)
    (t : Tasq) : Tasq * (TasqRunResult * option HandlerCall) :=
  let t1 := set_nth 0 t in
  let t2 := set_running false t1 in
  let index_ := (Z.of_nat (index t2) - 1)%Z in
  let callbackIndex_ := callbackIndex t2 in
  let '(t3, items_) := _clear t2 in
  let doneResult := mkDoneResult nth_ items_ in
  let runResult :=
    if didError then mkRunResult nth_ items_ error
    else mkRunResult nth_ items_ None in
  let errorResult := mkErrorResult nth_ items_ None index_ callbackIndex_ in
  (t3, (runResult, finish doneResult errorResult didError t3)).

(** ** The drain loop of [runAsync] (lines 137-160) *)

Definition empty_result : TasqCallbackResult := mkCallbackResult None None.

(** Truthiness of [result.break]. *)
Definition is_break (result : TasqCallbackResult) : bool :=
  default false (res_break result).

(** What an awaited stage callback settles with: a value ([void] is [None])
    or a thrown value (a synchronous [throw] or a rejected promise; both end
    in the [catch] of line 158). *)
Inductive Settled :=
| Fulfilled (value : option TasqCallbackResult)
| Rejected (error : Err).

(** The locals of a run that is suspended at an [await]: the constants
    [nth], [callbackIndex] and [callback] of lines 137, 145 and 146.  The
    [await] of line 151 is reached only with [callbackIndex = 0] and the one
    of line 154 only with [callbackIndex > 0], so the frame also tells where
    the run resumes. *)
Record Frame := mkFrame {
  f_nth : nat;
  f_callbackIndex : nat;
  f_callback : TasqCallback }.

(** How far a run gets before it gives control back: it is suspended at a
    stage call, or it has returned the value of [finally]. *)
Inductive Progress :=
| Awaiting (f : Frame) (args : TasqCallbackArgs)
| Returned (result : TasqRunResult) (handler : option HandlerCall).

(** The guard of the inner [while] and its body up to the [await]
    (lines 148-151).  The guard makes [this.items[this.index]] an element of
    the backlog (lemma [poll_in_range]). *)
Definition poll (f : Frame) (t : Tasq) : option (Tasq * TasqCallbackArgs) :=
  if (f_callbackIndex f =? 0) && (index t <? length (items t)) then
    match items t !! index t with
    | Some item =>
        let t1 := set_index (S (index t)) t in
        let t2 := set_current (Some item) t1 in
        Some (t2, mkArgs (f_nth f) (Item item))
    | None => None
    end
  else None.

(** One pass from the head of the inner [while] to the end of the body of
    the outer one (lines 148-155): the run is suspended at a stage call, or
    falls through to the head of the outer loop. *)
Inductive Pass :=
| Suspend (t : Tasq) (args : TasqCallbackArgs)
| Next (result : TasqCallbackResult) (t : Tasq).

Definition stage (f : Frame) (result : TasqCallbackResult) (t : Tasq) : Pass :=
  match poll f t with
  | Some (t', args) => Suspend t' args
  | None =>
      if (0 <? f_callbackIndex f) && negb (is_break result) then
        Suspend t (mkArgs (f_nth f) (Forwarded (res_data result)))
      else Next result t
  end.

Definition returned (out : Tasq * (TasqRunResult * option HandlerCall))
    : Tasq * Progress :=
  (fst out, Returned (fst (snd out)) (snd (snd out))).

(** The outer [while] from its head (lines 144-157).  Every pass advances
    [callbackIndex], which the guard bounds by the number of stages: [fuel]
    counts the passes, [None] is fuel exhausted or a stage index out of
    range, and [drain_enough] shows that neither happens. *)
Fixpoint drain (fuel : nat) (nth_ : nat) (result : TasqCallbackResult)
    (t : Tasq) : option (Tasq * Progress) :=
  if negb (is_break result) && (callbackIndex t <? length (callbacks t)) then
    match fuel with
    | 0 => None
    | S fuel' =>
        let callbackIndex_ := callbackIndex t in
        let t1 := set_callbackIndex (S callbackIndex_) t in
        match callbacks t1 !! callbackIndex_ with
        | Some callback =>
            let f := mkFrame nth_ callbackIndex_ callback in
            match stage f result t1 with
            | Suspend t2 args => Some (t2, Awaiting f args)
            | Next result' t2 => drain fuel' nth_ result' t2
            end
        | None => None
        end
    end
  else Some (returned (finally nth_ None false t)).

Definition loop (nth_ : nat) (result : TasqCallbackResult) (t : Tasq)
    : Tasq * Progress :=
  default (returned (finally nth_ None false t))
          (drain (S (length (callbacks t) - callbackIndex t)) nth_ result t).

(** [runAsync] (lines 126-161), up to its first [await] or its [return],
    in three parts: the statements before the guard (lines 130-133), the
    working result of line 141, and the accepted run (lines 137-157).
    [None] is the [undefined] of line 135. *)
Definition prologue (callback : option TasqCallback) (rest : list TasqCallback)
    (t : Tasq) : Tasq :=
  let t1 := match callback with
            | Some c => do (Some c) rest t
            | None => t
            end in
  set_callbackIndex 0 t1.

Definition initial (t : Tasq) : TasqCallbackResult :=
  mkCallbackResult None (Some (length (items t) <=? index t)).

Definition accept (t : Tasq) : Tasq * Progress :=
  let nth_ := S (nth t) in
  let t1 := set_nth nth_ t in
  let t2 := set_running true t1 in
  loop nth_ (initial t2) t2.

Definition runAsync (callback : option TasqCallback) (rest : list TasqCallback)
    (t : Tasq) : Tasq * option Progress :=
  let t1 := prologue callback rest t in
  if running t1 && is_blocking t1 then (t1, None)
  else
    let out := accept t1 in
    (fst out, Some (snd out)).

(** [run] (lines 113-119): registers the stages, if any, and calls
    [this.runAsync()] without awaiting it. *)
Definition run (callback : option TasqCallback) (rest : list TasqCallback)
    (t : Tasq) : Tasq * option Progress :=
  let t1 := match callback with
            | Some c => do (Some c) rest t
            | None => t
            end in
  runAsync None [] t1.

(** A suspended run resumes when the awaited stage call settles: a thrown
    value goes to the [catch] of line 158; a value becomes the working
    result ([|| {}]) and the run continues at the guard of the inner loop
    (after line 151) or at the head of the outer one (after line 154). *)
Definition resume (f : Frame) (settled : Settled) (t : Tasq) : Tasq * Progress :=
  match settled with
  | Rejected error => returned (finally (f_nth f) (Some error) true t)
  | Fulfilled value =>
      let result := default empty_result value in
      if f_callbackIndex f =? 0 then
        match stage f result t with
        | Suspend t' args => (t', Awaiting f args)
        | Next result' t' => loop (f_nth f) result' t'
        end
      else loop (f_nth f) result t
  end.

(** ** The engine among its callers

    Everything that acts on the engine between two steps of a run is an
    input: a method call (by a stage callback, a handler or any other code),
    the settling of the stage call a run awaits, or the settling of the
    handler call a [finish] awaits.  Runs are told apart by the order in
    which they were accepted ([RunId]); the source's own [nth] is not used
    for that. *)

Abbreviation RunId := nat (only parsing).

Inductive Input :=
| CallAdd (xs : list T)
| CallDone (callback : TasqDoneCallback)
| CallCatch (callback : TasqErrorCallback)
| CallClear
| CallDo (callback : option TasqCallback) (rest : list TasqCallback)
| CallRun (callback : option TasqCallback) (rest : list TasqCallback)
| CallRunAsync (callback : option TasqCallback) (rest : list TasqCallback)
| StageSettles (id : RunId) (settled : Settled)
| HandlerSettles (id : RunId) (thrown : option Err).

(** The run number a run carries in its locals or in its result. *)
Definition number_of (p : Progress) : nat :=
  match p with
  | Awaiting f _ => f_nth f
  | Returned result _ => run_nth result
  end.

(** What can be observed of the engine, in the order it happens: a run is
    accepted with a run number, a stage callback is invoked, a handler is
    called by [finish], the promise of [runAsync] is resolved with a result
    or (for a dropped call) with [undefined], [finish] writes to the
    log. *)
Inductive Event :=
| Accepted (id : RunId) (number : nat)
| Invoked (id : RunId) (f : Frame) (args : TasqCallbackArgs)
| Handled (id : RunId) (call : HandlerCall)
| Resolved (id : RunId) (result : TasqRunResult)
| Ignored
| Logged (id : RunId) (label : string) (error : Err).

(** The engine, the locals of the runs suspended at a stage call, the
    [didError] of the [finish] calls suspended at a handler call, the
    number of runs accepted so far, and what has been observed. *)
Record Machine := mkMachine {
  task : Tasq;
  awaiting : gmap RunId Frame;
  finishing : gmap RunId bool;
  accepted : nat;
  trace : list Event }.

Definition set_task (t : Tasq) (m : Machine) : Machine :=
  mkMachine t (awaiting m) (finishing m) (accepted m) (trace m).

Definition didError_of (call : HandlerCall) : bool :=
  match call with OnError _ _ => true | OnDone _ _ => false end.

(** Books the progress of run [id]: a suspended run is entered with its
    stage call; a returned run is struck off, its handler call (made by
    [finish] inside [finally], before [runAsync] returns) and the
    resolution of its promise are recorded, and its [finish] is left
    waiting for the handler.  The two events are recorded together, with
    the engine as [finally] leaves it, which is the engine the handler
    finds: what the handler does to the engine while it is being called
    (an [add], a [run]) is the inputs that come next, although in the code
    it precedes the return of [runAsync].  [Resolved] thus carries the
    value the run returns and is no mark of the moment it returns at; that
    a run has ended is read off [awaiting]. *)
Definition book (id : RunId) (out : Tasq * Progress) (m : Machine) : Machine :=
  match snd out with
  | Awaiting f args =>
      mkMachine (fst out) (<[id := f]> (awaiting m)) (finishing m) (accepted m)
                (trace m ++ [Invoked id f args])
  | Returned result (Some call) =>
      mkMachine (fst out) (delete id (awaiting m))
                (<[id := didError_of call]> (finishing m)) (accepted m)
                (trace m ++ [Handled id call; Resolved id result])
  | Returned result None =>
      mkMachine (fst out) (delete id (awaiting m)) (finishing m) (accepted m)
                (trace m ++ [Resolved id result])
  end.

(** Books a call of [run] or [runAsync]: dropped, or accepted as the next
    run. *)
Definition launch (out : Tasq * option Progress) (m : Machine) : Machine :=
  match snd out with
  | None =>
      mkMachine (fst out) (awaiting m) (finishing m) (accepted m)
                (trace m ++ [Ignored])
  | Some p =>
      book (accepted m) (fst out, p)
           (mkMachine (task m) (awaiting m) (finishing m) (S (accepted m))
                      (trace m ++ [Accepted (accepted m) (number_of p)]))
  end.

(** One input.  Settling something nothing waits for changes nothing. *)
Definition step (m : Machine) (i : Input) : Machine :=
  match i with
  | CallAdd xs => set_task (add xs (task m)) m
  | CallDone callback => set_task (done callback (task m)) m
  | CallCatch callback => set_task (catch callback (task m)) m
  | CallClear => set_task (clear (task m)) m
  | CallDo callback rest => set_task (do callback rest (task m)) m
  | CallRun callback rest => launch (run callback rest (task m)) m
  | CallRunAsync callback rest => launch (runAsync callback rest (task m)) m
  | StageSettles id settled =>
      match awaiting m !! id with
      | Some f => book id (resume f settled (task m)) m
      | None => m
      end
  | HandlerSettles id thrown =>
      match finishing m !! id with
      | Some didError =>
          let m' := mkMachine (task m) (awaiting m) (delete id (finishing m))
                              (accepted m) (trace m) in
          match finish_settle didError thrown with
          | Completed => m'
          | Reported label error =>
              mkMachine (task m) (awaiting m) (delete id (finishing m))
                        (accepted m) (trace m ++ [Logged id label error])
          end
      | None => m
      end
  end.

Definition exec (m : Machine) (inputs : list Input) : Machine :=
  foldl step m inputs.

(** [new Tasq(opts)], nothing observed yet. *)
Definition boot (opts : TasqOptions) : Machine :=
  mkMachine (constructor opts) ∅ ∅ 0 [].

(** A machine around an engine with no run in flight. *)
Definition idle (t : Tasq) : Machine := mkMachine t ∅ ∅ 0 [].

(** Readings of a trace: the handler calls, the stage calls, the items fed
    to the first stage by a run, and the run numbers handed out. *)
Definition handled (tr : list Event) : list (RunId * HandlerCall) :=
  omap (fun e => match e with Handled id c => Some (id, c) | _ => None end) tr.

Definition invoked (tr : list Event) : list (RunId * nat * TasqCallbackArgs) :=
  omap (fun e => match e with
                 | Invoked id f args => Some (id, f_callbackIndex f, args)
                 | _ => None
                 end) tr.

Definition numbers (tr : list Event) : list nat :=
  omap (fun e => match e with Accepted _ n => Some n | _ => None end) tr.

Definition resolved (tr : list Event) : list RunId :=
  omap (fun e => match e with Resolved id _ => Some id | _ => None end) tr.

(** The items run [id] has fed to the first stage, in call order. *)
Definition fed (id : RunId) (tr : list Event) : list T :=
  omap (fun e => match e with
                 | Invoked id' _ args =>
                     match arg_data args with
                     | Item x => if id' =? id then Some x else None
                     | Forwarded _ => None
                     end
                 | _ => None
                 end) tr.

(** The items appended by the [add] calls of a schedule, in call order. *)
Definition adds (inputs : list Input) : list T :=
  concat (omap (fun i => match i with CallAdd xs => Some xs | _ => None end)
               inputs).


(** Inputs that only drive run [id]: [add] calls and the settling of the
    run's own stage calls. *)
Definition driving (id : RunId) (i : Input) : bool :=
  match i with
  | CallAdd _ => true
  | StageSettles id' _ => id' =? id
  | _ => false
  end.

(** The same without a stage call that throws. *)
Definition feeding (id : RunId) (i : Input) : bool :=
  match i with
  | CallAdd _ => true
  | StageSettles id' (Fulfilled _) => id' =? id
  | _ => false
  end.

(** The handler call of run [id], if one was made, as [handled] lists it. *)
Definition calls_of (id : RunId) (call : option HandlerCall)
    : list (RunId * HandlerCall) :=
  match call with Some c => [(id, c)] | None => [] end.

(** The engine [finally] leaves behind. *)
Definition finalized (t : Tasq) : Tasq :=
  mkTasq 0 0 (callbackIndex t) false None [] (callbacks t) (onDone t)
         (onError t) (options t).

(** Every pending [finish] belongs to a run whose handler has been called
    and whose promise has been resolved. *)
Definition settling_sound (m : Machine) : Prop :=
  forall id d, finishing m !! id = Some d ->
    exists call r, Handled id call ∈ trace m /\ Resolved id r ∈ trace m /\
                   didError_of call = d.

(** Runs are numbered in the order they are accepted; a run whose handler
    has been called is no longer suspended, and no run is handled twice. *)
Definition well_formed (m : Machine) : Prop :=
  (forall id f, awaiting m !! id = Some f -> id < accepted m) /\
  (forall id c, (id, c) ∈ handled (trace m) ->
     id < accepted m /\ awaiting m !! id = None) /\
  NoDup (handled (trace m)).*1.

(** In blocking mode the [running] flag is up exactly while one run is
    suspended; that run has number [1]; with the flag down the counter
    and the backlog cursor are [0]. *)
Definition single_run (m : Machine) : Prop :=
  is_blocking (task m) = true /\
  if running (task m)
  then exists id f, awaiting m = {[ id := f ]} /\ f_nth f = 1 /\
                    nth (task m) = 1
  else awaiting m = ∅ /\ nth (task m) = 0 /\ index (task m) = 0.

(** A stage call either polls the item under the cursor and moves the
    cursor past it, or forwards data and leaves the cursor. *)
Definition polled (t t' : Tasq) (args : TasqCallbackArgs) : Prop :=
  items t' = items t /\
  ((exists x, arg_data args = Item x /\ items t !! index t = Some x /\
              index t' = S (index t)) \/
   (exists d, arg_data args = Forwarded d /\ index t' = index t)).

(** What a suspended run has fed to the first stage is the part of the
    backlog before the cursor; what a returned run has fed is an initial
    segment of the items its result carries. *)
Definition fed_in_order (m : Machine) : Prop :=
  (forall id f, awaiting m !! id = Some f ->
     fed id (trace m) = take (index (task m)) (items (task m)) /\
     index (task m) <= length (items (task m))) /\
  (forall id, accepted m <= id -> fed id (trace m) = []) /\
  (forall id r, Resolved id r ∈ trace m ->
     id < accepted m /\ awaiting m !! id = None /\
     exists k, fed id (trace m) = take k (run_items r)).


(** The fields a pass of the drain loop never writes: it only moves the two
    cursors and the current item. *)
Definition keeps (t t' : Tasq) : Prop :=
  nth t' = nth t /\ running t' = running t /\ items t' = items t /\
  callbacks t' = callbacks t /\ onDone t' = onDone t /\
  onError t' = onError t /\ options t' = options t.

(** The results the promises of [runAsync] were resolved with. *)
Definition results (tr : list Event) : list (RunId * TasqRunResult) :=
  omap (fun e => match e with Resolved id r => Some (id, r) | _ => None end) tr.

(** [current] follows the run in flight: it is the item that run has fed
    last to the first stage, and [undefined] when no run is in flight. *)
Definition current_tracks (m : Machine) : Prop :=
  (forall id, accepted m <= id -> fed id (trace m) = []) /\
  if running (task m)
  then forall id f, awaiting m !! id = Some f ->
         current (task m) = last (fed id (trace m))
  else current (task m) = None.

(** ** The class without the run counter (lines 216-408)

    [src/Tasq.ts] holds a second class [Tasq], the version of the class
    above that has no run counter and no options: its results carry no
    [nth], its callbacks receive the data itself, [finally] is told the
    index of the stage that was running, and a second [run] is dropped
    whenever the [running] flag is up.  Its members bear the names of the
    source with the suffix [_v2]; the interface [TasqCallbackResult] and
    what a stage call receives and settles with are those of the class
    above. *)

Record TasqResult_v2 := mkResult_v2 {
  items_of : list T;
  error_of : option Err }.

Record TasqErrorResult_v2 := mkErrorResult_v2 {
  error_items : list T;
  error_error : option Err;
  error_index : Z;
  error_callbackIndex : nat }.

Record Tasq_v2 := mkTasq_v2 {
  index_v2 : nat;
  callbackIndex_v2 : nat;
  running_v2 : bool;
  current_v2 : option T;
  items_v2 : list T;
  callbacks_v2 : list TasqCallback;
  onDone_v2 : option TasqDoneCallback;
  onError_v2 : option TasqErrorCallback }.

Definition set_index_v2 (v : nat) (t : Tasq_v2) : Tasq_v2 :=
  mkTasq_v2 v (callbackIndex_v2 t) (running_v2 t) (current_v2 t) (items_v2 t)
            (callbacks_v2 t) (onDone_v2 t) (onError_v2 t).
Definition set_callbackIndex_v2 (v : nat) (t : Tasq_v2) : Tasq_v2 :=
  mkTasq_v2 (index_v2 t) v (running_v2 t) (current_v2 t) (items_v2 t)
            (callbacks_v2 t) (onDone_v2 t) (onError_v2 t).
Definition set_running_v2 (v : bool) (t : Tasq_v2) : Tasq_v2 :=
  mkTasq_v2 (index_v2 t) (callbackIndex_v2 t) v (current_v2 t) (items_v2 t)
            (callbacks_v2 t) (onDone_v2 t) (onError_v2 t).
Definition set_current_v2 (v : option T) (t : Tasq_v2) : Tasq_v2 :=
  mkTasq_v2 (index_v2 t) (callbackIndex_v2 t) (running_v2 t) v (items_v2 t)
            (callbacks_v2 t) (onDone_v2 t) (onError_v2 t).
Definition set_items_v2 (v : list T) (t : Tasq_v2) : Tasq_v2 :=
  mkTasq_v2 (index_v2 t) (callbackIndex_v2 t) (running_v2 t) (current_v2 t) v
            (callbacks_v2 t) (onDone_v2 t) (onError_v2 t).
Definition set_callbacks_v2 (v : list TasqCallback) (t : Tasq_v2) : Tasq_v2 :=
  mkTasq_v2 (index_v2 t) (callbackIndex_v2 t) (running_v2 t) (current_v2 t)
            (items_v2 t) v (onDone_v2 t) (onError_v2 t).
Definition set_onDone_v2 (v : option TasqDoneCallback) (t : Tasq_v2) : Tasq_v2 :=
  mkTasq_v2 (index_v2 t) (callbackIndex_v2 t) (running_v2 t) (current_v2 t)
            (items_v2 t) (callbacks_v2 t) v (onError_v2 t).
Definition set_onError_v2 (v : option TasqErrorCallback) (t : Tasq_v2) : Tasq_v2 :=
  mkTasq_v2 (index_v2 t) (callbackIndex_v2 t) (running_v2 t) (current_v2 t)
            (items_v2 t) (callbacks_v2 t) (onDone_v2 t) v.

(** The field initializers (lines 247-254). *)
Definition new_v2 : Tasq_v2 := mkTasq_v2 0 0 false None [] [] None None.

(** Accessors and mutators (lines 256-303). *)
Definition isRunning_v2 (t : Tasq_v2) : bool := running_v2 t.
Definition getItems_v2 (t : Tasq_v2) : list T := items_v2 t.
Definition getCurrent_v2 (t : Tasq_v2) : option T := current_v2 t.
Definition getIndex_v2 (t : Tasq_v2) : nat := index_v2 t.
Definition getCallbackIndex_v2 (t : Tasq_v2) : nat := callbackIndex_v2 t.

Definition add_v2 (xs : list T) (t : Tasq_v2) : Tasq_v2 :=
  set_items_v2 (items_v2 t ++ xs) t.

Definition done_v2 (callback : TasqDoneCallback) (t : Tasq_v2) : Tasq_v2 :=
  set_onDone_v2 (Some callback) t.

Definition catch_v2 (callback : TasqErrorCallback) (t : Tasq_v2) : Tasq_v2 :=
  set_onError_v2 (Some callback) t.

(** [_clear] (lines 357-364). *)
Definition _clear_v2 (t : Tasq_v2) : Tasq_v2 * list T :=
  let t1 := set_index_v2 0 t in
  let removed := items_v2 t1 in
  let t2 := set_items_v2 [] t1 in
  let t3 := if negb (running_v2 t2) then set_current_v2 None t2 else t2 in
  (t3, removed).

Definition clear_v2 (t : Tasq_v2) : Tasq_v2 := fst (_clear_v2 t).

Definition do_v2 (callback : option TasqCallback) (rest : list TasqCallback)
    (t : Tasq_v2) : Tasq_v2 :=
  let all := match callback with Some c => c :: rest | None => [] end in
  set_callbacks_v2 all t.

(** The handler [finish] invokes, with the argument it passes: the error
    handler receives the error result, the done handler the items alone. *)
Inductive HandlerCall_v2 :=
| OnError_v2 (callback : TasqErrorCallback) (result : TasqErrorResult_v2)
| OnDone_v2 (callback : TasqDoneCallback) (items : list T).

(** [finish], up to its [await] (lines 394-399); what follows the [await]
    (lines 400-406) is [finish_settle] above, word for word. *)
Definition finish_v2 (result : TasqErrorResult_v2) (didError : bool)
    (t : Tasq_v2) : option HandlerCall_v2 :=
  if didError then
    match onError_v2 t with
    | Some h => Some (OnError_v2 h result)
    | None => None
    end
  else
    match onDone_v2 t with
    | Some h => Some (OnDone_v2 h (error_items result))
    | None => None
    end.

(** [finally] (lines 372-388): both results get the thrown value. *)
Definition finally_v2 (callbackIndex_ : nat) (error : option Err)
    (didError : bool) (t : Tasq_v2)
    : Tasq_v2 * (TasqResult_v2 * option HandlerCall_v2) :=
  let t1 := set_running_v2 false t in
  let index_ := (Z.of_nat (index_v2 t1) - 1)%Z in
  let '(t2, items_) := _clear_v2 t1 in
  let result :=
    if didError then mkResult_v2 items_ error else mkResult_v2 items_ None in
  let errorResult :=
    if didError then mkErrorResult_v2 items_ error index_ callbackIndex_
    else mkErrorResult_v2 items_ None index_ callbackIndex_ in
  (t2, (result, finish_v2 errorResult didError t2)).

(** The locals of a run suspended at an [await]: the variable
    [callbackIndex] of line 331, which line 339 sets to the index of the
    stage being run, and the constant [callback] of line 340. *)
Record Frame_v2 := mkFrame_v2 {
  f_callbackIndex_v2 : nat;
  f_callback_v2 : TasqCallback }.

Inductive Progress_v2 :=
| Awaiting_v2 (f : Frame_v2) (data : Payload)
| Returned_v2 (result : TasqResult_v2) (handler : option HandlerCall_v2).

(** Lines 342-345. *)
Definition poll_v2 (f : Frame_v2) (t : Tasq_v2) : option (Tasq_v2 * Payload) :=
  if (f_callbackIndex_v2 f =? 0) && (index_v2 t <? length (items_v2 t)) then
    match items_v2 t !! index_v2 t with
    | Some item =>
        let t1 := set_index_v2 (S (index_v2 t)) t in
        let t2 := set_current_v2 (Some item) t1 in
        Some (t2, Item item)
    | None => None
    end
  else None.

Inductive Pass_v2 :=
| Suspend_v2 (t : Tasq_v2) (data : Payload)
| Next_v2 (result : TasqCallbackResult) (t : Tasq_v2).

(** Lines 342-349. *)
Definition stage_v2 (f : Frame_v2) (result : TasqCallbackResult) (t : Tasq_v2)
    : Pass_v2 :=
  match poll_v2 f t with
  | Some (t', data) => Suspend_v2 t' data
  | None =>
      if (0 <? f_callbackIndex_v2 f) && negb (is_break result) then
        Suspend_v2 t (Forwarded (res_data result))
      else Next_v2 result t
  end.

Definition returned_v2
    (out : Tasq_v2 * (TasqResult_v2 * option HandlerCall_v2))
    : Tasq_v2 * Progress_v2 :=
  (fst out, Returned_v2 (fst (snd out)) (snd (snd out))).

(** The outer [while] from its head (lines 338-351); [callbackIndex_] is
    the value of the variable [callbackIndex], which [finally] receives
    when the loop ends. *)
Fixpoint drain_v2 (fuel : nat) (callbackIndex_ : nat)
    (result : TasqCallbackResult) (t : Tasq_v2)
    : option (Tasq_v2 * Progress_v2) :=
  if negb (is_break result) && (callbackIndex_v2 t <? length (callbacks_v2 t))
  then
    match fuel with
    | 0 => None
    | S fuel' =>
        let callbackIndex' := callbackIndex_v2 t in
        let t1 := set_callbackIndex_v2 (S callbackIndex') t in
        match callbacks_v2 t1 !! callbackIndex' with
        | Some callback =>
            let f := mkFrame_v2 callbackIndex' callback in
            match stage_v2 f result t1 with
            | Suspend_v2 t2 data => Some (t2, Awaiting_v2 f data)
            | Next_v2 result' t2 => drain_v2 fuel' callbackIndex' result' t2
            end
        | None => None
        end
    end
  else Some (returned_v2 (finally_v2 callbackIndex_ None false t)).

Definition loop_v2 (callbackIndex_ : nat) (result : TasqCallbackResult)
    (t : Tasq_v2) : Tasq_v2 * Progress_v2 :=
  default (returned_v2 (finally_v2 callbackIndex_ None false t))
          (drain_v2 (S (length (callbacks_v2 t) - callbackIndex_v2 t))
                    callbackIndex_ result t).

(** [runAsync] (lines 320-355) up to its first [await] or its [return]. *)
Definition prologue_v2 (callback : option TasqCallback)
    (rest : list TasqCallback) (t : Tasq_v2) : Tasq_v2 :=
  let t1 := match callback with
            | Some c => do_v2 (Some c) rest t
            | None => t
            end in
  set_callbackIndex_v2 0 t1.

Definition initial_v2 (t : Tasq_v2) : TasqCallbackResult :=
  mkCallbackResult None (Some (length (items_v2 t) <=? index_v2 t)).

Definition runAsync_v2 (callback : option TasqCallback)
    (rest : list TasqCallback) (t : Tasq_v2)
    : Tasq_v2 * option Progress_v2 :=
  let t1 := prologue_v2 callback rest t in
  if running_v2 t1 then (t1, None)
  else
    let callbackIndex_ := callbackIndex_v2 t1 in
    let t2 := set_running_v2 true t1 in
    let out := loop_v2 callbackIndex_ (initial_v2 t2) t2 in
    (fst out, Some (snd out)).

(** [run] (lines 307-313). *)
Definition run_v2 (callback : option TasqCallback) (rest : list TasqCallback)
    (t : Tasq_v2) : Tasq_v2 * option Progress_v2 :=
  let t1 := match callback with
            | Some c => do_v2 (Some c) rest t
            | None => t
            end in
  runAsync_v2 None [] t1.

(** The awaited stage call settles: a thrown value goes to the [catch] of
    line 352 with the index of the stage that was running. *)
Definition resume_v2 (f : Frame_v2) (settled : Settled) (t : Tasq_v2)
    : Tasq_v2 * Progress_v2 :=
  match settled with
  | Rejected error =>
      returned_v2 (finally_v2 (f_callbackIndex_v2 f) (Some error) true t)
  | Fulfilled value =>
      let result := default empty_result value in
      if f_callbackIndex_v2 f =? 0 then
        match stage_v2 f result t with
        | Suspend_v2 t' data => (t', Awaiting_v2 f data)
        | Next_v2 result' t' => loop_v2 (f_callbackIndex_v2 f) result' t'
        end
      else loop_v2 (f_callbackIndex_v2 f) result t
  end.

(** ** The two classes side by side

    An engine of the class with the run counter seen as an engine of the
    class without, and what it means for the two to have come equally
    far: the same stage call with the same data, or the same items and
    error returned and the same handler called with the same items (and,
    for the error handler, the same position in the backlog). *)

Definition forget (t : Tasq) : Tasq_v2 :=
  mkTasq_v2 (index t) (callbackIndex t) (running t) (current t) (items t)
            (callbacks t) (onDone t) (onError t).

Definition forget_frame (f : Frame) : Frame_v2 :=
  mkFrame_v2 (f_callbackIndex f) (f_callback f).

Definition same_call (c : HandlerCall) (c' : HandlerCall_v2) : Prop :=
  match c, c' with
  | OnDone h r, OnDone_v2 h' its => h = h' /\ done_items r = its
  | OnError h r, OnError_v2 h' r' =>
      h = h' /\ err_items r = error_items r' /\ err_index r = error_index r'
  | _, _ => False
  end.

Definition same_progress (p : Progress) (p' : Progress_v2) : Prop :=
  match p, p' with
  | Awaiting f args, Awaiting_v2 f' data =>
      forget_frame f = f' /\ arg_data args = data
  | Returned r c, Returned_v2 r' c' =>
      run_items r = items_of r' /\ run_error r = error_of r' /\
      match c, c' with
      | Some c, Some c' => same_call c c'
      | None, None => True
      | _, _ => False
      end
  | _, _ => False
  end.

(** ** The class of [unnamed/part_001]

    A third class [Tasq], the plainest version: the stage cursor is called
    [cbIndex], [getIndex] returns both cursors, the working result starts
    empty (the drain loop is entered also when the backlog is exhausted),
    [finally] is told nothing about the stage that was running, and the
    error handler receives the thrown value and the items.  Its members
    bear the names of the source with the suffix [_v1]. *)

Record TasqResult_v1 := mkResult_v1 {
  result_items : list T;
  result_error : option Err;
  result_didError : option bool }.

Record Tasq_v1 := mkTasq_v1 {
  index_v1 : nat;
  cbIndex_v1 : nat;
  running_v1 : bool;
  current_v1 : option T;
  items_v1 : list T;
  callbacks_v1 : list TasqCallback;
  onDone_v1 : option TasqDoneCallback;
  onError_v1 : option TasqErrorCallback }.

Definition set_index_v1 (v : nat) (t : Tasq_v1) : Tasq_v1 :=
  mkTasq_v1 v (cbIndex_v1 t) (running_v1 t) (current_v1 t) (items_v1 t)
            (callbacks_v1 t) (onDone_v1 t) (onError_v1 t).
Definition set_cbIndex_v1 (v : nat) (t : Tasq_v1) : Tasq_v1 :=
  mkTasq_v1 (index_v1 t) v (running_v1 t) (current_v1 t) (items_v1 t)
            (callbacks_v1 t) (onDone_v1 t) (onError_v1 t).
Definition set_running_v1 (v : bool) (t : Tasq_v1) : Tasq_v1 :=
  mkTasq_v1 (index_v1 t) (cbIndex_v1 t) v (current_v1 t) (items_v1 t)
            (callbacks_v1 t) (onDone_v1 t) (onError_v1 t).
Definition set_current_v1 (v : option T) (t : Tasq_v1) : Tasq_v1 :=
  mkTasq_v1 (index_v1 t) (cbIndex_v1 t) (running_v1 t) v (items_v1 t)
            (callbacks_v1 t) (onDone_v1 t) (onError_v1 t).
Definition set_items_v1 (v : list T) (t : Tasq_v1) : Tasq_v1 :=
  mkTasq_v1 (index_v1 t) (cbIndex_v1 t) (running_v1 t) (current_v1 t) v
            (callbacks_v1 t) (onDone_v1 t) (onError_v1 t).
Definition set_callbacks_v1 (v : list TasqCallback) (t : Tasq_v1) : Tasq_v1 :=
  mkTasq_v1 (index_v1 t) (cbIndex_v1 t) (running_v1 t) (current_v1 t)
            (items_v1 t) v (onDone_v1 t) (onError_v1 t).
Definition set_onDone_v1 (v : option TasqDoneCallback) (t : Tasq_v1) : Tasq_v1 :=
  mkTasq_v1 (index_v1 t) (cbIndex_v1 t) (running_v1 t) (current_v1 t)
            (items_v1 t) (callbacks_v1 t) v (onError_v1 t).
Definition set_onError_v1 (v : option TasqErrorCallback) (t : Tasq_v1) : Tasq_v1 :=
  mkTasq_v1 (index_v1 t) (cbIndex_v1 t) (running_v1 t) (current_v1 t)
            (items_v1 t) (callbacks_v1 t) (onDone_v1 t) v.

(** The field initializers (lines 28-35). *)
Definition new_v1 : Tasq_v1 := mkTasq_v1 0 0 false None [] [] None None.

(** Accessors and mutators (lines 37-80); [getIndex] returns
    [{ items: this.index, callback: this.cbIndex }]. *)
Record TasqIndex_v1 := mkIndex_v1 {
  index_items : nat;
  index_callback : nat }.

Definition isRunning_v1 (t : Tasq_v1) : bool := running_v1 t.
Definition getItems_v1 (t : Tasq_v1) : list T := items_v1 t.
Definition getCurrent_v1 (t : Tasq_v1) : option T := current_v1 t.
Definition getIndex_v1 (t : Tasq_v1) : TasqIndex_v1 :=
  mkIndex_v1 (index_v1 t) (cbIndex_v1 t).

Definition add_v1 (xs : list T) (t : Tasq_v1) : Tasq_v1 :=
  set_items_v1 (items_v1 t ++ xs) t.

Definition done_v1 (callback : TasqDoneCallback) (t : Tasq_v1) : Tasq_v1 :=
  set_onDone_v1 (Some callback) t.

Definition catch_v1 (callback : TasqErrorCallback) (t : Tasq_v1) : Tasq_v1 :=
  set_onError_v1 (Some callback) t.

(** [_clear] (lines 130-137). *)
Definition _clear_v1 (t : Tasq_v1) : Tasq_v1 * list T :=
  let t1 := set_index_v1 0 t in
  let removed := items_v1 t1 in
  let t2 := set_items_v1 [] t1 in
  let t3 := if negb (running_v1 t2) then set_current_v1 None t2 else t2 in
  (t3, removed).

Definition clear_v1 (t : Tasq_v1) : Tasq_v1 := fst (_clear_v1 t).

Definition do_v1 (callback : option TasqCallback) (rest : list TasqCallback)
    (t : Tasq_v1) : Tasq_v1 :=
  let all := match callback with Some c => c :: rest | None => [] end in
  set_callbacks_v1 all t.

(** The handler [finish] invokes, with the arguments it passes: the error
    handler receives the thrown value and the items, the done handler the
    items. *)
Inductive HandlerCall_v1 :=
| OnError_v1 (callback : TasqErrorCallback) (error : option Err)
             (items : list T)
| OnDone_v1 (callback : TasqDoneCallback) (items : list T).

(** [finish], up to its [await] (lines 147-154); what follows (lines
    155-161) is [finish_settle] above. *)
Definition finish_v1 (result : TasqResult_v1) (t : Tasq_v1)
    : option HandlerCall_v1 :=
  if default false (result_didError result) then
    match onError_v1 t with
    | Some h => Some (OnError_v1 h (result_error result) (result_items result))
    | None => None
    end
  else
    match onDone_v1 t with
    | Some h => Some (OnDone_v1 h (result_items result))
    | None => None
    end.

(** [finally] (lines 139-145). *)
Definition finally_v1 (error : option Err) (didError : bool) (t : Tasq_v1)
    : Tasq_v1 * (TasqResult_v1 * option HandlerCall_v1) :=
  let t1 := set_running_v1 false t in
  let '(t2, items_) := _clear_v1 t1 in
  let result := mkResult_v1 items_ error (Some didError) in
  (t2, (result, finish_v1 result t2)).

(** The locals of a suspended run: the constants [cbIndex] and [callback]
    of lines 112 and 113. *)
Record Frame_v1 := mkFrame_v1 {
  f_cbIndex_v1 : nat;
  f_callback_v1 : TasqCallback }.

Inductive Progress_v1 :=
| Awaiting_v1 (f : Frame_v1) (data : Payload)
| Returned_v1 (result : TasqResult_v1) (handler : option HandlerCall_v1).

(** Lines 115-118. *)
Definition poll_v1 (f : Frame_v1) (t : Tasq_v1) : option (Tasq_v1 * Payload) :=
  if (f_cbIndex_v1 f =? 0) && (index_v1 t <? length (items_v1 t)) then
    match items_v1 t !! index_v1 t with
    | Some item =>
        let t1 := set_index_v1 (S (index_v1 t)) t in
        let t2 := set_current_v1 (Some item) t1 in
        Some (t2, Item item)
    | None => None
    end
  else None.

Inductive Pass_v1 :=
| Suspend_v1 (t : Tasq_v1) (data : Payload)
| Next_v1 (result : TasqCallbackResult) (t : Tasq_v1).

(** Lines 115-122. *)
Definition stage_v1 (f : Frame_v1) (result : TasqCallbackResult) (t : Tasq_v1)
    : Pass_v1 :=
  match poll_v1 f t with
  | Some (t', data) => Suspend_v1 t' data
  | None =>
      if (0 <? f_cbIndex_v1 f) && negb (is_break result) then
        Suspend_v1 t (Forwarded (res_data result))
      else Next_v1 result t
  end.

Definition returned_v1
    (out : Tasq_v1 * (TasqResult_v1 * option HandlerCall_v1))
    : Tasq_v1 * Progress_v1 :=
  (fst out, Returned_v1 (fst (snd out)) (snd (snd out))).

(** The outer [while] from its head (lines 111-124). *)
Fixpoint drain_v1 (fuel : nat) (result : TasqCallbackResult) (t : Tasq_v1)
    : option (Tasq_v1 * Progress_v1) :=
  if negb (is_break result) && (cbIndex_v1 t <? length (callbacks_v1 t)) then
    match fuel with
    | 0 => None
    | S fuel' =>
        let cbIndex_ := cbIndex_v1 t in
        let t1 := set_cbIndex_v1 (S cbIndex_) t in
        match callbacks_v1 t1 !! cbIndex_ with
        | Some callback =>
            let f := mkFrame_v1 cbIndex_ callback in
            match stage_v1 f result t1 with
            | Suspend_v1 t2 data => Some (t2, Awaiting_v1 f data)
            | Next_v1 result' t2 => drain_v1 fuel' result' t2
            end
        | None => None
        end
    end
  else Some (returned_v1 (finally_v1 None false t)).

Definition loop_v1 (result : TasqCallbackResult) (t : Tasq_v1)
    : Tasq_v1 * Progress_v1 :=
  default (returned_v1 (finally_v1 None false t))
          (drain_v1 (S (length (callbacks_v1 t) - cbIndex_v1 t)) result t).

(** [runAsync] (lines 97-128) up to its first [await] or its [return]:
    the working result starts as [{}]. *)
Definition prologue_v1 (callback : option TasqCallback)
    (rest : list TasqCallback) (t : Tasq_v1) : Tasq_v1 :=
  let t1 := match callback with
            | Some c => do_v1 (Some c) rest t
            | None => t
            end in
  set_cbIndex_v1 0 t1.

Definition runAsync_v1 (callback : option TasqCallback)
    (rest : list TasqCallback) (t : Tasq_v1)
    : Tasq_v1 * option Progress_v1 :=
  let t1 := prologue_v1 callback rest t in
  if running_v1 t1 then (t1, None)
  else
    let t2 := set_running_v1 true t1 in
    let out := loop_v1 empty_result t2 in
    (fst out, Some (snd out)).

(** [run] (lines 84-90). *)
Definition run_v1 (callback : option TasqCallback) (rest : list TasqCallback)
    (t : Tasq_v1) : Tasq_v1 * option Progress_v1 :=
  let t1 := match callback with
            | Some c => do_v1 (Some c) rest t
            | None => t
            end in
  runAsync_v1 None [] t1.

Definition resume_v1 (f : Frame_v1) (settled : Settled) (t : Tasq_v1)
    : Tasq_v1 * Progress_v1 :=
  match settled with
  | Rejected error => returned_v1 (finally_v1 (Some error) true t)
  | Fulfilled value =>
      let result := default empty_result value in
      if f_cbIndex_v1 f =? 0 then
        match stage_v1 f result t with
        | Suspend_v1 t' data => (t', Awaiting_v1 f data)
        | Next_v1 result' t' => loop_v1 result' t'
        end
      else loop_v1 result t
  end.

(** An engine of the class without the run counter seen as an engine of
    this class, and what it means for the two to have come equally far. *)
Definition plain (t : Tasq_v2) : Tasq_v1 :=
  mkTasq_v1 (index_v2 t) (callbackIndex_v2 t) (running_v2 t) (current_v2 t)
            (items_v2 t) (callbacks_v2 t) (onDone_v2 t) (onError_v2 t).

Definition plain_frame (f : Frame_v2) : Frame_v1 :=
  mkFrame_v1 (f_callbackIndex_v2 f) (f_callback_v2 f).

Definition same_call_v1 (c : HandlerCall_v2) (c' : HandlerCall_v1) : Prop :=
  match c, c' with
  | OnDone_v2 h its, OnDone_v1 h' its' => h = h' /\ its = its'
  | OnError_v2 h r, OnError_v1 h' e its =>
      h = h' /\ error_error r = e /\ error_items r = its
  | _, _ => False
  end.

Definition same_progress_v1 (p : Progress_v2) (p' : Progress_v1) : Prop :=
  match p, p' with
  | Awaiting_v2 f data, Awaiting_v1 f' data' =>
      plain_frame f = f' /\ data = data'
  | Returned_v2 r c, Returned_v1 r' c' =>
      items_of r = result_items r' /\ error_of r = result_error r' /\
      match c, c' with
      | Some c, Some c' => same_call_v1 c c'
      | None, None => True
      | _, _ => False
      end
  | _, _ => False
  end.

(** ** The drain loop is well defined *)

Lemma keeps_refl t : keeps t t.
Proof. by repeat split. Qed.

Lemma keeps_trans t1 t2 t3 : keeps t1 t2 -> keeps t2 t3 -> keeps t1 t3.
Proof.
  unfold keeps. intros (?&?&?&?&?&?&?) (?&?&?&?&?&?&?).
  repeat split; congruence.
Qed.

Lemma poll_Some f t t' args :
  poll f t = Some (t', args) ->
  f_callbackIndex f = 0 /\
  exists item, items t !! index t = Some item /\
    t' = set_current (Some item) (set_index (S (index t)) t) /\
    args = mkArgs (f_nth f) (Item item).
Proof.
  unfold poll. intros H.
  destruct (f_callbackIndex f =? 0) eqn:E0; simpl in H; [|done].
  destruct (index t <? length (items t)); simpl in H; [|done].
  destruct (items t !! index t) as [item|] eqn:E; [|done].
  injection H as <- <-. apply Nat.eqb_eq in E0. eauto.
Qed.

(** The guard of the inner loop makes the element access succeed: [poll]
    fails only when the guard does. *)
Lemma poll_in_range f t :
  poll f t = None -> f_callbackIndex f <> 0 \/ length (items t) <= index t.
Proof.
  unfold poll. intros H.
  destruct (Nat.eqb_spec (f_callbackIndex f) 0) as [E0|E0]; simpl in H; [|by left].
  destruct (Nat.ltb_spec (index t) (length (items t))) as [Hlt|Hge]; simpl in H.
  - apply lookup_lt_is_Some_2 in Hlt as [item Hit]. by rewrite Hit in H.
  - by right.
Qed.

Lemma poll_keeps f t t' args : poll f t = Some (t', args) -> keeps t t'.
Proof.
  intros (_ & item & _ & -> & _)%poll_Some. by repeat split.
Qed.

Lemma stage_Suspend f result t t' args :
  stage f result t = Suspend t' args -> keeps t t' /\ arg_nth args = f_nth f.
Proof.
  unfold stage. destruct (poll f t) as [[t1 a1]|] eqn:E.
  - intros [= <- <-]. split; [by eapply poll_keeps|].
    by apply poll_Some in E as (_ & item & _ & _ & ->).
  - destruct (_ && _); intros [= <- <-]. split; [apply keeps_refl|done].
Qed.

(** A run is suspended at line 151 with an item, which takes
    [callbackIndex = 0], and at line 154 with forwarded data, which takes
    [callbackIndex > 0]: the frame tells the [await] it belongs to. *)
Lemma stage_Suspend_point f result t t' args :
  stage f result t = Suspend t' args ->
  (f_callbackIndex f = 0 /\ exists item, arg_data args = Item item) \/
  (0 < f_callbackIndex f /\ exists data, arg_data args = Forwarded data).
Proof.
  unfold stage. destruct (poll f t) as [[t1 a1]|] eqn:E.
  - intros [= <- <-]. apply poll_Some in E as (Hz & item & _ & _ & ->).
    left. split; [done|]. by exists item.
  - destruct (Nat.ltb_spec 0 (f_callbackIndex f)) as [Hpos|Hz]; [|done].
    destruct (negb (is_break result)); [|done]. intros [= <- <-].
    right. split; [done|]. by eexists.
Qed.

Lemma stage_Next f result t result' t' :
  stage f result t = Next result' t' ->
  result' = result /\ t' = t /\ poll f t = None /\
  (f_callbackIndex f = 0 \/ is_break result = true).
Proof.
  unfold stage. destruct (poll f t) as [[t1 a1]|] eqn:E; [done|].
  destruct (Nat.ltb_spec 0 (f_callbackIndex f)) as [Hpos|Hz]; simpl.
  - destruct (is_break result) eqn:Eb; simpl; [|done].
    intros [= <- <-]. auto.
  - intros [= <- <-]. repeat split; auto. left; lia.
Qed.

(** Enough fuel: the outer loop needs at most one pass per remaining stage. *)
Lemma drain_enough fuel n result t :
  length (callbacks t) - callbackIndex t < fuel ->
  is_Some (drain fuel n result t).
Proof.
  revert result t. induction fuel as [|fuel IH]; intros result t Hfuel; [lia|].
  simpl. destruct (negb (is_break result)); simpl; [|by eexists].
  destruct (Nat.ltb_spec (callbackIndex t) (length (callbacks t)))
    as [Hlt|Hge]; [|by eexists].
  destruct (lookup_lt_is_Some_2 (callbacks t) (callbackIndex t) Hlt)
    as [callback Hcb].
  simpl. rewrite Hcb.
  destruct (stage _ result _) as [t2 args|result' t2] eqn:Est; [by eexists|].
  apply stage_Next in Est as (-> & -> & _). apply IH. simpl. lia.
Qed.

(** What a run of the outer loop amounts to: it is suspended at a stage
    call, or it has called [finally] without an error; up to there it has
    only moved the cursors and the current item. *)
Lemma drain_cases fuel n result t t' p :
  drain fuel n result t = Some (t', p) ->
  (exists f args, p = Awaiting f args /\ keeps t t' /\ f_nth f = n /\
                  arg_nth args = n) \/
  (exists t'', keeps t t'' /\ (t', p) = returned (finally n None false t'')).
Proof.
  revert result t. induction fuel as [|fuel IH]; intros result t; simpl.
  - destruct (_ && _); [done|]. intros [= <- <-]. right. exists t.
    split; [apply keeps_refl|done].
  - destruct (_ && _).
    + destruct (callbacks t !! callbackIndex t) as [callback|]; [|done].
      destruct (stage _ result _) as [t2 args|result' t2] eqn:Est.
      * intros [= <- <-]. left. eexists _, _. split; [done|].
        apply stage_Suspend in Est as [Hk Hn]. simpl in Hn.
        split; [|done]. eapply keeps_trans; [|exact Hk]. by repeat split.
      * apply stage_Next in Est as (-> & -> & _). intros H.
        apply IH in H as [(f & args & -> & Hk & Hf)|(t'' & Hk & Hfin)].
        -- left. eexists _, _. split; [done|]. split; [|done].
           eapply keeps_trans; [|exact Hk]. by repeat split.
        -- right. exists t''. split; [|done].
           eapply keeps_trans; [|exact Hk]. by repeat split.
    + intros [= <- <-]. right. exists t. split; [apply keeps_refl|done].
Qed.

Lemma loop_drain n result t :
  drain (S (length (callbacks t) - callbackIndex t)) n result t
  = Some (loop n result t).
Proof.
  unfold loop.
  destruct (drain_enough (S (length (callbacks t) - callbackIndex t)) n result t)
    as [out ->]; [lia|done].
Qed.

(** [loop] satisfies the equation of the outer [while]: the fuel and the
    default in its definition play no part. *)
Lemma loop_unfold n result t :
  loop n result t =
  if negb (is_break result) && (callbackIndex t <? length (callbacks t)) then
    match callbacks t !! callbackIndex t with
    | Some callback =>
        let f := mkFrame n (callbackIndex t) callback in
        match stage f result (set_callbackIndex (S (callbackIndex t)) t) with
        | Suspend t2 args => (t2, Awaiting f args)
        | Next result' t2 => loop n result' t2
        end
    | None => returned (finally n None false t)
    end
  else returned (finally n None false t).
Proof.
  unfold loop at 1. cbn [drain].
  destruct (negb (is_break result)); cbn [andb]; [|done].
  destruct (Nat.ltb_spec (callbackIndex t) (length (callbacks t)))
    as [Hlt|Hge]; [|done].
  change (callbacks (set_callbackIndex _ t)) with (callbacks t).
  destruct (callbacks t !! callbackIndex t) as [callback|]; [|done].
  cbn zeta.
  destruct (stage _ result _) as [t2 args|result' t2] eqn:Est; [done|].
  apply stage_Next in Est as (-> & -> & _).
  replace (length (callbacks t) - callbackIndex t)
    with (S (length (callbacks (set_callbackIndex (S (callbackIndex t)) t))
             - callbackIndex (set_callbackIndex (S (callbackIndex t)) t)))
    by (simpl; lia).
  by rewrite loop_drain.
Qed.

Lemma loop_cases n result t t' p :
  loop n result t = (t', p) ->
  (exists f args, p = Awaiting f args /\ keeps t t' /\ f_nth f = n /\
                  arg_nth args = n) \/
  (exists t'', keeps t t'' /\ (t', p) = returned (finally n None false t'')).
Proof.
  intros H. eapply drain_cases. rewrite loop_drain. by rewrite H.
Qed.

(** ** Finalization and resumption *)

Lemma finally_spec n e d t :
  finally n e d t =
  (finalized t,
   (mkRunResult n (items t) (if d then e else None),
    finish (mkDoneResult n (items t))
           (mkErrorResult n (items t) None (Z.of_nat (index t) - 1)
                          (callbackIndex t))
           d t)).
Proof. by destruct d. Qed.

(** A resumed run is suspended again, or it has called [finally]: with the
    thrown value when the stage call threw, without one otherwise. *)
Lemma resume_cases f settled t t' p :
  resume f settled t = (t', p) ->
  (exists f' args, p = Awaiting f' args /\ keeps t t' /\
      f_nth f' = f_nth f /\ arg_nth args = f_nth f /\
      exists value, settled = Fulfilled value) \/
  (exists t'' e d, keeps t t'' /\
      (t', p) = returned (finally (f_nth f) e d t'') /\
      match settled with
      | Rejected error => e = Some error /\ d = true /\ t'' = t
      | Fulfilled _ => e = None /\ d = false
      end).
Proof.
  destruct settled as [value|error]; cbn [resume].
  - destruct (f_callbackIndex f =? 0).
    + destruct (stage f _ t) as [t1 args|result' t1] eqn:Est.
      * intros [= <- <-]. left. apply stage_Suspend in Est as [Hk Hn].
        eexists _, _. repeat split; try done; try apply Hk. by eexists.
      * apply stage_Next in Est as (-> & -> & _). intros H.
        apply loop_cases in H as [(f' & args & -> & Hk & Hf & Ha)|(t'' & Hk & Hfin)].
        -- left. eexists _, _. repeat split; try done; try apply Hk. by eexists.
        -- right. by exists t'', None, false.
    + intros H.
      apply loop_cases in H as [(f' & args & -> & Hk & Hf & Ha)|(t'' & Hk & Hfin)].
      * left. eexists _, _. repeat split; try done; try apply Hk. by eexists.
      * right. by exists t'', None, false.
  - intros H. right. exists t, (Some error), true.
    split; [apply keeps_refl|]. by rewrite H.
Qed.

(** [run] and [runAsync] do the same to the engine; they differ in what the
    caller gets back ([this] or the promise). *)
Lemma run_runAsync callback rest t : run callback rest t = runAsync callback rest t.
Proof. by destruct callback. Qed.

Lemma exec_cons m i inputs : exec m (i :: inputs) = exec (step m i) inputs.
Proof. done. Qed.

Lemma exec_app m pre post : exec m (pre ++ post) = exec (exec m pre) post.
Proof. apply foldl_app. Qed.

Lemma handled_app tr tr' : handled (tr ++ tr') = handled tr ++ handled tr'.
Proof. apply omap_app. Qed.

Lemma add_add xs ys t : add ys (add xs t) = add (xs ++ ys) t.
Proof. unfold add, set_items. simpl. by rewrite app_assoc. Qed.

(** ** Accepted runs *)

Lemma prologue_keeps callback rest t :
  nth (prologue callback rest t) = nth t /\
  running (prologue callback rest t) = running t /\
  items (prologue callback rest t) = items t /\
  index (prologue callback rest t) = index t /\
  current (prologue callback rest t) = current t /\
  onDone (prologue callback rest t) = onDone t /\
  onError (prologue callback rest t) = onError t /\
  options (prologue callback rest t) = options t /\
  callbackIndex (prologue callback rest t) = 0.
Proof. by destruct callback. Qed.

(** An accepted run takes the number after the counter, and is suspended at
    a stage call or has called [finally] without an error. *)
Lemma accept_cases t t' p :
  accept t = (t', p) ->
  (exists f args, p = Awaiting f args /\ f_nth f = S (nth t) /\
      arg_nth args = S (nth t) /\
      nth t' = S (nth t) /\ running t' = true /\ items t' = items t /\
      onDone t' = onDone t /\ onError t' = onError t /\
      options t' = options t) \/
  (exists t'', items t'' = items t /\ onDone t'' = onDone t /\
      onError t'' = onError t /\
      (t', p) = returned (finally (S (nth t)) None false t'') /\
      number_of p = S (nth t) /\ options t'' = options t).
Proof.
  unfold accept. intros H.
  apply loop_cases in H
    as [(f & args & -> & Hk & Hf & Ha)|(t'' & Hk & Hfin)];
    destruct Hk as (Hn&Hr&Hit&_&Hd&He&Ho); simpl in *.
  - left. by eexists _, _.
  - right. exists t''. repeat split; try done.
    rewrite finally_spec in Hfin. by injection Hfin as _ ->.
Qed.

Lemma feeding_driving id inputs :
  forallb (feeding id) inputs = true -> forallb (driving id) inputs = true.
Proof.
  rewrite !forallb_forall. intros H i Hi. specialize (H i Hi).
  by destruct i as [| | | | | | |? []|].
Qed.

Lemma step_run m callback rest :
  step m (CallRun callback rest) = step m (CallRunAsync callback rest).
Proof. cbn [step]. by rewrite run_runAsync. Qed.

(** ** Driving a run *)

Lemma finish_handlers dr er d t t' :
  onDone t' = onDone t -> onError t' = onError t ->
  finish dr er d t' = finish dr er d t.
Proof. intros Hd He. unfold finish. by rewrite Hd, He. Qed.


Lemma book_Awaiting id t f args m :
  book id (t, Awaiting f args) m =
  mkMachine t (<[id := f]> (awaiting m)) (finishing m) (accepted m)
            (trace m ++ [Invoked id f args]).
Proof. done. Qed.

Lemma book_Returned id t r call m :
  task (book id (t, Returned r call) m) = t /\
  awaiting (book id (t, Returned r call) m) = delete id (awaiting m) /\
  accepted (book id (t, Returned r call) m) = accepted m /\
  trace (book id (t, Returned r call) m)
    = trace m ++ match call with
                 | Some c => [Handled id c; Resolved id r]
                 | None => [Resolved id r]
                 end /\
  handled (trace (book id (t, Returned r call) m))
    = handled (trace m) ++ calls_of id call.
Proof.
  destruct call as [c|]; cbn [book snd fst task awaiting accepted trace];
    rewrite handled_app; repeat split; simpl; by rewrite ?app_nil_r.
Qed.

(** Once run [id] has returned, inputs that drive it only grow the backlog. *)
Lemma drive_finished post m id :
  awaiting m !! id = None ->
  forallb (driving id) post = true ->
  exec m post = set_task (add (adds post) (task m)) m.
Proof.
  revert m. induction post as [|i post IH]; intros m Hid Hdrv.
  - destruct m as [[] ? ? ? ?]. unfold set_task, add, set_items, adds. simpl.
    by rewrite app_nil_r.
  - simpl in Hdrv. apply andb_true_iff in Hdrv as [Hi Hdrv].
    rewrite exec_cons. destruct i as [xs| | | | | | |id' settled|]; try done.
    + rewrite IH by done. unfold set_task. simpl. by rewrite add_add.
    + apply Nat.eqb_eq in Hi as ->. simpl. rewrite Hid. by apply IH.
Qed.

(** While run [id] is suspended and only driven, the backlog is what it was
    plus the appended items; when the run returns, [finish] is called once
    with exactly that list, and the backlog is empty. *)
Lemma drive_active sched : forall m id f,
  awaiting m !! id = Some f ->
  forallb (driving id) sched = true ->
  (is_Some (awaiting (exec m sched) !! id) /\
   items (task (exec m sched)) = items (task m) ++ adds sched /\
   handled (trace (exec m sched)) = handled (trace m)) \/
  (exists pre post d ix ci,
     sched = pre ++ post /\
     handled (trace (exec m sched)) =
       handled (trace m)
       ++ calls_of id
            (finish (mkDoneResult (f_nth f) (items (task m) ++ adds pre))
                    (mkErrorResult (f_nth f) (items (task m) ++ adds pre)
                                   None ix ci)
                    d (task m)) /\
     (d = true -> forallb (feeding id) pre = false) /\
     items (task (exec m pre)) = [] /\
     items (task (exec m sched)) = adds post /\
     awaiting (exec m sched) !! id = None).
Proof.
  induction sched as [|i sched IH]; intros m id f Hid Hdrv.
  - left. unfold adds. simpl. rewrite app_nil_r, Hid. by eauto.
  - simpl in Hdrv. apply andb_true_iff in Hdrv as [Hi Hdrv].
    rewrite exec_cons. destruct i as [xs| | | | | | |id' settled|]; try done.
    + (* add *)
      destruct (IH (step m (CallAdd xs)) id f Hid Hdrv)
        as [(Ha & Hit & Hh)
           |(pre & post & d & ix & ci & -> & Hh & Hd & Hpre & Hpost & Ha)].
      * left. split; [done|]. split; [|done].
        rewrite Hit. unfold adds. simpl. by rewrite app_assoc.
      * right. exists (CallAdd xs :: pre), post, d, ix, ci. split; [done|].
        split; [|done]. rewrite Hh. simpl. unfold adds at 3 4. simpl.
        by rewrite !app_assoc.
    + (* the awaited stage call settles *)
      apply Nat.eqb_eq in Hi as ->.
      assert (Hadds : forall l, adds (StageSettles id settled :: l) = adds l)
        by done.
      cbn [step]. rewrite Hid.
      destruct (resume f settled (task m)) as [t' p] eqn:Eres.
      destruct (resume_cases _ _ _ _ _ Eres)
        as [(f' & args & -> & Hk & Hf & _ & value & ->)
           |(t'' & e & d & Hk & Hfin & Hset)].
      * destruct Hk as (_&_&Hit&_&Hd&He&_).
        edestruct (IH (book id (t', Awaiting f' args) m) id f')
          as [(Ha & Hit' & Hh)
             |(pre & post & d & ix & ci & -> & Hh & Hdd & Hpre & Hpost & Ha)];
          [apply lookup_insert_eq|done| |].
        -- left. split; [done|]. rewrite Hit', Hh, Hadds. split.
           ++ simpl. by rewrite Hit.
           ++ simpl. rewrite handled_app. simpl. by rewrite app_nil_r.
        -- right.
           exists (StageSettles id (Fulfilled value) :: pre), post, d, ix, ci.
           split; [done|]. rewrite Hadds. split; [|split; [|split; [|done]]].
           ++ rewrite Hh. simpl. rewrite handled_app. simpl.
              rewrite app_nil_r, Hit, Hf. do 2 f_equal.
              by apply finish_handlers.
           ++ intros Hdt. simpl. rewrite Nat.eqb_refl. by apply Hdd.
           ++ rewrite exec_cons. cbn [step]. by rewrite Hid, Eres.
      * rewrite finally_spec in Hfin. unfold returned in Hfin.
        cbn [fst snd] in Hfin. injection Hfin as -> ->.
        destruct Hk as (_&_&Hit&_&Hd&He&_).
        right. exists [StageSettles id settled], sched, d,
                 (Z.of_nat (index t'') - 1)%Z, (callbackIndex t'').
        split; [done|].
        set (m1 := book id _ m).
        assert (Hm1 : awaiting m1 !! id = None).
        { unfold m1. rewrite (proj1 (proj2 (book_Returned _ _ _ _ _))).
          apply lookup_delete_eq. }
        rewrite (drive_finished sched m1 id Hm1 Hdrv).
        split; [|split; [|split; [|split]]].
        -- unfold set_task. cbn [trace]. unfold m1.
           rewrite (proj2 (proj2 (proj2 (proj2 (book_Returned _ _ _ _ _))))).
           rewrite Hadds. unfold adds at 1 2. simpl.
           rewrite !app_nil_r, Hit. do 2 f_equal. by apply finish_handlers.
        -- intros ->. by destruct settled as [value|error]; [destruct Hset|].
        -- unfold exec. cbn [foldl step]. rewrite Hid, Eres.
           by rewrite (proj1 (book_Returned _ _ _ _ _)).
        -- unfold set_task. cbn [task]. unfold m1.
           by rewrite (proj1 (book_Returned _ _ _ _ _)).
        -- done.
Qed.

(** ** What one step adds to the trace *)

Lemma invoked_app tr tr' : invoked (tr ++ tr') = invoked tr ++ invoked tr'.
Proof. apply omap_app. Qed.

Lemma numbers_app tr tr' : numbers (tr ++ tr') = numbers tr ++ numbers tr'.
Proof. apply omap_app. Qed.

Lemma resolved_app tr tr' : resolved (tr ++ tr') = resolved tr ++ resolved tr'.
Proof. apply omap_app. Qed.

Lemma runAsync_blocked callback rest t :
  running t = true -> is_blocking t = true ->
  runAsync callback rest t = (prologue callback rest t, None).
Proof.
  intros Hr Hb. unfold runAsync, is_blocking in *.
  destruct (prologue_keeps callback rest t) as (_&->&_&_&_&_&_&->&_).
  by rewrite Hr, Hb.
Qed.

Lemma runAsync_accepted callback rest t :
  running t && is_blocking t = false ->
  runAsync callback rest t =
  ((accept (prologue callback rest t)).1,
   Some (accept (prologue callback rest t)).2).
Proof.
  intros Hg. unfold runAsync, is_blocking in *.
  destruct (prologue_keeps callback rest t) as (_&->&_&_&_&_&_&->&_).
  by rewrite Hg.
Qed.

(** What booking a finalization adds: the handler call made by [finish], if
    any, and the resolution of the run's promise. *)
Lemma book_finally id n e d t m :
  exists new,
    trace (book id (returned (finally n e d t)) m) = trace m ++ new /\
    handled new =
      calls_of id
        (finish (mkDoneResult n (items t))
                (mkErrorResult n (items t) None (Z.of_nat (index t) - 1)
                               (callbackIndex t))
                d t) /\
    resolved new = [id] /\ numbers new = [] /\ invoked new = [] /\
    task (book id (returned (finally n e d t)) m) = finalized t /\
    awaiting (book id (returned (finally n e d t)) m) = delete id (awaiting m) /\
    accepted (book id (returned (finally n e d t)) m) = accepted m.
Proof.
  rewrite finally_spec. unfold returned. cbn [fst snd].
  destruct (finish _ _ d t) as [c|]; eexists; by repeat split.
Qed.

Lemma launch_accepted t p m :
  launch (t, Some p) m =
  book (accepted m) (t, p)
       (mkMachine (task m) (awaiting m) (finishing m) (S (accepted m))
                  (trace m ++ [Accepted (accepted m) (number_of p)])).
Proof. done. Qed.




(** A step hands out at most one run number, the one after the counter;
    the counter ends at [0] when a run returns in the step, and otherwise
    has counted the accepted run. *)
Lemma step_numbers m i :
  exists new, trace (step m i) = trace m ++ new /\
    (numbers new = [] \/ numbers new = [S (nth (task m))]) /\
    nth (task (step m i)) =
      match resolved new with
      | [] => nth (task m) + length (numbers new)
      | _ => 0
      end.
Proof.
  assert (Hnone : forall t, nth t = nth (task m) ->
    exists new : list Event, trace m = trace m ++ new /\
    (numbers new = [] \/ numbers new = [S (nth (task m))]) /\
    nth t = match resolved new with
            | [] => nth (task m) + length (numbers new)
            | _ => 0
            end).
  { intros t Ht. exists []. rewrite app_nil_r. split; [done|].
    split; [by left|]. simpl. lia. }
  assert (Hlaunch : forall callback rest,
    exists new, trace (launch (runAsync callback rest (task m)) m)
                = trace m ++ new /\
      (numbers new = [] \/ numbers new = [S (nth (task m))]) /\
      nth (task (launch (runAsync callback rest (task m)) m)) =
        match resolved new with
        | [] => nth (task m) + length (numbers new)
        | _ => 0
        end).
  { intros callback rest. unfold runAsync.
    destruct (prologue_keeps callback rest (task m))
      as (Hn&_&_&_&_&_&_&_&_).
    destruct (_ && _).
    - exists [Ignored]. split; [done|]. split; [by left|].
      cbn [launch snd fst task]. rewrite Hn. simpl. lia.
    - destruct (accept _) as [t' p] eqn:Eacc. cbn [fst snd].
      rewrite launch_accepted.
      destruct (accept_cases _ _ _ Eacc)
        as [(f & args & -> & Hf & _ & Hn' & _)|(t'' & _ & _ & _ & -> & Hp & _)].
      + eexists [_; _]. rewrite book_Awaiting. cbn [trace task].
        rewrite <- app_assoc. split; [done|]. simpl. rewrite Hf, Hn', Hn.
        split; [by right|lia].
      + edestruct book_finally as (new & -> & _ & Hr & Hnum & _ & -> & _).
        eexists (_ :: new). cbn [trace]. rewrite <- app_assoc.
        split; [done|].
        change (resolved (?e :: new)) with (resolved new).
        change (numbers (Accepted ?i ?n :: new)) with (n :: numbers new).
        rewrite Hr, Hnum, Hp, Hn. by split; [right|]. }
  destruct i as [xs|cb|cb| |cb rest|cb rest|cb rest|id settled|id thrown];
    try (by apply Hnone).
  - apply Hnone. cbn [step set_task task]. unfold clear, _clear. simpl.
    by destruct (running (task m)).
  - cbn [step]. rewrite run_runAsync. apply Hlaunch.
  - apply Hlaunch.
  - cbn [step]. destruct (awaiting m !! id) as [f|]; [|by apply Hnone].
    destruct (resume f settled (task m)) as [t' p] eqn:Eres.
    destruct (resume_cases _ _ _ _ _ Eres)
      as [(f' & args & -> & Hk & _)|(t'' & e & d & Hk & -> & _)].
    + eexists [_]. rewrite book_Awaiting. cbn [trace task].
      split; [done|]. split; [by left|]. simpl. destruct Hk as (->&_). lia.
    + edestruct book_finally as (new & -> & _ & Hr & Hnum & _ & -> & _).
      exists new. split; [done|]. rewrite Hr, Hnum. by split; [left|].
  - cbn [step]. destruct (finishing m !! id) as [d|]; [|by apply Hnone].
    destruct thrown as [error|]; simpl; [|by apply Hnone].
    eexists [_]. split; [done|]. split; [by left|]. simpl. lia.
Qed.

(** A working result that says [break] ends the run at the loop head. *)
Lemma loop_break n result t :
  is_break result = true -> loop n result t = returned (finally n None false t).
Proof. intros Hb. unfold loop. simpl. by rewrite Hb. Qed.

(** A thrown value ends the run: [finish] is called once, with
    [didError], and the promise is resolved; no stage is invoked. *)
Lemma rejected_step m id f error :
  awaiting m !! id = Some f ->
  exists new,
    trace (step m (StageSettles id (Rejected error))) = trace m ++ new /\
    handled new =
      calls_of id
        (finish (mkDoneResult (f_nth f) (items (task m)))
                (mkErrorResult (f_nth f) (items (task m)) None
                               (Z.of_nat (index (task m)) - 1)
                               (callbackIndex (task m)))
                true (task m)) /\
    resolved new = [id] /\ invoked new = [] /\
    awaiting (step m (StageSettles id (Rejected error)))
      = delete id (awaiting m).
Proof.
  intros Hid. cbn [step resume]. rewrite Hid.
  destruct (book_finally id (f_nth f) (Some error) true (task m) m)
    as (new & Htr & Hh & Hr & _ & Hi & _ & Ha & _).
  by exists new.
Qed.

Lemma exec_trace_grows inputs m :
  exists new, trace (exec m inputs) = trace m ++ new.
Proof.
  revert m. induction inputs as [|i inputs IH]; intros m.
  - exists []. by rewrite app_nil_r.
  - rewrite exec_cons. destruct (step_numbers m i) as (new1 & H1 & _).
    destruct (IH (step m i)) as (new2 & H2).
    exists (new1 ++ new2). by rewrite H2, H1, app_assoc.
Qed.


(** ** Pending handler calls *)

Lemma settling_sound_grows m m' new :
  finishing m' = finishing m -> trace m' = trace m ++ new ->
  settling_sound m -> settling_sound m'.
Proof.
  intros Hf Ht Hs id d. rewrite Hf, Ht. intros (call & r & Hc & Hr & Hd)%Hs.
  exists call, r. rewrite !elem_of_app. auto.
Qed.

Lemma book_sound id out m : settling_sound m -> settling_sound (book id out m).
Proof.
  intros Hs. destruct out as [t [f args|r [c|]]].
  - by eapply settling_sound_grows; [| |exact Hs].
  - intros id' d'. cbn [book snd fst finishing trace].
    intros [[<- <-]|[Hne Hold]]%lookup_insert_Some.
    + exists c, r. rewrite !elem_of_app, !elem_of_cons. tauto.
    + apply Hs in Hold as (call & r' & Hc & Hr & Hd).
      exists call, r'. rewrite !elem_of_app. auto.
  - by eapply settling_sound_grows; [| |exact Hs].
Qed.

Lemma launch_sound out m : settling_sound m -> settling_sound (launch out m).
Proof.
  intros Hs. destruct out as [t [p|]].
  - rewrite launch_accepted. apply book_sound.
    by eapply settling_sound_grows; [| |exact Hs].
  - by eapply settling_sound_grows; [| |exact Hs].
Qed.

Lemma settling_sound_step m i : settling_sound m -> settling_sound (step m i).
Proof.
  intros Hs.
  destruct i as [xs|cb|cb| |cb rest|cb rest|cb rest|id settled|id thrown];
    cbn [step];
    try (eapply (settling_sound_grows _ _ []); [done|by rewrite app_nil_r|done]).
  - by apply launch_sound.
  - by apply launch_sound.
  - destruct (awaiting m !! id); [by apply book_sound|done].
  - destruct (finishing m !! id) as [d|]; [|done].
    assert (Hdel : forall tr new, tr = trace m ++ new ->
      settling_sound (mkMachine (task m) (awaiting m) (delete id (finishing m))
                                (accepted m) tr)).
    { intros tr new -> id' d'. cbn [finishing trace].
      intros [_ Hold]%lookup_delete_Some.
      apply Hs in Hold as (call & r' & Hc & Hr & Hd).
      exists call, r'. rewrite !elem_of_app. auto. }
    destruct thrown as [error|]; simpl.
    + by eapply Hdel.
    + apply (Hdel _ []). by rewrite app_nil_r.
Qed.

Lemma settling_sound_exec inputs m :
  settling_sound m -> settling_sound (exec m inputs).
Proof.
  revert m. induction inputs as [|i inputs IH]; intros m Hs; [done|].
  rewrite exec_cons. by apply IH, settling_sound_step.
Qed.

(** ** Each run is handled at most once *)

Lemma book_shape id out m :
  exists new,
    trace (book id out m) = trace m ++ new /\
    accepted (book id out m) = accepted m /\
    ((exists f, awaiting (book id out m) = <[id := f]> (awaiting m) /\
                handled new = []) \/
     (exists c, awaiting (book id out m) = delete id (awaiting m) /\
                handled new = calls_of id c)).
Proof.
  destruct out as [t [f args|r [c|]]]; eexists; (split; [done|]);
    (split; [done|]).
  - left. by eexists.
  - right. by exists (Some c).
  - right. by exists None.
Qed.

Lemma book_well_formed id out m :
  well_formed m -> id < accepted m ->
  (forall c, (id, c) ∉ handled (trace m)) ->
  well_formed (book id out m).
Proof.
  intros (Hkeys & Hold & Hnd) Hlt Hfresh.
  destruct (book_shape id out m) as (new & Htr & Hacc & Hsh).
  unfold well_formed. rewrite Htr, Hacc, handled_app.
  destruct Hsh as [(f & -> & ->)|(c & -> & ->)].
  - rewrite app_nil_r. split; [|split; [|done]].
    + intros id' f' [[<- _]|[_ Hf]]%lookup_insert_Some; [done|].
      by eapply Hkeys.
    + intros id' c Hc. destruct (Hold _ _ Hc) as [H1 H2]. split; [done|].
      rewrite lookup_insert_ne; [done|]. intros <-. by eapply Hfresh.
  - split; [|split].
    + intros id' f' [_ Hf]%lookup_delete_Some. by eapply Hkeys.
    + intros id' c' [Hc|Hc]%elem_of_app.
      * destruct (Hold _ _ Hc) as [H1 H2]. split; [done|].
        destruct (decide (id = id')) as [<-|Hne];
          [apply lookup_delete_eq|by rewrite lookup_delete_ne].
      * destruct c as [c|]; simpl in Hc; [|by apply elem_of_nil in Hc].
        apply list_elem_of_singleton in Hc as [= <- <-].
        split; [done|apply lookup_delete_eq].
    + rewrite fmap_app. apply NoDup_app. split; [done|]. split.
      * intros id' Hin Hin'. destruct c as [c|]; simpl in Hin';
          [|by apply elem_of_nil in Hin'].
        apply list_elem_of_singleton in Hin' as ->.
        apply list_elem_of_fmap in Hin as ([id' c'] & -> & Hc).
        by eapply Hfresh.
      * destruct c as [c|]; simpl; [apply NoDup_singleton|apply NoDup_nil_2].
Qed.

Lemma well_formed_grows m m' new :
  awaiting m' = awaiting m -> accepted m <= accepted m' ->
  trace m' = trace m ++ new -> handled new = [] ->
  well_formed m -> well_formed m'.
Proof.
  intros Ha Hacc Ht Hn (Hkeys & Hold & Hnd). unfold well_formed.
  rewrite Ha, Ht, handled_app, Hn, app_nil_r. split; [|split; [|done]].
  - intros id f Hf. apply Hkeys in Hf. lia.
  - intros id c Hc. apply Hold in Hc as [? ?]. split; [lia|done].
Qed.

Lemma well_formed_step m i : well_formed m -> well_formed (step m i).
Proof.
  intros Hw.
  assert (Hquiet : forall m' new, awaiting m' = awaiting m ->
            accepted m' = accepted m -> trace m' = trace m ++ new ->
            handled new = [] -> well_formed m').
  { intros m' new Ha Hacc Ht Hn.
    eapply well_formed_grows; [exact Ha|lia|exact Ht|exact Hn|exact Hw]. }
  assert (Hsame : forall t, well_formed (set_task t m)).
  { intros t. apply (Hquiet _ []); try done. symmetry. apply app_nil_r. }
  assert (Hlaunch : forall out, well_formed (launch out m)).
  { intros [t [p|]].
    - rewrite launch_accepted. apply book_well_formed.
      + eapply (well_formed_grows m _ [_]); [done|simpl; lia|done|done|done].
      + simpl. lia.
      + intros c Hc. cbn [trace] in Hc.
        rewrite handled_app, app_nil_r in Hc.
        destruct Hw as (_ & Hold & _). apply Hold in Hc as [Hc _]. lia.
    - by apply (Hquiet _ [Ignored]). }
  destruct i as [xs|cb|cb| |cb rest|cb rest|cb rest|id settled|id thrown];
    cbn [step]; try apply Hsame.
  - apply Hlaunch.
  - apply Hlaunch.
  - destruct (awaiting m !! id) as [f|] eqn:Hid; [|done].
    destruct Hw as (Hkeys & Hold & Hnd). apply book_well_formed.
    + by split.
    + by eapply Hkeys.
    + intros c Hc. apply Hold in Hc as [_ Hc]. congruence.
  - destruct (finishing m !! id) as [d|]; [|done].
    destruct thrown as [error|]; simpl.
    + by apply (Hquiet _ [Logged id (if d then "error" else "done") error]).
    + apply (Hquiet _ []); try done. symmetry. apply app_nil_r.
Qed.

Lemma well_formed_exec inputs m : well_formed m -> well_formed (exec m inputs).
Proof.
  revert m. induction inputs as [|i inputs IH]; intros m Hw; [done|].
  rewrite exec_cons. by apply IH, well_formed_step.
Qed.

Lemma well_formed_boot opts : well_formed (boot opts).
Proof.
  unfold boot. split; [|split]; cbn [awaiting trace handled omap].
  - intros id f. by rewrite lookup_empty.
  - intros id c Hc. by apply elem_of_nil in Hc.
  - apply NoDup_nil_2.
Qed.

(** X1. Whatever the inputs, no run has its done or error handler called
    more than once, and never both. *)
Theorem each_run_is_handled_at_most_once opts inputs :
  NoDup (handled (trace (exec (boot opts) inputs))).*1.
Proof. apply (well_formed_exec inputs (boot opts)), well_formed_boot. Qed.

(** ** In blocking mode one run at a time *)

Lemma single_run_step m i : single_run m -> single_run (step m i).
Proof.
  intros [Hb Hcase]. unfold single_run, is_blocking in *.
  assert (Hlaunch : forall callback rest,
    let m' := launch (runAsync callback rest (task m)) m in
    default false (blocking (options (task m'))) = true /\
    if running (task m')
    then exists id f, awaiting m' = {[ id := f ]} /\ f_nth f = 1 /\
                      nth (task m') = 1
    else awaiting m' = ∅ /\ nth (task m') = 0 /\ index (task m') = 0).
  { intros callback rest.
    destruct (prologue_keeps callback rest (task m))
      as (Hn & Hr & _ & Hix & _ & _ & _ & Ho & _).
    destruct (running (task m)) eqn:Erun.
    - rewrite runAsync_blocked by done. cbn [launch snd fst task awaiting].
      by rewrite Ho, Hr, Hn.
    - destruct Hcase as (Ha & Hn0 & Hi0).
      rewrite runAsync_accepted by (by rewrite Erun).
      destruct (accept _) as [t' p] eqn:Eacc. cbn [fst snd].
      rewrite launch_accepted.
      destruct (accept_cases _ _ _ Eacc)
        as [(f & args & -> & Hf & _ & Hn' & Hr' & _ & _ & _ & Ho')
           |(t'' & _ & _ & _ & -> & _ & Ho')].
      + rewrite book_Awaiting. cbn [task awaiting].
        rewrite Ho', Ho, Hr', Hn', Hn, Hn0, Ha. split; [done|].
        exists (accepted m), f. by rewrite insert_empty, Hf, Hn, Hn0.
      + edestruct book_finally as (_ & _ & _ & _ & _ & _ & -> & -> & _).
        cbn [finalized options running nth index awaiting].
        rewrite Ho', Ho, Ha. split; [done|]. by rewrite delete_empty. }
  destruct i as [xs|cb|cb| |cb rest|cb rest|cb rest|id settled|id thrown];
    cbn [step]; try done.
  - cbn [set_task task awaiting]. unfold clear, _clear. cbn.
    destruct (running (task m)) eqn:E; cbn; rewrite ?E; [done|].
    by destruct Hcase as (? & ? & ?).
  - destruct (awaiting m !! id) as [f|] eqn:Hid; [|done].
    destruct (running (task m)) eqn:Erun;
      [|destruct Hcase as (Ha & _); by rewrite Ha, lookup_empty in Hid].
    destruct Hcase as (id0 & f0 & Ha & Hf0 & Hn0).
    rewrite Ha in Hid. apply lookup_singleton_Some in Hid as [<- <-].
    destruct (resume f0 settled (task m)) as [t' p] eqn:Eres.
    destruct (resume_cases _ _ _ _ _ Eres)
      as [(f' & args & -> & Hk & Hf & _)|(t'' & e & d & Hk & -> & _)];
      destruct Hk as (Hn & Hr & _ & _ & _ & _ & Ho).
    + rewrite book_Awaiting. cbn [task awaiting].
      rewrite Ho, Hr, Erun, Hn, Hn0, Ha. split; [done|].
      exists id0, f'. by rewrite insert_singleton_eq, Hf.
    + edestruct book_finally as (_ & _ & _ & _ & _ & _ & -> & -> & _).
      cbn [finalized options running nth index awaiting].
      rewrite Ho, Ha. split; [done|]. by rewrite delete_singleton_eq.
  - destruct (finishing m !! id) as [d|]; [|done].
    by destruct thrown.
Qed.

Lemma single_run_exec inputs m : single_run m -> single_run (exec m inputs).
Proof.
  revert m. induction inputs as [|i inputs IH]; intros m Hm; [done|].
  rewrite exec_cons. by apply IH, single_run_step.
Qed.

Lemma single_run_boot opts :
  default true (blocking opts) = true -> single_run (boot opts).
Proof. intros Hb. by split. Qed.

(** X2. In blocking mode, whatever the inputs, at most one run is in flight,
    the [running] flag tells whether there is one, and every run has the
    number [1]. *)
Theorem blocking_engine_runs_one_at_a_time opts inputs :
  default true (blocking opts) = true ->
  single_run (exec (boot opts) inputs).
Proof. intros Hb. by apply single_run_exec, single_run_boot. Qed.

(** ** In blocking mode each item is fed to the first stage once *)

Lemma fed_app id tr tr' : fed id (tr ++ tr') = fed id tr ++ fed id tr'.
Proof. apply omap_app. Qed.

Lemma fed_Accepted id tr id' n : fed id (tr ++ [Accepted id' n]) = fed id tr.
Proof. rewrite fed_app. simpl. apply app_nil_r. Qed.

Lemma poll_polled f t t' args : poll f t = Some (t', args) -> polled t t' args.
Proof.
  intros (_ & item & Hit & -> & ->)%poll_Some. split; [done|].
  left. by exists item.
Qed.

Lemma drain_polled fuel n result t t' f args :
  drain fuel n result t = Some (t', Awaiting f args) -> polled t t' args.
Proof.
  revert result t. induction fuel as [|fuel IH]; intros result t; simpl.
  - by destruct (_ && _).
  - destruct (_ && _); [|done].
    destruct (callbacks t !! callbackIndex t) as [callback|]; [|done].
    unfold stage. destruct (poll _ _) as [[t2 a2]|] eqn:Epoll.
    + intros [= <- <- <-]. by apply poll_polled in Epoll.
    + destruct (_ && _).
      * intros [= <- <- <-]. split; [done|]. right. by eexists.
      * intros H. by apply IH in H.
Qed.

Lemma resume_polled f value t t' f' args :
  resume f (Fulfilled value) t = (t', Awaiting f' args) -> polled t t' args.
Proof.
  cbn [resume]. destruct (f_callbackIndex f =? 0) eqn:E0.
  - unfold stage. destruct (poll f t) as [[t1 a1]|] eqn:Epoll.
    + intros [= <- <- <-]. by apply (poll_polled f).
    + apply Nat.eqb_eq in E0. rewrite E0. simpl. intros H.
      eapply (drain_polled _ _ _ _ _ f'). rewrite loop_drain. by rewrite H.
  - intros H. eapply (drain_polled _ _ _ _ _ f'). rewrite loop_drain.
    by rewrite H.
Qed.

Lemma accept_polled t t' f args :
  accept t = (t', Awaiting f args) -> polled t t' args.
Proof.
  unfold accept. intros H.
  eapply (drain_polled _ _ _ (set_running true (set_nth (S (nth t)) t)) _ f).
  rewrite loop_drain. by rewrite H.
Qed.

Lemma fed_polled id0 id tr f t t' args :
  polled t t' args ->
  fed id0 tr = take (index t) (items t) ->
  fed id (tr ++ [Invoked id0 f args])
  = if id0 =? id then take (index t') (items t') else fed id tr.
Proof.
  intros [Hit [(x & Hx & Hlk & Hix)|(d & Hd & Hix)]] Hfed;
    rewrite fed_app; simpl; rewrite Hx || rewrite Hd;
    destruct (Nat.eqb_spec id0 id) as [<-|Hne]; simpl;
    rewrite ?app_nil_r; try done.
  - by rewrite Hix, Hit, (take_S_r _ _ x), Hfed.
  - by rewrite Hix, Hit, Hfed.
Qed.

Lemma polled_in_range t t' args :
  polled t t' args -> index t <= length (items t) ->
  index t' <= length (items t').
Proof.
  intros [Hit [(x & _ & Hlk & Hix)|(d & _ & Hix)]] Hle; rewrite Hit, Hix;
    [|done].
  by apply lookup_lt_Some in Hlk.
Qed.

Lemma fed_in_order_step m i :
  single_run m -> well_formed m -> i <> CallClear ->
  fed_in_order m -> fed_in_order (step m i).
Proof.
  intros [Hb Hcase] (Hkeys & _) Hi (Hact & Hnew & Hres).
  assert (Hquiet : forall m' new, awaiting m' = awaiting m ->
            accepted m' = accepted m -> trace m' = trace m ++ new ->
            (forall id, fed id new = []) -> resolved new = [] ->
            index (task m') = index (task m) ->
            (exists xs, items (task m') = items (task m) ++ xs) ->
            fed_in_order m').
  { intros m' new Ha Hacc Ht Hf Hr Hix [xs Hit]. unfold fed_in_order.
    rewrite Ha, Hacc, Ht, Hix, Hit.
    assert (Hfed : forall id, fed id (trace m ++ new) = fed id (trace m)).
    { intros id. by rewrite fed_app, Hf, app_nil_r. }
    split; [|split].
    - intros id f Hid. destruct (Hact _ _ Hid) as [H1 H2].
      rewrite Hfed, H1, take_app_le, length_app by done. split; [done|lia].
    - intros id Hid. rewrite Hfed. by apply Hnew.
    - intros id r [Hin|Hin]%elem_of_app.
      + rewrite Hfed. by apply Hres.
      + exfalso. clear -Hin Hr. induction new as [|e new IH].
        * by apply elem_of_nil in Hin.
        * apply elem_of_cons in Hin as [<-|Hin]; [done|].
          apply IH; [|done]. by destruct e. }
  assert (Hsame : forall t, index t = index (task m) ->
            (exists xs, items t = items (task m) ++ xs) ->
            fed_in_order (set_task t m)).
  { intros t Hix Hit. apply (Hquiet _ []); try done.
    symmetry. apply app_nil_r. }
  assert (Hreturned : forall id n e d t'' m0,
    items t'' = items (task m) ->
    awaiting m0 = awaiting m -> accepted m <= accepted m0 ->
    (forall id', fed id' (trace m0) = fed id' (trace m)) ->
    (forall id' r, Resolved id' r ∈ trace m0 -> Resolved id' r ∈ trace m) ->
    id < accepted m0 ->
    (forall id', awaiting m !! id' = None \/ id' = id) ->
    (exists k, fed id (trace m) = take k (items (task m))) ->
    fed_in_order (book id (returned (finally n e d t'')) m0)).
  { intros id n e d t'' m0 Hit Ha Hacc Hf Hr Hlt Hone [k Hk].
    destruct (book_finally id n e d t'' m0)
      as (new & Htr & _ & Hrs & _ & Hinv & Ht & Haw & Hac).
    assert (Hfed : forall id', fed id' (trace m0 ++ new) = fed id' (trace m)).
    { intros id'. rewrite fed_app, Hf.
      assert (fed id' new = []) as ->; [|by rewrite app_nil_r].
      clear -Hinv. induction new as [|ev new IH]; [done|].
      destruct ev; simpl in *; try (by apply IH). done. }
    unfold fed_in_order. rewrite Htr, Ht, Haw, Hac, Ha. split; [|split].
    - intros id' f' [Hne Hid]%lookup_delete_Some.
      by destruct (Hone id') as [Hn| ->]; [rewrite Hn in Hid|].
    - intros id' Hid. rewrite Hfed. apply Hnew. lia.
    - intros id' r [Hin|Hin]%elem_of_app.
      + rewrite Hfed. apply Hr, Hres in Hin as (H1 & H2 & H3).
        split; [lia|]. split; [|done].
        destruct (decide (id = id')) as [<-|Hne];
          [apply lookup_delete_eq|by rewrite lookup_delete_ne].
      + rewrite Hfed.
        assert (id' = id /\ run_items r = items (task m)) as [-> ->].
        { clear -Hin Htr Hit. rewrite finally_spec in Htr.
          unfold returned in Htr. cbn [fst snd book trace] in Htr.
          destruct (finish _ _ d t'') as [c|]; apply app_inv_head in Htr;
            subst new; rewrite ?elem_of_cons, ?elem_of_nil in Hin;
            destruct Hin as [Hin|Hin]; try destruct Hin as [Hin|Hin];
            try done; by injection Hin as -> ->. }
        split; [done|]. split; [apply lookup_delete_eq|by exists k]. }
  assert (Hlaunch : forall callback rest,
            fed_in_order (launch (runAsync callback rest (task m)) m)).
  { intros callback rest.
    destruct (prologue_keeps callback rest (task m))
      as (Hn & Hr & Hit & Hix & _).
    destruct (running (task m)) eqn:Erun.
    - rewrite runAsync_blocked by done.
      apply (Hquiet _ [Ignored]); try done. exists []. by rewrite app_nil_r.
    - destruct Hcase as (Ha & _ & Hi0).
      rewrite runAsync_accepted by (by rewrite Erun).
      destruct (accept _) as [t' p] eqn:Eacc. cbn [fst snd].
      rewrite launch_accepted.
      destruct (accept_cases _ _ _ Eacc)
        as [(f & args & -> & _)|(t'' & Hit' & _ & _ & -> & _)].
      + apply accept_polled in Eacc.
        rewrite book_Awaiting. cbn [task awaiting finishing accepted trace].
        assert (Hfed : forall id,
          fed id ((trace m ++ [Accepted (accepted m) (f_nth f)])
                  ++ [Invoked (accepted m) f args])
          = if accepted m =? id then take (index t') (items t')
            else fed id (trace m)).
        { intros id. rewrite (fed_polled _ _ _ _ _ _ _ Eacc).
          - by rewrite fed_Accepted.
          - by rewrite fed_Accepted, Hnew, Hix, Hi0, take_0. }
        split; [|split]; cbn [task awaiting accepted trace].
        * intros id f' Hid. rewrite Ha in Hid.
          apply lookup_insert_Some in Hid as [[<- <-]|[_ Hid]];
            [|by rewrite lookup_empty in Hid].
          rewrite Hfed, Nat.eqb_refl. split; [done|].
          apply (polled_in_range _ _ _ Eacc). rewrite Hix, Hi0. lia.
        * intros id Hid. rewrite Hfed.
          destruct (Nat.eqb_spec (accepted m) id); [lia|]. apply Hnew. lia.
        * intros id r Hin. rewrite !elem_of_app, !elem_of_cons,
            !elem_of_nil in Hin.
          destruct Hin as [[Hin|[Hin|[]]]|[Hin|[]]]; try done.
          destruct (Hres _ _ Hin) as (H1 & H2 & H3).
          split; [lia|]. split.
          -- rewrite lookup_insert_ne by lia. done.
          -- rewrite Hfed. destruct (Nat.eqb_spec (accepted m) id); [lia|done].
      + apply Hreturned; cbn [awaiting accepted trace]; try done.
        * by rewrite Hit'.
        * lia.
        * intros id'. by rewrite fed_app, app_nil_r.
        * intros id' r Hin. rewrite elem_of_app, elem_of_cons, elem_of_nil in Hin.
          by destruct Hin as [Hin|[Hin|[]]].
        * lia.
        * intros id'. left. by rewrite Ha, lookup_empty.
        * exists 0. rewrite take_0. by apply Hnew. }
  assert (Hnil : exists xs : list T, items (task m) = items (task m) ++ xs).
  { exists []. by rewrite app_nil_r. }
  destruct i as [xs|cb|cb| |cb rest|cb rest|cb rest|id settled|id thrown];
    cbn [step]; try done; try (by apply Hsame).
  - apply Hsame; [done|]. by exists xs.
  - destruct (awaiting m !! id) as [f|] eqn:Hid; [|done].
    destruct (running (task m)) eqn:Erun;
      [|destruct Hcase as (Ha & _); by rewrite Ha, lookup_empty in Hid].
    destruct Hcase as (id0 & f0 & Ha & _).
    assert (Hone : forall id', awaiting m !! id' = None \/ id' = id).
    { intros id'. rewrite Ha in Hid |- *.
      apply lookup_singleton_Some in Hid as [<- _].
      destruct (decide (id0 = id')) as [<-|Hne]; [by right|left].
      by rewrite lookup_singleton_ne. }
    destruct (Hact _ _ Hid) as [Hfed Hle].
    destruct (resume f settled (task m)) as [t' p] eqn:Eres.
    destruct (resume_cases _ _ _ _ _ Eres)
      as [(f' & args & -> & _ & _ & _ & value & ->)
         |(t'' & e & d & Hk & -> & _)].
    + apply resume_polled in Eres. rewrite book_Awaiting.
      split; [|split]; cbn [task awaiting accepted trace].
      * intros id' f'' Hid'.
        destruct (Hone id') as [Hn| ->];
          [by rewrite lookup_insert_ne, Hn in Hid' by (intros <-; congruence)|].
        rewrite (fed_polled _ _ _ _ _ _ _ Eres Hfed), Nat.eqb_refl.
        split; [done|]. by eapply polled_in_range.
      * intros id' Hid'. rewrite (fed_polled _ _ _ _ _ _ _ Eres Hfed).
        destruct (Nat.eqb_spec id id') as [<-|Hne]; [|by apply Hnew].
        apply Hkeys in Hid. lia.
      * intros id' r Hin. rewrite elem_of_app, elem_of_cons, elem_of_nil in Hin.
        destruct Hin as [Hin|[Hin|[]]]; [|done].
        destruct (Hres _ _ Hin) as (H1 & H2 & H3).
        assert (id <> id') by congruence.
        split; [done|]. split; [by rewrite lookup_insert_ne|].
        rewrite (fed_polled _ _ _ _ _ _ _ Eres Hfed).
        by destruct (Nat.eqb_spec id id').
    + apply Hreturned; try done.
      * by destruct Hk as (_ & _ & Hit & _).
      * by eapply Hkeys.
      * by exists (index (task m)).
  - destruct (finishing m !! id) as [d|]; [|done].
    destruct thrown as [error|]; simpl.
    + by apply (Hquiet _ [Logged id (if d then "error" else "done") error]).
    + apply (Hquiet _ []); try done. symmetry. apply app_nil_r.
Qed.

(** X3. In blocking mode, as long as the backlog is not cleared by hand, a
    run feeds the first stage the items of the backlog in order, each
    position once: what it has fed so far is the backlog up to the cursor,
    and what it had fed when it returned is an initial segment of the items
    its result carries. Calls of [run] in between change nothing of that. *)
Theorem items_are_fed_once_in_order opts inputs :
  default true (blocking opts) = true ->
  CallClear ∉ inputs ->
  fed_in_order (exec (boot opts) inputs).
Proof.
  intros Hb. induction inputs as [|i inputs IH] using rev_ind; intros Hnc.
  - split; [|split]; cbn.
    + intros id f. by rewrite lookup_empty.
    + done.
    + intros id r Hin. by apply elem_of_nil in Hin.
  - apply not_elem_of_app in Hnc as [Hnc Hi].
    rewrite exec_app. change (exec ?m [i]) with (step m i).
    apply fed_in_order_step.
    + by apply single_run_exec, single_run_boot.
    + apply well_formed_exec, well_formed_boot.
    + intros ->. apply Hi. by apply list_elem_of_singleton.
    + by apply IH.
Qed.

(** ** A run whose stage calls all return comes to an end *)





(** ** Where [break] ends a run, and where it does not *)

(** A later stage that returns [break] ends the run: no stage is invoked
    after it. *)
Lemma break_in_later_stage_ends_run f result t :
  0 < f_callbackIndex f -> is_break result = true ->
  resume f (Fulfilled (Some result)) t
  = returned (finally (f_nth f) None false t).
Proof.
  intros Hpos Hb. cbn [resume].
  destruct (Nat.eqb_spec (f_callbackIndex f) 0); [lia|].
  by apply loop_break.
Qed.

(** So does the first stage when it returns [break] on the last item of
    the backlog. *)
Lemma break_on_last_item_ends_run f result t :
  f_callbackIndex f = 0 -> length (items t) <= index t ->
  is_break result = true ->
  resume f (Fulfilled (Some result)) t
  = returned (finally (f_nth f) None false t).
Proof.
  intros Hz Hle Hb. cbn [resume]. rewrite Hz. cbn [Nat.eqb].
  unfold stage, poll. rewrite Hz. cbn [Nat.eqb Nat.ltb andb].
  destruct (Nat.ltb_spec (index t) (length (items t))); [lia|].
  cbn [Nat.leb andb]. by apply loop_break.
Qed.

(** But while an item is left in the backlog, whatever the first stage
    returned is dropped, [break] included: the next item is polled and fed
    to it. *)
Lemma first_stage_result_is_overwritten f value t item :
  f_callbackIndex f = 0 -> items t !! index t = Some item ->
  resume f (Fulfilled value) t
  = (set_current (Some item) (set_index (S (index t)) t),
     Awaiting f (mkArgs (f_nth f) (Item item))).
Proof.
  intros Hz Hit. cbn [resume]. rewrite Hz. cbn [Nat.eqb].
  unfold stage, poll. rewrite Hz, Hit. cbn [Nat.eqb andb].
  apply lookup_lt_Some in Hit.
  by destruct (Nat.ltb_spec (index t) (length (items t))); [|lia].
Qed.

(** ** A stage call that throws *)

(** Whatever the engine has been through, when a stage call of a suspended
    run throws and an error handler is registered, that handler is called,
    for the first and only time for this run, and the done handler is not;
    the result it receives has no [error] field, and its [callbackIndex]
    is the stage cursor, which has moved past the stage that threw. *)
Lemma thrown_value_never_reaches_error_handler opts inputs id f error h :
  awaiting (exec (boot opts) inputs) !! id = Some f ->
  onError (task (exec (boot opts) inputs)) = Some h ->
  exists r,
    handled (trace (step (exec (boot opts) inputs)
                         (StageSettles id (Rejected error))))
      = handled (trace (exec (boot opts) inputs)) ++ [(id, OnError h r)] /\
    (forall c, (id, c) ∉ handled (trace (exec (boot opts) inputs))) /\
    err_error r = None /\
    err_callbackIndex r = callbackIndex (task (exec (boot opts) inputs)).
Proof.
  intros Hid He.
  destruct (rejected_step _ id f error Hid) as (new & -> & Hh & _).
  rewrite handled_app, Hh. unfold finish. rewrite He.
  eexists. split; [done|]. split; [|done].
  intros c Hc.
  assert (Hw : well_formed (exec (boot opts) inputs)).
  { apply well_formed_exec. split; [|split]; cbn.
    - intros id' f'. by rewrite lookup_empty.
    - intros id' c' Hc'. by apply elem_of_nil in Hc'.
    - apply NoDup_nil_2. }
  destruct Hw as (_ & Hold & _). apply Hold in Hc as [_ Hc]. congruence.
Qed.

(** ** The claims *)

Lemma size_delete_present {A} (id : nat) (x : A) (g : gmap nat A) :
  g !! id = Some x -> size g = S (size (delete id g)).
Proof.
  intros Hid. rewrite <- (insert_delete_id g id x Hid) at 1.
  apply map_size_insert_None, lookup_delete_eq.
Qed.

(** A run that is accepted takes the number after the counter. *)
Lemma accepted_run_number callback rest m :
  running (task m) && is_blocking (task m) = false ->
  numbers (trace (launch (runAsync callback rest (task m)) m))
  = numbers (trace m) ++ [S (nth (task m))].
Proof.
  intros Hg. rewrite runAsync_accepted by done.
  destruct (prologue_keeps callback rest (task m)) as (Hn&_&_&_&_&_&_&_&_).
  destruct (accept _) as [t' p] eqn:Eacc. cbn [fst snd].
  rewrite launch_accepted.
  destruct (accept_cases _ _ _ Eacc)
    as [(f & args & -> & Hf & _)|(t'' & _ & _ & _ & -> & Hp & _)].
  - rewrite book_Awaiting. cbn [trace]. rewrite !numbers_app. simpl.
    by rewrite app_nil_r, Hf, Hn.
  - edestruct book_finally as (new & -> & _ & _ & Hnum & _).
    cbn [trace]. rewrite !numbers_app, Hnum. simpl.
    by rewrite app_nil_r, Hp, Hn.
Qed.

(** What one step does to the number of suspended runs: a run that is
    accepted and suspended adds one, a suspended run that goes on stays,
    and where a run ends ([finally] is called) the number falls behind the
    number of runs accepted.  Where no run ends the counter has counted the
    runs accepted. *)
Lemma step_suspended m i :
  well_formed m ->
  exists new, trace (step m i) = trace m ++ new /\
    (numbers new = [] \/ numbers new = [S (nth (task m))]) /\
    ((size (awaiting (step m i)) = size (awaiting m) + length (numbers new) /\
      nth (task (step m i)) = nth (task m) + length (numbers new)) \/
     size (awaiting (step m i)) < size (awaiting m) + length (numbers new)).
Proof.
  intros (Hkeys & _).
  assert (Hfresh : awaiting m !! accepted m = None).
  { destruct (awaiting m !! accepted m) as [f|] eqn:E; [|done].
    apply Hkeys in E. lia. }
  assert (Hnone : forall t, nth t = nth (task m) ->
    exists new : list Event, trace m = trace m ++ new /\
    (numbers new = [] \/ numbers new = [S (nth (task m))]) /\
    ((size (awaiting m) = size (awaiting m) + length (numbers new) /\
      nth t = nth (task m) + length (numbers new)) \/
     size (awaiting m) < size (awaiting m) + length (numbers new))).
  { intros t Ht. exists []. rewrite app_nil_r. split; [done|].
    split; [by left|]. left. simpl. lia. }
  assert (Hlaunch : forall callback rest,
    exists new, trace (launch (runAsync callback rest (task m)) m)
                = trace m ++ new /\
    (numbers new = [] \/ numbers new = [S (nth (task m))]) /\
    ((size (awaiting (launch (runAsync callback rest (task m)) m))
        = size (awaiting m) + length (numbers new) /\
      nth (task (launch (runAsync callback rest (task m)) m))
        = nth (task m) + length (numbers new)) \/
     size (awaiting (launch (runAsync callback rest (task m)) m))
       < size (awaiting m) + length (numbers new))).
  { intros callback rest. unfold runAsync.
    destruct (prologue_keeps callback rest (task m))
      as (Hn&_&_&_&_&_&_&_&_).
    destruct (_ && _).
    - exists [Ignored]. split; [done|]. split; [by left|]. left.
      cbn [launch snd fst task awaiting]. rewrite Hn. simpl. lia.
    - destruct (accept _) as [t' p] eqn:Eacc. cbn [fst snd].
      rewrite launch_accepted.
      destruct (accept_cases _ _ _ Eacc)
        as [(f & args & -> & Hf & _ & Hn' & _)|(t'' & _ & _ & _ & -> & Hp & _)].
      + eexists [_; _]. rewrite book_Awaiting. cbn [trace task awaiting].
        rewrite <- app_assoc. split; [done|]. simpl. rewrite Hf, Hn', Hn.
        split; [by right|]. left.
        rewrite map_size_insert_None by done. lia.
      + edestruct book_finally as (new & -> & _ & _ & Hnum & _ & _ & -> & _).
        eexists (_ :: new). cbn [trace awaiting]. rewrite <- app_assoc.
        split; [done|].
        change (numbers (Accepted ?i ?n :: new)) with (n :: numbers new).
        rewrite Hnum, Hp, Hn. split; [by right|]. right.
        rewrite map_size_delete_None by done. simpl. lia. }
  destruct i as [xs|cb|cb| |cb rest|cb rest|cb rest|id settled|id thrown];
    try (by apply Hnone).
  - apply Hnone. cbn [step set_task task]. unfold clear, _clear. simpl.
    by destruct (running (task m)).
  - cbn [step]. rewrite run_runAsync. apply Hlaunch.
  - apply Hlaunch.
  - cbn [step]. destruct (awaiting m !! id) as [f|] eqn:Hid; [|by apply Hnone].
    destruct (resume f settled (task m)) as [t' p] eqn:Eres.
    destruct (resume_cases _ _ _ _ _ Eres)
      as [(f' & args & -> & Hk & _)|(t'' & e & d & Hk & -> & _)].
    + eexists [_]. rewrite book_Awaiting. cbn [trace task awaiting].
      split; [done|]. split; [by left|]. left. simpl.
      destruct Hk as (->&_). rewrite map_size_insert_Some by by eexists. lia.
    + edestruct book_finally as (new & -> & _ & _ & Hnum & _ & _ & -> & _).
      exists new. split; [done|]. rewrite Hnum. split; [by left|]. right.
      rewrite (size_delete_present id f (awaiting m) Hid). simpl. lia.
  - cbn [step]. destruct (finishing m !! id) as [d|]; [|by apply Hnone].
    destruct thrown as [error|]; simpl; [|by apply Hnone].
    eexists [_]. split; [done|]. split; [by left|]. left. simpl. lia.
Qed.

Lemma exec_suspended inputs : forall m,
  well_formed m ->
  exists new, trace (exec m inputs) = trace m ++ new /\
    size (awaiting (exec m inputs)) <= size (awaiting m) + length (numbers new) /\
    (size (awaiting (exec m inputs)) = size (awaiting m) + length (numbers new) ->
     numbers new = seq (S (nth (task m))) (length (numbers new)) /\
     nth (task (exec m inputs)) = nth (task m) + length (numbers new)).
Proof.
  induction inputs as [|i inputs IH]; intros m Hw.
  - exists []. rewrite app_nil_r. split; [done|]. simpl.
    split; [lia|]. intros _. split; [done|]. change (exec m []) with m. lia.
  - rewrite exec_cons.
    destruct (step_suspended m i Hw) as (new1 & H1 & Hnum1 & Hcase).
    destruct (IH (step m i) (well_formed_step m i Hw))
      as (new2 & H2 & Hle2 & Heq2).
    exists (new1 ++ new2). rewrite H2, H1, app_assoc. split; [done|].
    rewrite numbers_app, length_app.
    destruct Hcase as [[Hsz Hnth]|Hlt]; [|split; lia].
    split; [lia|]. intros Heq.
    destruct Heq2 as [Hnum2 Hnth2]; [lia|].
    rewrite Hnth2, Hnth. split; [|lia]. rewrite Hnum2 at 1. rewrite Hnth.
    destruct Hnum1 as [-> | ->]; simpl.
    + by rewrite Nat.add_0_r.
    + by rewrite Nat.add_1_r.
Qed.

(** C3, as the code has it.  The run counter goes up by one at each
    accepted run, which takes the new value as its number, and [finally]
    puts it back to [0] as soon as a run ends, before the handler is called
    and before [runAsync] returns.  At any point of any execution: as long
    as every run that was suspended at a stage call or has been accepted
    since is still suspended at a stage call (the number of suspended runs
    has grown by the number of runs accepted), the numbers handed out are
    consecutive, starting after the counter; and a step in which a
    suspended run ends leaves the counter at [0], so the next run, be it
    started by the handler of the run that ended, has the number [1]. *)
Theorem run_numbers_count_up_while_runs_are_suspended
    (opts : TasqOptions) (pre inputs : list Input) (new : list Event)
    (n : nat) (e : option Err) (d : bool) (t : Tasq) :
  let m := exec (boot opts) pre in
  trace (exec m inputs) = trace m ++ new ->
  size (awaiting (exec m inputs)) = size (awaiting m) + length (numbers new) ->
  numbers new = seq (S (nth (task m))) (length (numbers new)) /\
  nth (task (exec m inputs)) = nth (task m) + length (numbers new) /\
  nth (fst (finally n e d t)) = 0 /\
  (forall (m0 : Machine) (i : Input) (id : RunId),
     is_Some (awaiting m0 !! id) -> awaiting (step m0 i) !! id = None ->
     nth (task (step m0 i)) = 0 /\
     numbers (trace (step (step m0 i) (CallRun None [])))
     = numbers (trace (step m0 i)) ++ [1]).
Proof.
  intros m Htr Hsz. rewrite finally_spec. cbn [fst finalized nth].
  assert (Hw : well_formed m) by apply well_formed_exec, well_formed_boot.
  destruct (exec_suspended inputs m Hw) as (new' & Htr' & _ & Heq).
  assert (new' = new) as ->.
  { apply (app_inv_head (trace m)). by rewrite <- Htr, <- Htr'. }
  destruct (Heq Hsz) as [Hnum Hnth]. do 3 (split; [done|]).
  clear. intros m0 i id [f Hid] Hgone.
  assert (Hfin : nth (task (step m0 i)) = 0 /\ running (task (step m0 i)) = false).
  { assert (Hlaunch : forall callback rest,
      awaiting (launch (runAsync callback rest (task m0)) m0) !! id = None ->
      nth (task (launch (runAsync callback rest (task m0)) m0)) = 0 /\
      running (task (launch (runAsync callback rest (task m0)) m0)) = false).
    { intros callback rest. unfold runAsync. destruct (_ && _).
      - cbn [launch snd fst awaiting]. intros H. congruence.
      - destruct (accept _) as [t' p] eqn:Eacc. cbn [fst snd].
        rewrite launch_accepted.
        destruct (accept_cases _ _ _ Eacc)
          as [(f' & args & -> & _)|(t'' & _ & _ & _ & -> & _)].
        + rewrite book_Awaiting. cbn [awaiting].
          intros [H _]%lookup_insert_None. congruence.
        + by edestruct book_finally as (_ & _ & _ & _ & _ & _ & -> & _). }
    destruct i as [xs|cb|cb| |cb rest|cb rest|cb rest|id' settled|id' thrown];
      cbn [step set_task awaiting] in Hgone; try congruence.
    - cbn [step]. rewrite run_runAsync in *. by apply Hlaunch.
    - by apply Hlaunch.
    - cbn [step]. destruct (awaiting m0 !! id') as [f'|] eqn:Hid'; [|congruence].
      destruct (resume f' settled (task m0)) as [t' p] eqn:Eres.
      destruct (resume_cases _ _ _ _ _ Eres)
        as [(f'' & args & -> & _)|(t'' & e & d & _ & -> & _)].
      + rewrite book_Awaiting in Hgone. cbn [awaiting] in Hgone.
        apply lookup_insert_None in Hgone as [Hgone _]. congruence.
      + by edestruct book_finally as (_ & _ & _ & _ & _ & _ & -> & _).
    - destruct (finishing m0 !! id') as [d|]; [|congruence].
      destruct thrown; simpl in Hgone; congruence. }
  destruct Hfin as [Hn0 Hr0]. split; [done|].
  cbn [step]. rewrite run_runAsync, accepted_run_number by (by rewrite Hr0).
  by rewrite Hn0.
Qed.

(** C4, as the code has it.  When a stage call of a run throws and an error
    handler is registered, the step calls that handler once and no other;
    the handler receives the run number, the backlog as it is at that
    point, and the position before the backlog cursor (the position of the
    item polled last; [-1] when the cursor is [0]). *)
Theorem error_handler_receives_failure_context
    (m : Machine) (id : RunId) (f : Frame) (error : Err)
    (h : TasqErrorCallback) :
  awaiting m !! id = Some f ->
  onError (task m) = Some h ->
  exists r,
    handled (trace (step m (StageSettles id (Rejected error))))
      = handled (trace m) ++ [(id, OnError h r)] /\
    err_nth r = f_nth f /\
    err_items r = getItems (task m) /\
    err_index r = (Z.of_nat (getIndex (task m)) - 1)%Z.
Proof.
  intros Hid He.
  destruct (rejected_step m id f error Hid) as (new & -> & Hh & _).
  rewrite handled_app, Hh. unfold finish. rewrite He.
  by eexists.
Qed.

(** C5. One run on an engine with a done handler, interleaved with [add]
    calls only (stage calls return normally): once the run has returned,
    the done handler has been called exactly once, and no other handler,
    with the items that were in the backlog at the start followed by the
    items appended before the run returned, each once and in insertion
    order; the backlog is empty right after the run returns, and holds
    afterwards only what is appended later. *)
Theorem done_receives_every_fed_item_in_order
    (t : Tasq) (h : TasqDoneCallback) (start : Input)
    (callback : option TasqCallback) (rest : list TasqCallback)
    (sched : list Input) :
  running t = false ->
  onDone t = Some h ->
  start = CallRun callback rest \/ start = CallRunAsync callback rest ->
  forallb (feeding 0) sched = true ->
  awaiting (exec (idle t) (start :: sched)) !! 0 = None ->
  exists pre post,
    sched = pre ++ post /\
    handled (trace (exec (idle t) (start :: sched)))
      = [(0, OnDone h (mkDoneResult (S (nth t)) (items t ++ adds pre)))] /\
    items (task (exec (idle t) (start :: pre))) = [] /\
    items (task (exec (idle t) (start :: sched))) = adds post.
Proof.
  intros Hrun Hdone Hstart Hfeed.
  destruct (prologue_keeps callback rest t)
    as (Hn & Hr & Hit & _ & _ & Hd & _ & _ & _).
  destruct (accept (prologue callback rest t)) as [t' p] eqn:Eacc.
  assert (Hexec : forall l, exec (idle t) (start :: l)
     = exec (book 0 (t', p) (mkMachine t ∅ ∅ 1 [Accepted 0 (number_of p)])) l).
  { intros l. rewrite exec_cons. f_equal.
    destruct Hstart as [-> | ->]; [rewrite step_run|];
      cbn [step]; unfold runAsync; change (task (idle t)) with t;
      by rewrite Hr, Hrun, Eacc. }
  rewrite Hexec.
  destruct (accept_cases _ _ _ Eacc)
    as [(f & args & -> & Hf & _ & _ & _ & Hit' & Hd' & _)
       |(t'' & Hit' & Hd' & _ & Hfin & _)].
  - set (m1 := book 0 _ _) in *. intros Hret.
    destruct (drive_active sched m1 0 f)
      as [(Ha & _)
         |(pre & post & d & ix & ci & -> & Hh & Hdd & Hpre & Hpost & _)].
    + apply lookup_insert_eq.
    + by apply feeding_driving.
    + rewrite Hret in Ha. by destruct Ha.
    + exists pre, post. rewrite !Hexec. split; [done|]. split; [|done].
      rewrite forallb_app in Hfeed. apply andb_true_iff in Hfeed as [Hfeed _].
      destruct d; [rewrite Hdd in Hfeed; done|].
      rewrite Hh. unfold finish. simpl. by rewrite Hd', Hd, Hdone, Hf, Hn, Hit', Hit.
  - rewrite finally_spec, Hn in Hfin. unfold returned in Hfin.
    cbn [fst snd] in Hfin. unfold finish in Hfin.
    rewrite Hd', Hd, Hdone in Hfin. injection Hfin as -> ->.
    set (m1 := book 0 _ _) in *. intros _.
    assert (Hm1 : awaiting m1 !! 0 = None) by apply lookup_delete_eq.
    exists [], sched. rewrite !Hexec.
    rewrite (drive_finished sched m1 0 Hm1 (feeding_driving _ _ Hfeed)).
    split; [done|]. simpl. unfold adds at 1. simpl.
    by rewrite app_nil_r, Hit', Hit.
Qed.

(** C6. In blocking mode, [run] or [runAsync] called while the [running]
    flag is up is dropped: [runAsync] returns [undefined] at once, no
    handler and no stage is called, no run is created, and the backlog, its
    cursor, the current item, the run counter and the flag are untouched
    (so the items already polled are not polled again); the call only
    resets the stage cursor and replaces the stage list when one is
    given. *)
Theorem blocked_run_is_dropped (m : Machine) (start : Input)
    (callback : option TasqCallback) (rest : list TasqCallback) :
  running (task m) = true ->
  is_blocking (task m) = true ->
  start = CallRun callback rest \/ start = CallRunAsync callback rest ->
  is_blocking (constructor (mkOptions None)) = true /\
  snd (runAsync callback rest (task m)) = None /\
  snd (run callback rest (task m)) = None /\
  trace (step m start) = trace m ++ [Ignored] /\
  handled (trace (step m start)) = handled (trace m) /\
  invoked (trace (step m start)) = invoked (trace m) /\
  awaiting (step m start) = awaiting m /\
  finishing (step m start) = finishing m /\
  accepted (step m start) = accepted m /\
  task (step m start) = prologue callback rest (task m) /\
  items (task (step m start)) = items (task m) /\
  index (task (step m start)) = index (task m) /\
  current (task (step m start)) = current (task m) /\
  nth (task (step m start)) = nth (task m) /\
  running (task (step m start)) = true.
Proof.
  intros Hr Hb Hstart.
  assert (Hs : step m start = launch (prologue callback rest (task m), None) m).
  { destruct Hstart as [-> | ->]; cbn [step]; rewrite ?run_runAsync;
      by rewrite (runAsync_blocked _ _ _ Hr Hb). }
  split; [done|].
  rewrite Hs, (run_runAsync callback rest (task m)),
    (runAsync_blocked _ _ _ Hr Hb).
  destruct (prologue_keeps callback rest (task m))
    as (Hn & Hr' & Hit & Hix & Hc & _).
  cbn [launch snd fst task trace awaiting finishing accepted].
  rewrite handled_app, invoked_app, Hit, Hix, Hc, Hn, Hr', Hr. simpl.
  by rewrite !app_nil_r.
Qed.

(** C7. [run] and [runAsync] set the stage cursor to [0] before the guard
    is evaluated: the engine the guard looks at has cursor [0]; a dropped
    attempt returns that engine, and the drain loop of an accepted attempt
    starts on an engine with cursor [0]. *)
Theorem stage_cursor_reset_before_guard
    (callback : option TasqCallback) (rest : list TasqCallback) (t : Tasq) :
  let t0 := prologue callback rest t in
  callbackIndex t0 = 0 /\
  runAsync callback rest t =
    (if running t0 && is_blocking t0 then (t0, None)
     else ((accept t0).1, Some (accept t0).2)) /\
  run callback rest t = runAsync callback rest t /\
  (if running t && is_blocking t
   then runAsync callback rest t = (t0, None) /\
        getCallbackIndex (runAsync callback rest t).1 = 0
   else exists t1, callbackIndex t1 = 0 /\
        accept t0 = loop (S (nth t)) (initial t1) t1).
Proof.
  intros t0. destruct (prologue_keeps callback rest t)
    as (Hn & Hr & _ & _ & _ & _ & _ & Ho & Hci). fold t0 in Hn, Hr, Ho, Hci.
  split; [done|]. split; [done|]. split; [apply run_runAsync|].
  unfold runAsync. fold t0. unfold is_blocking. rewrite Hr, Ho.
  destruct (running t && _); [done|].
  exists (set_running true (set_nth (S (nth t0)) t0)).
  split; [done|]. unfold accept. by rewrite Hn.
Qed.

(** C8. [run()] or [runAsync()] on an engine that is not running, with an
    empty backlog and an empty stage list, and with a done handler: the
    call adds exactly the acceptance, one call of the done handler with an
    empty item list, and the resolution of the promise; no stage is
    invoked and the run is over.  The working result starts as [break]
    exactly when the cursor is at or past the backlog length, and then an
    accepted run goes straight to [finally]. *)
Theorem empty_run_calls_done_once (m : Machine) (h : TasqDoneCallback)
    (start : Input) :
  running (task m) = false ->
  items (task m) = [] ->
  callbacks (task m) = [] ->
  onDone (task m) = Some h ->
  start = CallRun None [] \/ start = CallRunAsync None [] ->
  trace (step m start) =
    trace m ++ [Accepted (accepted m) (S (nth (task m)));
                Handled (accepted m)
                        (OnDone h (mkDoneResult (S (nth (task m))) []));
                Resolved (accepted m)
                         (mkRunResult (S (nth (task m))) [] None)] /\
  invoked (trace (step m start)) = invoked (trace m) /\
  awaiting (step m start) !! accepted m = None /\
  items (task (step m start)) = [] /\
  (forall t : Tasq, is_break (initial t) = true <-> length (items t) <= index t) /\
  (forall t : Tasq, length (items t) <= index t ->
     accept t = returned (finally (S (nth t)) None false
                                  (set_running true (set_nth (S (nth t)) t)))).
Proof.
  intros Hr Hit Hcb Hd Hstart.
  assert (Hinit : forall t : Tasq,
            is_break (initial t) = true <-> length (items t) <= index t).
  { intros t. unfold is_break, initial. simpl. apply Nat.leb_le. }
  assert (Hacc : forall t : Tasq, length (items t) <= index t ->
     accept t = returned (finally (S (nth t)) None false
                                  (set_running true (set_nth (S (nth t)) t)))).
  { intros t Hle. unfold accept. apply loop_break. by apply Hinit. }
  assert (Hs : step m start = launch (runAsync None [] (task m)) m).
  { destruct Hstart as [-> | ->]; cbn [step]; by rewrite ?run_runAsync. }
  rewrite Hs, runAsync_accepted by (by rewrite Hr).
  rewrite Hacc by (simpl; rewrite Hit; simpl; lia).
  rewrite finally_spec. unfold returned, finish. simpl. rewrite Hit, Hd.
  cbn [launch snd fst book trace awaiting task number_of run_nth].
  rewrite <- app_assoc, invoked_app. simpl.
  rewrite app_nil_r, lookup_delete_eq.
  do 4 (split; [done|]). split; [exact Hinit|exact Hacc].
Qed.

(** C9. Whatever the engine has been through, when the done or the error
    handler of a run throws (or its promise is rejected), the run has
    already returned its result, the thrown value is written to the log
    under the label of the handler that was called (["error"] for the error
    handler, ["done"] for the done handler), and nothing else happens: the
    engine and the suspended runs are as they were. *)
Theorem handler_exception_is_caught_and_logged
    (opts : TasqOptions) (inputs : list Input) (id : RunId) (d : bool)
    (thrown : Err) :
  finishing (exec (boot opts) inputs) !! id = Some d ->
  (exists call r,
      Handled id call ∈ trace (exec (boot opts) inputs) /\
      Resolved id r ∈ trace (exec (boot opts) inputs) /\
      didError_of call = d) /\
  finish_settle d (Some thrown)
    = Reported (if d then "error"%string else "done"%string) thrown /\
  trace (step (exec (boot opts) inputs) (HandlerSettles id (Some thrown)))
    = trace (exec (boot opts) inputs)
      ++ [Logged id (if d then "error"%string else "done"%string) thrown] /\
  task (step (exec (boot opts) inputs) (HandlerSettles id (Some thrown)))
    = task (exec (boot opts) inputs) /\
  awaiting (step (exec (boot opts) inputs) (HandlerSettles id (Some thrown)))
    = awaiting (exec (boot opts) inputs) /\
  finishing (step (exec (boot opts) inputs) (HandlerSettles id (Some thrown)))
    = delete id (finishing (exec (boot opts) inputs)).
Proof.
  intros Hfin. split.
  - eapply (settling_sound_exec inputs (boot opts)); [|exact Hfin].
    intros id' d'. unfold boot. cbn [finishing]. by rewrite lookup_empty.
  - cbn [step]. rewrite Hfin. by destruct d.
Qed.




(** ** Invariants of the engine state *)

Lemma step_options m i : options (task (step m i)) = options (task m).
Proof.
  assert (Hlaunch : forall callback rest,
    options (task (launch (runAsync callback rest (task m)) m))
    = options (task m)).
  { intros callback rest. unfold runAsync.
    destruct (prologue_keeps callback rest (task m))
      as (_&_&_&_&_&_&_&Ho&_).
    destruct (_ && _); [done|].
    destruct (accept _) as [t' p] eqn:Eacc. cbn [fst snd].
    rewrite launch_accepted.
    destruct (accept_cases _ _ _ Eacc)
      as [(f & args & -> & _ & _ & _ & _ & _ & _ & _ & Ho')
         |(t'' & _ & _ & _ & -> & _ & Ho')].
    - rewrite book_Awaiting. cbn [task]. congruence.
    - edestruct book_finally as (_ & _ & _ & _ & _ & _ & -> & _).
      cbn [finalized options]. congruence. }
  destruct i as [xs|cb|cb| |cb rest|cb rest|cb rest|id settled|id thrown];
    cbn [step]; try done.
  - cbn [set_task task]. unfold clear, _clear. simpl.
    by destruct (running (task m)).
  - destruct (awaiting m !! id) as [f|]; [|done].
    destruct (resume f settled (task m)) as [t' p] eqn:Eres.
    destruct (resume_cases _ _ _ _ _ Eres)
      as [(f' & args & -> & Hk & _)|(t'' & e & d & Hk & -> & _)];
      destruct Hk as (_ & _ & _ & _ & _ & _ & Ho).
    + by rewrite book_Awaiting.
    + by edestruct book_finally as (_ & _ & _ & _ & _ & _ & -> & _).
  - destruct (finishing m !! id) as [d|]; [|done]. by destruct thrown.
Qed.

(** X5. The options are frozen by the constructor and no method writes them:
    an engine is blocking, or not, for life, and it is blocking unless it
    was created with [blocking: false]. *)
Theorem blocking_option_is_fixed_at_construction opts inputs :
  is_blocking (task (exec (boot opts) inputs)) = default true (blocking opts).
Proof.
  unfold is_blocking.
  assert (H : options (task (exec (boot opts) inputs))
              = options (task (boot opts))); [|by rewrite H].
  generalize (boot opts).
  induction inputs as [|i inputs IH]; intros m; [done|].
  by rewrite exec_cons, IH, step_options.
Qed.

Lemma step_cursor m i :
  index (task m) <= length (items (task m)) ->
  index (task (step m i)) <= length (items (task (step m i))).
Proof.
  intros Hle.
  assert (Hlaunch : forall callback rest,
    index (task (launch (runAsync callback rest (task m)) m))
    <= length (items (task (launch (runAsync callback rest (task m)) m)))).
  { intros callback rest. unfold runAsync.
    destruct (prologue_keeps callback rest (task m))
      as (_ & _ & Hit & Hix & _).
    destruct (_ && _).
    - cbn [launch snd fst task]. by rewrite Hit, Hix.
    - destruct (accept _) as [t' p] eqn:Eacc. cbn [fst snd].
      rewrite launch_accepted.
      destruct (accept_cases _ _ _ Eacc)
        as [(f & args & -> & _)|(t'' & _ & _ & _ & -> & _)].
      + apply accept_polled in Eacc. rewrite book_Awaiting. cbn [task].
        apply (polled_in_range _ _ _ Eacc). by rewrite Hit, Hix.
      + edestruct book_finally as (_ & _ & _ & _ & _ & _ & -> & _).
        simpl. lia. }
  destruct i as [xs|cb|cb| |cb rest|cb rest|cb rest|id settled|id thrown];
    cbn [step]; try done.
  - cbn [set_task task add set_items index items]. rewrite length_app. lia.
  - cbn [set_task task]. unfold clear, _clear. simpl.
    destruct (running (task m)); simpl; lia.
  - destruct (awaiting m !! id) as [f|]; [|done].
    destruct (resume f settled (task m)) as [t' p] eqn:Eres.
    destruct (resume_cases _ _ _ _ _ Eres)
      as [(f' & args & -> & _ & _ & _ & value & ->)
         |(t'' & e & d & _ & -> & _)].
    + apply resume_polled in Eres. rewrite book_Awaiting. cbn [task].
      by apply (polled_in_range _ _ _ Eres).
    + edestruct book_finally as (_ & _ & _ & _ & _ & _ & -> & _).
      simpl. lia.
  - destruct (finishing m !! id) as [d|]; [|done]. by destruct thrown.
Qed.

(** X6. Whatever the inputs and the mode, the backlog cursor never passes
    the end of the backlog: [getIndex()] is at most the length of
    [getItems()]. *)
Theorem backlog_cursor_stays_in_range opts inputs :
  getIndex (task (exec (boot opts) inputs))
  <= length (getItems (task (exec (boot opts) inputs))).
Proof.
  unfold getIndex, getItems.
  assert (H0 : index (task (boot opts)) <= length (items (task (boot opts))))
    by (simpl; lia).
  revert H0. generalize (boot opts).
  induction inputs as [|i inputs IH]; intros m Hm; [done|].
  rewrite exec_cons. by apply IH, step_cursor.
Qed.

(** ** Runs without stages, and the handlers of a run *)

(** X7. [do(null, ...)] empties the stage list whatever follows the [null];
    a run accepted on an empty stage list invokes no stage: it hands the
    whole backlog to the done handler (if one is registered), resolves its
    promise with the same items, and leaves the backlog empty and the engine
    idle. *)
Theorem run_without_stages_hands_backlog_to_done
    (m : Machine) (rest : list TasqCallback) :
  running (task m) && is_blocking (task m) = false ->
  let m' := exec m [CallDo None rest; CallRun None []] in
  let n := S (nth (task m)) in
  trace m' =
    trace m ++ Accepted (accepted m) n ::
      match onDone (task m) with
      | Some h =>
          [Handled (accepted m) (OnDone h (mkDoneResult n (items (task m))))]
      | None => []
      end ++ [Resolved (accepted m) (mkRunResult n (items (task m)) None)] /\
  getItems (task m') = [] /\
  isRunning (task m') = false /\
  awaiting m' !! accepted m = None.
Proof.
  intros Hg m' n. unfold m', exec. cbn [foldl step].
  rewrite run_runAsync.
  change (task (set_task ?t m)) with t.
  rewrite runAsync_accepted by exact Hg.
  assert (Hacc : forall t : Tasq, callbacks t = [] ->
    accept t = returned (finally (S (nth t)) None false
                          (set_running true (set_nth (S (nth t)) t)))).
  { intros t Hcb. unfold accept. rewrite loop_unfold.
    cbn [callbacks set_running set_nth]. rewrite Hcb. cbn [length].
    destruct (callbackIndex _); by rewrite andb_false_r. }
  rewrite Hacc by done. rewrite finally_spec. unfold returned, finish.
  cbn [fst snd launch number_of run_nth]. simpl.
  destruct (onDone (task m)) as [h|]; cbn [book snd fst trace task awaiting];
    rewrite <- app_assoc, lookup_delete_eq; by repeat split.
Qed.

Lemma finish_registered dr er d t c :
  finish dr er d t = Some c ->
  match c with
  | OnDone h r => onDone t = Some h /\ r = dr /\ d = false
  | OnError h r => onError t = Some h /\ r = er /\ d = true
  end.
Proof.
  unfold finish. destruct d.
  - destruct (onError t); [|done]. by intros [= <-].
  - destruct (onDone t); [|done]. by intros [= <-].
Qed.

(** X8. The handler called when a run ends is the one registered at that
    moment: [done] and [catch] called while the run is in flight replace the
    handler the run will call, and with no handler registered none is
    called. *)
Theorem handlers_are_looked_up_at_finalization (m : Machine) (i : Input) :
  exists new, trace (step m i) = trace m ++ new /\
    Forall (fun c => match c.2 with
                     | OnDone h _ => onDone (task m) = Some h
                     | OnError h _ => onError (task m) = Some h
                     end) (handled new).
Proof.
  assert (Hnone : exists new : list Event, trace m = trace m ++ new /\
    Forall (fun c => match c.2 with
                     | OnDone h _ => onDone (task m) = Some h
                     | OnError h _ => onError (task m) = Some h
                     end) (handled new)).
  { exists []. rewrite app_nil_r. by split; [|constructor]. }
  assert (Hfin : forall id dr er d t'',
    onDone t'' = onDone (task m) -> onError t'' = onError (task m) ->
    Forall (fun c => match c.2 with
                     | OnDone h _ => onDone (task m) = Some h
                     | OnError h _ => onError (task m) = Some h
                     end) (calls_of id (finish dr er d t''))).
  { intros id dr er d t'' Hd He.
    destruct (finish dr er d t'') as [c|] eqn:Ec; simpl; [|constructor].
    constructor; [|constructor]. apply finish_registered in Ec.
    destruct c as [h r|h r]; simpl; destruct Ec as [Ec _]; congruence. }
  assert (Hlaunch : forall callback rest,
    exists new, trace (launch (runAsync callback rest (task m)) m)
                = trace m ++ new /\
      Forall (fun c => match c.2 with
                       | OnDone h _ => onDone (task m) = Some h
                       | OnError h _ => onError (task m) = Some h
                       end) (handled new)).
  { intros callback rest. unfold runAsync.
    destruct (_ && _).
    - exists [Ignored]. by split; [|constructor].
    - destruct (prologue_keeps callback rest (task m))
        as (_&_&_&_&_&Hd&He&_).
      destruct (accept _) as [t' p] eqn:Eacc. cbn [fst snd].
      rewrite launch_accepted.
      destruct (accept_cases _ _ _ Eacc)
        as [(f & args & -> & _)|(t'' & _ & Hd' & He' & -> & _)].
      + eexists [_; _]. rewrite book_Awaiting. cbn [trace].
        rewrite <- app_assoc. split; [done|]. constructor.
      + edestruct book_finally as (new & -> & Hh & _).
        eexists (_ :: new). cbn [trace]. rewrite <- app_assoc.
        split; [done|]. change (handled (?e :: new)) with (handled new).
        rewrite Hh. apply Hfin; congruence. }
  destruct i as [xs|cb|cb| |cb rest|cb rest|cb rest|id settled|id thrown];
    try exact Hnone.
  - cbn [step]. rewrite run_runAsync. apply Hlaunch.
  - apply Hlaunch.
  - cbn [step]. destruct (awaiting m !! id) as [f|]; [|exact Hnone].
    destruct (resume f settled (task m)) as [t' p] eqn:Eres.
    destruct (resume_cases _ _ _ _ _ Eres)
      as [(f' & args & -> & _)|(t'' & e & d & Hk & -> & _)].
    + eexists [_]. rewrite book_Awaiting. split; [done|]. constructor.
    + edestruct book_finally as (new & -> & Hh & _).
      exists new. split; [done|]. rewrite Hh.
      destruct Hk as (_&_&_&_&Hd&He&_). by apply Hfin.
  - cbn [step]. destruct (finishing m !! id) as [d|]; [|exact Hnone].
    destruct thrown as [error|]; [|exact Hnone].
    eexists [_]. split; [done|]. constructor.
Qed.

(** ** Without the [blocking] option *)

(** X9. A non-blocking engine accepts every call of [run] or [runAsync],
    also while runs are in flight: the call starts a run with the next run
    number and leaves the other suspended runs suspended. *)
Theorem nonblocking_engine_accepts_every_run
    (m : Machine) (start : Input)
    (callback : option TasqCallback) (rest : list TasqCallback) :
  is_blocking (task m) = false ->
  start = CallRun callback rest \/ start = CallRunAsync callback rest ->
  exists new,
    trace (step m start)
      = trace m ++ Accepted (accepted m) (S (nth (task m))) :: new /\
    accepted (step m start) = S (accepted m) /\
    forall id, id <> accepted m ->
      awaiting (step m start) !! id = awaiting m !! id.
Proof.
  intros Hb Hstart.
  assert (Hs : step m start = launch (runAsync callback rest (task m)) m).
  { destruct Hstart as [-> | ->]; cbn [step]; by rewrite ?run_runAsync. }
  rewrite Hs, runAsync_accepted by (by rewrite Hb, andb_false_r).
  destruct (prologue_keeps callback rest (task m)) as (Hn & _).
  destruct (accept _) as [t' p] eqn:Eacc. cbn [fst snd].
  rewrite launch_accepted.
  destruct (accept_cases _ _ _ Eacc)
    as [(f & args & -> & Hf & _)|(t'' & _ & _ & _ & -> & Hp & _)].
  - eexists [_]. rewrite book_Awaiting. cbn [trace accepted awaiting number_of].
    rewrite <- app_assoc, Hf, Hn. split; [done|]. split; [done|].
    intros id Hne. by rewrite lookup_insert_ne.
  - edestruct book_finally as (new & -> & _ & _ & _ & _ & _ & -> & ->).
    exists new. cbn [trace accepted awaiting].
    rewrite <- app_assoc, Hp, Hn. split; [done|]. split; [done|].
    intros id Hne. by rewrite lookup_delete_ne.
Qed.

(** X10. The [running] flag, the run counter and the backlog are shared by
    the runs of a non-blocking engine: when one of two suspended runs ends
    (here because its stage call throws), the flag goes down, the counter
    and the cursor go back to [0] and the backlog is emptied, while the
    other run is still suspended at its stage call. *)
Theorem finalization_leaves_other_runs_suspended
    (m : Machine) (a b : RunId) (fa fb : Frame) (error : Err) :
  awaiting m !! a = Some fa ->
  awaiting m !! b = Some fb ->
  a <> b ->
  let m' := step m (StageSettles a (Rejected error)) in
  awaiting m' !! b = Some fb /\
  awaiting m' !! a = None /\
  isRunning (task m') = false /\
  getItems (task m') = [] /\
  getIndex (task m') = 0 /\
  nth (task m') = 0.
Proof.
  intros Ha Hb Hne m'. unfold m'. cbn [step resume]. rewrite Ha.
  edestruct book_finally as (_ & _ & _ & _ & _ & _ & -> & -> & _).
  by rewrite lookup_delete_ne, lookup_delete_eq.
Qed.

(** ** Acting on the engine while a run is in flight *)

(** X11. Live feed: an item appended while the first stage is busy with the
    last item of the backlog is fed to the first stage as soon as that call
    returns, whatever it returns. *)
Theorem appended_item_is_fed_to_running_first_stage
    (m : Machine) (id : RunId) (f : Frame) (x : T) (xs : list T)
    (value : option TasqCallbackResult) :
  awaiting m !! id = Some f ->
  f_callbackIndex f = 0 ->
  index (task m) = length (items (task m)) ->
  let m' := exec m [CallAdd (x :: xs); StageSettles id (Fulfilled value)] in
  trace m' = trace m ++ [Invoked id f (mkArgs (f_nth f) (Item x))] /\
  awaiting m' !! id = Some f /\
  getCurrent (task m') = Some x /\
  getIndex (task m') = S (index (task m)) /\
  getItems (task m') = items (task m) ++ x :: xs.
Proof.
  intros Hid Hz Hix m'. unfold m', exec.
  cbn [foldl step set_task awaiting task]. rewrite Hid.
  rewrite (first_stage_result_is_overwritten f value _ x Hz).
  - rewrite book_Awaiting. cbn. by rewrite lookup_insert_eq.
  - cbn. by rewrite Hix, lookup_app_r, Nat.sub_diag.
Qed.

(** X12. The first stage keeps the callback it started with: replacing or
    emptying the stage list while the first stage is busy does not change
    the callback that receives the items still in the backlog. *)
Theorem first_stage_keeps_its_callback
    (m : Machine) (id : RunId) (f : Frame)
    (callback : option TasqCallback) (rest : list TasqCallback)
    (value : option TasqCallbackResult) (x : T) :
  awaiting m !! id = Some f ->
  f_callbackIndex f = 0 ->
  items (task m) !! index (task m) = Some x ->
  let m' := exec m [CallDo callback rest; StageSettles id (Fulfilled value)] in
  trace m' = trace m ++ [Invoked id f (mkArgs (f_nth f) (Item x))] /\
  awaiting m' !! id = Some f.
Proof.
  intros Hid Hz Hx m'. unfold m', exec.
  cbn [foldl step set_task awaiting task]. rewrite Hid.
  rewrite (first_stage_result_is_overwritten f value _ x Hz) by done.
  rewrite book_Awaiting. cbn. by rewrite lookup_insert_eq.
Qed.

Lemma poll_next f t x :
  f_callbackIndex f = 0 -> items t !! index t = Some x ->
  poll f t = Some (set_current (Some x) (set_index (S (index t)) t),
                   mkArgs (f_nth f) (Item x)).
Proof.
  intros Hz Hx. unfold poll. rewrite Hz, Hx. apply lookup_lt_Some in Hx.
  by destruct (Nat.ltb_spec (index t) (length (items t))); [|lia].
Qed.

Lemma poll_exhausted f t : length (items t) <= index t -> poll f t = None.
Proof.
  intros Hle. unfold poll.
  destruct (Nat.ltb_spec (index t) (length (items t))); [lia|].
  by rewrite andb_false_r.
Qed.

Lemma poll_later f t : 0 < f_callbackIndex f -> poll f t = None.
Proof.
  intros Hpos. unfold poll.
  by destruct (Nat.eqb_spec (f_callbackIndex f) 0); [lia|].
Qed.



(** X14. A call of [run()] that is dropped still resets the stage cursor,
    and that makes the run in flight start over: when the stage it is busy
    with returns without [break], the run goes back to the first stage and
    feeds it the next item of the backlog. *)
Theorem dropped_run_restarts_the_pipeline
    (m : Machine) (id : RunId) (f : Frame)
    (value : option TasqCallbackResult) (x : T) (c0 : TasqCallback) :
  awaiting m !! id = Some f ->
  0 < f_callbackIndex f ->
  running (task m) = true ->
  is_blocking (task m) = true ->
  items (task m) !! index (task m) = Some x ->
  callbacks (task m) !! 0 = Some c0 ->
  is_break (default empty_result value) = false ->
  let m' := exec m [CallRun None []; StageSettles id (Fulfilled value)] in
  trace m' =
    trace m ++ [Ignored;
                Invoked id (mkFrame (f_nth f) 0 c0)
                           (mkArgs (f_nth f) (Item x))] /\
  getIndex (task m') = S (index (task m)) /\
  getCurrent (task m') = Some x.
Proof.
  intros Hid Hpos Hr Hbl Hx Hc Hb m'. unfold m', exec.
  cbn [foldl step]. rewrite run_runAsync, (runAsync_blocked _ _ _ Hr Hbl).
  cbn [launch snd fst awaiting task]. rewrite Hid. cbn [resume].
  destruct (Nat.eqb_spec (f_callbackIndex f) 0); [lia|].
  rewrite loop_unfold, Hb. cbn [prologue callbackIndex set_callbackIndex callbacks].
  rewrite Hc. cbn [negb andb].
  destruct (Nat.ltb_spec 0 (length (callbacks (task m))))
    as [_|Hge]; [|apply lookup_lt_Some in Hc; lia].
  cbn zeta. unfold stage. rewrite (poll_next _ _ x) by done.
  rewrite book_Awaiting. cbn. by rewrite <- app_assoc.
Qed.

Lemma results_app tr tr' : results (tr ++ tr') = results tr ++ results tr'.
Proof. apply omap_app. Qed.

Lemma book_finally_results id n e d t m :
  exists new,
    trace (book id (returned (finally n e d t)) m) = trace m ++ new /\
    handled new =
      calls_of id
        (finish (mkDoneResult n (items t))
                (mkErrorResult n (items t) None (Z.of_nat (index t) - 1)
                               (callbackIndex t))
                d t) /\
    results new = [(id, mkRunResult n (items t) (if d then e else None))].
Proof.
  rewrite finally_spec. unfold returned. cbn [fst snd].
  destruct (finish _ _ d t) as [c|]; eexists; by repeat split.
Qed.

Lemma loop_ends n result t :
  is_break result = true \/ length (callbacks t) <= callbackIndex t ->
  loop n result t = returned (finally n None false t).
Proof.
  intros [Hb|Hle]; [by apply loop_break|]. rewrite loop_unfold.
  destruct (Nat.ltb_spec (callbackIndex t) (length (callbacks t))); [lia|].
  by rewrite andb_false_r.
Qed.

(** X15. A run ends when a stage call returns [break], or returns anything
    with no stage left under the stage cursor, provided the call is one of a
    later stage or nothing is left to poll: no stage is invoked any more,
    the done handler (if registered) receives the whole backlog, the promise
    is resolved with the same items and no error, and the engine is left
    idle with an empty backlog. *)
Theorem run_ends_on_break_or_after_the_last_stage
    (m : Machine) (id : RunId) (f : Frame)
    (value : option TasqCallbackResult) :
  awaiting m !! id = Some f ->
  0 < f_callbackIndex f \/ length (items (task m)) <= index (task m) ->
  is_break (default empty_result value) = true \/
    length (callbacks (task m)) <= callbackIndex (task m) ->
  let m' := step m (StageSettles id (Fulfilled value)) in
  exists new,
    trace m' = trace m ++ new /\
    invoked new = [] /\
    handled new =
      match onDone (task m) with
      | Some h => [(id, OnDone h (mkDoneResult (f_nth f) (items (task m))))]
      | None => []
      end /\
    results new = [(id, mkRunResult (f_nth f) (items (task m)) None)] /\
    awaiting m' !! id = None /\
    getItems (task m') = [] /\
    isRunning (task m') = false.
Proof.
  intros Hid Hwhere Hend m'. unfold m'. cbn [step]. rewrite Hid.
  assert (resume f (Fulfilled value) (task m)
          = returned (finally (f_nth f) None false (task m))) as ->.
  { cbn [resume]. destruct (Nat.eqb_spec (f_callbackIndex f) 0) as [Hz|Hnz];
      [|by apply loop_ends].
    destruct Hwhere as [?|Hle]; [lia|].
    unfold stage. rewrite poll_exhausted, Hz by done. cbn [Nat.ltb Nat.leb andb].
    by apply loop_ends. }
  destruct (book_finally id (f_nth f) None false (task m) m)
    as (new & Htr & Hh & _ & _ & Hi & Ht & Ha & _).
  destruct (book_finally_results id (f_nth f) None false (task m) m)
    as (new' & Htr' & _ & Hres).
  assert (new' = new) as ->.
  { apply (app_inv_head (trace m)). by rewrite <- Htr, <- Htr'. }
  exists new. rewrite Htr, Ht, Ha, Hh, Hres, lookup_delete_eq. unfold finish.
  by destruct (onDone (task m)).
Qed.

(** ** Items appended while a later stage is busy *)

Lemma drain_later fuel n result t t' f args :
  0 < callbackIndex t ->
  drain fuel n result t = Some (t', Awaiting f args) ->
  0 < f_callbackIndex f /\ 0 < callbackIndex t' /\
  exists d, arg_data args = Forwarded d.
Proof.
  revert result t. induction fuel as [|fuel IH]; intros result t Hpos; simpl.
  - by destruct (_ && _).
  - destruct (_ && _); [|done].
    destruct (callbacks t !! callbackIndex t) as [callback|]; [|done].
    unfold stage. rewrite poll_later by done. cbn [f_callbackIndex].
    destruct (_ && _).
    + intros [= <- <- <-]. simpl. split; [done|]. split; [lia|by eexists].
    + apply IH. simpl. lia.
Qed.

Lemma resume_later f value t t' f' args :
  0 < f_callbackIndex f -> 0 < callbackIndex t ->
  resume f (Fulfilled value) t = (t', Awaiting f' args) ->
  0 < f_callbackIndex f' /\ 0 < callbackIndex t' /\
  exists d, arg_data args = Forwarded d.
Proof.
  intros Hf Hpos. cbn [resume].
  destruct (Nat.eqb_spec (f_callbackIndex f) 0); [lia|].
  intros H. eapply (drain_later _ _ _ t); [done|].
  rewrite loop_drain. by rewrite H.
Qed.

(** X16. Items appended while a later stage is busy are not processed by the
    first stage, unless [run] is called again: as long as the run is only
    driven by [add] calls and by the settling of its stage calls, no item is
    fed to the first stage any more. *)
Theorem items_added_in_later_stage_are_not_fed (sched : list Input) :
  forall (m : Machine) (id : RunId) (f : Frame),
  awaiting m !! id = Some f ->
  0 < f_callbackIndex f ->
  0 < getCallbackIndex (task m) ->
  forallb (driving id) sched = true ->
  forall id', fed id' (trace (exec m sched)) = fed id' (trace m).
Proof.
  unfold getCallbackIndex.
  induction sched as [|i sched IH]; intros m id f Hid Hf Hpos Hdrv id'; [done|].
  simpl in Hdrv. apply andb_true_iff in Hdrv as [Hi Hdrv].
  rewrite exec_cons. destruct i as [xs| | | | | | |id0 settled|]; try done.
  - by rewrite (IH _ id f).
  - apply Nat.eqb_eq in Hi as ->. cbn [step]. rewrite Hid.
    destruct (resume f settled (task m)) as [t' p] eqn:Eres.
    destruct (resume_cases _ _ _ _ _ Eres)
      as [(f' & args & -> & _ & _ & _ & value & ->)
         |(t'' & e & d & _ & -> & _)].
    + destruct (resume_later _ _ _ _ _ _ Hf Hpos Eres) as (Hf' & Hpos' & d & Hd).
      rewrite (IH _ id f'); try done; [|apply lookup_insert_eq].
      rewrite book_Awaiting. cbn [trace]. rewrite fed_app. simpl.
      by rewrite Hd, app_nil_r.
    + set (m1 := book id _ m).
      destruct (book_finally id (f_nth f) e d t'' m)
        as (new & Htr & _ & _ & _ & Hinv & _ & Haw & _). fold m1 in Htr, Haw.
      assert (Hm1 : awaiting m1 !! id = None)
        by (rewrite Haw; apply lookup_delete_eq).
      rewrite (drive_finished sched m1 id Hm1 Hdrv). cbn [set_task trace].
      rewrite Htr, fed_app.
      assert (fed id' new = []) as ->; [|by rewrite app_nil_r].
      clear -Hinv. induction new as [|ev new IH]; [done|].
      destruct ev; simpl in *; try (by apply IH). done.
Qed.

(** ** The current item *)

Lemma drain_current fuel n result t t' f args :
  drain fuel n result t = Some (t', Awaiting f args) ->
  current t' = match arg_data args with
               | Item x => Some x
               | Forwarded _ => current t
               end.
Proof.
  revert result t. induction fuel as [|fuel IH]; intros result t; simpl.
  - by destruct (_ && _).
  - destruct (_ && _); [|done].
    destruct (callbacks t !! callbackIndex t) as [callback|]; [|done].
    unfold stage. destruct (poll _ _) as [[t2 a2]|] eqn:Epoll.
    + intros [= <- <- <-].
      by apply poll_Some in Epoll as (_ & item & _ & -> & ->).
    + destruct (_ && _).
      * by intros [= <- <- <-].
      * intros H. by apply IH in H.
Qed.

Lemma accept_current t t' f args :
  accept t = (t', Awaiting f args) ->
  current t' = match arg_data args with
               | Item x => Some x
               | Forwarded _ => current t
               end.
Proof.
  unfold accept. intros H.
  eapply (drain_current _ _ _ (set_running true (set_nth (S (nth t)) t)) _ f).
  rewrite loop_drain. by rewrite H.
Qed.

Lemma resume_current f value t t' f' args :
  resume f (Fulfilled value) t = (t', Awaiting f' args) ->
  current t' = match arg_data args with
               | Item x => Some x
               | Forwarded _ => current t
               end.
Proof.
  cbn [resume]. destruct (f_callbackIndex f =? 0).
  - unfold stage. destruct (poll f t) as [[t1 a1]|] eqn:Epoll.
    + intros [= <- <- <-].
      by apply poll_Some in Epoll as (_ & item & _ & -> & ->).
    + destruct (_ && _).
      * by intros [= <- <- <-].
      * intros H. eapply (drain_current _ _ _ t _ f').
        rewrite loop_drain. by rewrite H.
  - intros H. eapply (drain_current _ _ _ t _ f').
    rewrite loop_drain. by rewrite H.
Qed.

Lemma fed_Invoked id id0 tr f args :
  fed id (tr ++ [Invoked id0 f args])
  = fed id tr ++ match arg_data args with
                 | Item x => if id0 =? id then [x] else []
                 | Forwarded _ => []
                 end.
Proof.
  rewrite fed_app. f_equal. simpl.
  destruct (arg_data args); [|done]. by destruct (id0 =? id).
Qed.

Lemma fed_quiet id new : invoked new = [] -> fed id new = [].
Proof.
  induction new as [|ev new IH]; [done|].
  destruct ev; simpl; try done. 
Qed.

Lemma current_tracks_step m i :
  single_run m -> well_formed m -> current_tracks m ->
  current_tracks (step m i).
Proof.
  intros [Hb Hcase] (Hkeys & _) [Hnew Hcur].
  assert (Hquiet : forall m' new, awaiting m' = awaiting m ->
            accepted m' = accepted m -> trace m' = trace m ++ new ->
            invoked new = [] ->
            running (task m') = running (task m) ->
            current (task m') = current (task m) ->
            current_tracks m').
  { intros m' new Ha Hacc Ht Hinv Hr Hc. unfold current_tracks.
    rewrite Ha, Hacc, Ht, Hr, Hc.
    assert (Hfed : forall id, fed id (trace m ++ new) = fed id (trace m)).
    { intros id. by rewrite fed_app, (fed_quiet _ _ Hinv), app_nil_r. }
    split; [intros id Hid; rewrite Hfed; by apply Hnew|].
    destruct (running (task m)); [|done].
    intros id f Hid. rewrite Hfed. by eapply Hcur. }
  assert (Hsame : forall t, running t = running (task m) ->
            current t = current (task m) -> current_tracks (set_task t m)).
  { intros t Hr Hc. apply (Hquiet _ []); try done. symmetry. apply app_nil_r. }
  assert (Hreturned : forall id n e d t'' m0 new0,
    accepted m <= accepted m0 -> trace m0 = trace m ++ new0 ->
    invoked new0 = [] ->
    current_tracks (book id (returned (finally n e d t'')) m0)).
  { intros id n e d t'' m0 new0 Hacc Htr0 Hinv0.
    destruct (book_finally id n e d t'' m0)
      as (new & Htr & _ & _ & _ & Hinv & Ht & _ & Hac).
    unfold current_tracks. rewrite Htr, Ht, Hac, Htr0. split; [|done].
    intros id' Hid'.
    rewrite !fed_app, (fed_quiet _ _ Hinv), (fed_quiet _ _ Hinv0), !app_nil_r.
    apply Hnew. lia. }
  assert (Hlaunch : forall callback rest,
            current_tracks (launch (runAsync callback rest (task m)) m)).
  { intros callback rest.
    destruct (prologue_keeps callback rest (task m))
      as (_ & Hr & _ & _ & Hc & _).
    destruct (running (task m)) eqn:Erun.
    - rewrite runAsync_blocked by done.
      by apply (Hquiet _ [Ignored]).
    - destruct Hcase as (Ha & _).
      rewrite runAsync_accepted by (by rewrite Erun).
      destruct (accept _) as [t' p] eqn:Eacc. cbn [fst snd].
      rewrite launch_accepted.
      destruct (accept_cases _ _ _ Eacc)
        as [(f & args & -> & _ & _ & _ & Hr' & _)|(t'' & _ & _ & _ & -> & _)].
      + apply accept_current in Eacc. rewrite book_Awaiting.
        split; cbn [task awaiting accepted trace].
        * intros id Hid. rewrite fed_Invoked, fed_Accepted, Hnew by lia.
          destruct (arg_data args); [|done].
          by destruct (Nat.eqb_spec (accepted m) id); [lia|].
        * rewrite Hr'. intros id f' Hid. rewrite Ha in Hid.
          apply lookup_insert_Some in Hid as [[<- <-]|[_ Hid]];
            [|by rewrite lookup_empty in Hid].
          rewrite Eacc, fed_Invoked, fed_Accepted, Hnew by lia.
          destruct (arg_data args); [by rewrite Nat.eqb_refl|].
          by rewrite Hc, Hcur.
      + eapply (Hreturned _ _ _ _ _ _ [_]); cbn [accepted trace];
          [lia|done|done]. }
  destruct i as [xs|cb|cb| |cb rest|cb rest|cb rest|id settled|id thrown];
    cbn [step]; try (by apply Hsame).
  - apply (Hquiet _ []); try done; [by rewrite app_nil_r| |].
    + cbn [set_task task]. unfold clear, _clear. simpl.
      by destruct (running (task m)) eqn:E; simpl; rewrite E.
    + cbn [set_task task]. unfold clear, _clear. simpl.
      destruct (running (task m)) eqn:E; simpl; [done|]. by rewrite Hcur.
  - rewrite run_runAsync. apply Hlaunch.
  - apply Hlaunch.
  - destruct (awaiting m !! id) as [f|] eqn:Hid; [|done].
    destruct (running (task m)) eqn:Erun;
      [|destruct Hcase as (Ha & _); by rewrite Ha, lookup_empty in Hid].
    destruct Hcase as (id0 & f0 & Ha & _).
    assert (id0 = id) as ->.
    { rewrite Ha in Hid. by apply lookup_singleton_Some in Hid as [-> _]. }
    destruct (resume f settled (task m)) as [t' p] eqn:Eres.
    destruct (resume_cases _ _ _ _ _ Eres)
      as [(f' & args & -> & Hk & _ & _ & value & ->)
         |(t'' & e & d & _ & -> & _)].
    + apply resume_current in Eres. rewrite book_Awaiting.
      destruct Hk as (_ & Hr & _).
      split; cbn [task awaiting accepted trace].
      * intros id' Hid'. rewrite fed_Invoked, Hnew by done.
        destruct (arg_data args); [|done].
        destruct (Nat.eqb_spec id id') as [<-|_]; [|done].
        apply Hkeys in Hid. lia.
      * rewrite Hr, Erun. intros id' f'' Hid'. rewrite Ha in Hid'.
        rewrite insert_singleton_eq in Hid'.
        apply lookup_singleton_Some in Hid' as [<- <-].
        rewrite Eres, fed_Invoked.
        destruct (arg_data args); [by rewrite Nat.eqb_refl, last_snoc|].
        rewrite app_nil_r. by eapply Hcur.
    + apply (Hreturned _ _ _ _ _ _ []); [done|by rewrite app_nil_r|done].
  - destruct (finishing m !! id) as [d|]; [|by apply Hsame].
    destruct thrown as [error|]; simpl.
    + by apply (Hquiet _ [Logged id (if d then "error" else "done") error]).
    + apply (Hquiet _ []); try done. symmetry. apply app_nil_r.
Qed.

(** X17. In blocking mode, whatever the inputs: while a run is in flight
    [getCurrent()] is the item that run has fed last to the first stage
    (also after a [clear()]), and when no run is in flight it is
    [undefined]. *)
Theorem current_is_the_item_fed_last opts inputs :
  default true (blocking opts) = true ->
  if isRunning (task (exec (boot opts) inputs))
  then exists id f,
         awaiting (exec (boot opts) inputs) = {[ id := f ]} /\
         getCurrent (task (exec (boot opts) inputs))
         = last (fed id (trace (exec (boot opts) inputs)))
  else getCurrent (task (exec (boot opts) inputs)) = None.
Proof.
  intros Hb. unfold isRunning, getCurrent.
  assert (Hs : single_run (exec (boot opts) inputs))
    by by apply single_run_exec, single_run_boot.
  assert (Hc : current_tracks (exec (boot opts) inputs)).
  { clear Hs. induction inputs as [|i inputs IH] using rev_ind; [by split|].
    rewrite exec_app. change (exec ?m [i]) with (step m i).
    apply current_tracks_step; [|apply well_formed_exec, well_formed_boot|done].
    by apply single_run_exec, single_run_boot. }
  destruct Hs as [_ Hs], Hc as [_ Hc].
  destruct (running (task (exec (boot opts) inputs))); [|done].
  destruct Hs as (id & f & Ha & _). exists id, f. split; [done|].
  apply (Hc id f). rewrite Ha. apply lookup_singleton_eq.
Qed.

(** ** Sequences of [add] calls *)

(** X18. [add] only appends: any sequence of [add] calls amounts to one call
    with all the items in call order; it starts no run, calls nothing, and
    leaves everything but the backlog as it is. *)
Theorem add_calls_concatenate (xss : list (list T)) (m : Machine) :
  exec m (map CallAdd xss) = set_task (add (concat xss) (task m)) m /\
  getItems (task (exec m (map CallAdd xss))) = getItems (task m) ++ concat xss.
Proof.
  assert (H : exec m (map CallAdd xss) = set_task (add (concat xss) (task m)) m).
  { revert m. induction xss as [|xs xss IH]; intros m.
    - destruct m as [[] ? ? ? ?]. unfold set_task, add, set_items. simpl.
      by rewrite app_nil_r.
    - cbn [map concat]. rewrite exec_cons, IH. cbn [step]. unfold set_task.
      cbn [task awaiting finishing accepted trace]. by rewrite add_add. }
  by rewrite H.
Qed.

(** ** The class without the run counter *)

Lemma poll_forget f t :
  poll_v2 (forget_frame f) (forget t)
  = match poll f t with
    | Some (t', args) => Some (forget t', arg_data args)
    | None => None
    end.
Proof.
  unfold poll, poll_v2.
  cbn [forget_frame forget f_callbackIndex_v2 index_v2 items_v2].
  destruct (_ && _); [|done]. by destruct (items t !! index t).
Qed.

Lemma stage_forget f result t :
  stage_v2 (forget_frame f) result (forget t)
  = match stage f result t with
    | Suspend t' args => Suspend_v2 (forget t') (arg_data args)
    | Next result' t' => Next_v2 result' (forget t')
    end.
Proof.
  unfold stage, stage_v2. rewrite poll_forget.
  destruct (poll f t) as [[t' args]|]; [done|].
  cbn [forget_frame f_callbackIndex_v2]. by destruct (_ && _).
Qed.

Lemma finally_forget n ci e d t :
  forget (returned (finally n e d t)).1
  = (returned_v2 (finally_v2 ci e d (forget t))).1 /\
  same_progress (returned (finally n e d t)).2
                (returned_v2 (finally_v2 ci e d (forget t))).2.
Proof.
  rewrite finally_spec. unfold returned, returned_v2, finally_v2, finish,
    finish_v2. simpl.
  destruct d; simpl; [destruct (onError t)|destruct (onDone t)];
    by repeat split.
Qed.

Lemma drain_forget fuel n ci result t :
  match drain fuel n result t with
  | Some out =>
      exists out', drain_v2 fuel ci result (forget t) = Some out' /\
        forget out.1 = out'.1 /\ same_progress out.2 out'.2
  | None => drain_v2 fuel ci result (forget t) = None
  end.
Proof.
  revert ci result t. induction fuel as [|fuel IH]; intros ci result t;
    cbn [drain drain_v2];
    change (callbackIndex_v2 (forget t)) with (callbackIndex t);
    change (callbacks_v2 (forget t)) with (callbacks t);
    (destruct (_ && _);
     [|eexists; split; [done|apply finally_forget]]); [done|].
  change (callbacks_v2 (set_callbackIndex_v2 ?v (forget t))) with (callbacks t).
  change (callbacks (set_callbackIndex ?v t)) with (callbacks t).
  destruct (callbacks t !! callbackIndex t) as [callback|]; [|done].
  cbn zeta.
  change (set_callbackIndex_v2 ?v (forget t))
    with (forget (set_callbackIndex v t)).
  change (mkFrame_v2 (callbackIndex t) callback)
    with (forget_frame (mkFrame n (callbackIndex t) callback)).
  rewrite stage_forget.
  destruct (stage _ result _) as [t2 args|result' t2].
  - eexists. by split.
  - apply IH.
Qed.

Lemma loop_forget n ci result t :
  forget (loop n result t).1 = (loop_v2 ci result (forget t)).1 /\
  same_progress (loop n result t).2 (loop_v2 ci result (forget t)).2.
Proof.
  pose proof (drain_forget (S (length (callbacks t) - callbackIndex t))
                n ci result t) as H.
  rewrite loop_drain in H. destruct H as (out' & H & Ht & Hp).
  unfold loop_v2.
  change (callbackIndex_v2 (forget t)) with (callbackIndex t).
  change (callbacks_v2 (forget t)) with (callbacks t).
  by rewrite H.
Qed.

(** The fuel [loop_v2] gives its loop is enough, as it is for [loop]. *)
Lemma drain_v2_enough fuel ci result t :
  length (callbacks_v2 t) - callbackIndex_v2 t < fuel ->
  is_Some (drain_v2 fuel ci result t).
Proof.
  intros Hfuel.
  set (t0 := mkTasq 0 (index_v2 t) (callbackIndex_v2 t) (running_v2 t)
                    (current_v2 t) (items_v2 t) (callbacks_v2 t) (onDone_v2 t)
                    (onError_v2 t) (mkOptions None)).
  assert (Ht : forget t0 = t) by by destruct t.
  pose proof (drain_forget fuel 0 ci result t0) as H.
  destruct (drain_enough fuel 0 result t0) as [out Hout]; [done|].
  rewrite Hout, Ht in H. destruct H as (out' & -> & _). by eexists.
Qed.

Lemma prologue_forget callback rest t :
  forget (prologue callback rest t) = prologue_v2 callback rest (forget t).
Proof. by destruct callback. Qed.

(** The mutators act alike on the two classes. *)
Lemma mutators_forget t :
  (forall xs, forget (add xs t) = add_v2 xs (forget t)) /\
  (forall h, forget (done h t) = done_v2 h (forget t)) /\
  (forall h, forget (catch h t) = catch_v2 h (forget t)) /\
  forget (clear t) = clear_v2 (forget t) /\
  (forall callback rest,
     forget (do callback rest t) = do_v2 callback rest (forget t)) /\
  forget (constructor (mkOptions None)) = new_v2.
Proof.
  repeat split. unfold clear, clear_v2, _clear, _clear_v2. simpl.
  by destruct (running t).
Qed.

(** X19. A call of [run] or [runAsync] does the same on the two classes, as
    long as the class with the run counter is in blocking mode or has no run
    in flight: the engines are left in the same state, and the calls are
    both dropped, or suspended at the same stage call with the same data, or
    returned with the same items and the same done call. *)
Theorem classes_agree_on_run
    (callback : option TasqCallback) (rest : list TasqCallback) (t : Tasq) :
  running t = false \/ is_blocking t = true ->
  forget (runAsync callback rest t).1
  = (runAsync_v2 callback rest (forget t)).1 /\
  match (runAsync callback rest t).2,
        (runAsync_v2 callback rest (forget t)).2 with
  | Some p, Some p' => same_progress p p'
  | None, None => True
  | _, _ => False
  end /\
  run callback rest t = runAsync callback rest t /\
  run_v2 callback rest (forget t) = runAsync_v2 callback rest (forget t).
Proof.
  intros Hmode. split; [|split; [|split]].
  3: apply run_runAsync.
  3: by destruct callback.
  all: unfold runAsync, runAsync_v2; rewrite <- prologue_forget;
    destruct (prologue_keeps callback rest t) as (_ & Hr & _ & _ & _ & _ & _ & Ho & _);
    change (running_v2 (forget ?x)) with (running x);
    unfold is_blocking in *; rewrite Hr, Ho;
    (destruct (running t) eqn:Erun;
     [destruct Hmode as [?| ->]; [done|]; done|]);
    cbn [andb fst snd]; unfold accept;
    change (set_running_v2 true (forget ?x))
      with (forget (set_running true (set_nth (S (nth x)) x)));
    apply loop_forget.
Qed.

(** X20. The settling of a stage call does the same on the two classes,
    whatever the call settles with: the two runs are suspended at the same
    next stage call with the same data, or they both return, with the same
    items and thrown value, after calling the same handler with the same
    items. *)
Theorem classes_agree_on_resumption
    (f : Frame) (settled : Settled) (t : Tasq) :
  forget (resume f settled t).1
  = (resume_v2 (forget_frame f) settled (forget t)).1 /\
  same_progress (resume f settled t).2
                (resume_v2 (forget_frame f) settled (forget t)).2.
Proof.
  destruct settled as [value|error]; cbn [resume resume_v2].
  - change (f_callbackIndex_v2 (forget_frame f)) with (f_callbackIndex f).
    destruct (f_callbackIndex f =? 0); [|apply loop_forget].
    rewrite stage_forget.
    destruct (stage f _ t) as [t' args|result' t']; [done|].
    apply loop_forget.
  - apply finally_forget.
Qed.

(** X21. Where the two classes of [src/Tasq.ts] differ: when a stage call
    throws, the class without the run counter hands the thrown value and the
    index of the stage that threw to the error handler; the class with the
    run counter hands over no thrown value, and the stage cursor of the
    engine. *)
Theorem classes_differ_in_error_result
    (f : Frame) (error : Err) (t : Tasq) (h : TasqErrorCallback) :
  onError t = Some h ->
  (resume f (Rejected error) t).2
  = Returned (mkRunResult (f_nth f) (items t) (Some error))
      (Some (OnError h
         (mkErrorResult (f_nth f) (items t) None (Z.of_nat (index t) - 1)
                        (callbackIndex t)))) /\
  (resume_v2 (forget_frame f) (Rejected error) (forget t)).2
  = Returned_v2 (mkResult_v2 (items t) (Some error))
      (Some (OnError_v2 h
         (mkErrorResult_v2 (items t) (Some error) (Z.of_nat (index t) - 1)
                           (f_callbackIndex f)))).
Proof.
  intros He. cbn [resume resume_v2]. rewrite finally_spec.
  unfold returned, returned_v2, finally_v2, finish, finish_v2. simpl.
  by rewrite He.
Qed.

(** A run of the class without the run counter is suspended at a stage
    call with the index that callback has in the stage list, and the stage
    cursor just past it. *)
Lemma drain_v2_frame fuel ci result t t' f data :
  drain_v2 fuel ci result t = Some (t', Awaiting_v2 f data) ->
  callbacks_v2 t' !! f_callbackIndex_v2 f = Some (f_callback_v2 f) /\
  callbackIndex_v2 t' = S (f_callbackIndex_v2 f).
Proof.
  revert ci result t. induction fuel as [|fuel IH]; intros ci result t; simpl.
  - by destruct (_ && _).
  - destruct (_ && _); [|done].
    destruct (callbacks_v2 t !! callbackIndex_v2 t) as [callback|] eqn:Ec;
      [|done].
    unfold stage_v2, poll_v2.
    destruct (_ && _); [destruct (items_v2 _ !! _)|]; simpl;
      try (destruct (_ && _)); try (by intros [= <- <- <-]); apply IH.
Qed.

Lemma loop_v2_frame ci result t t' f data :
  loop_v2 ci result t = (t', Awaiting_v2 f data) ->
  callbacks_v2 t' !! f_callbackIndex_v2 f = Some (f_callback_v2 f) /\
  callbackIndex_v2 t' = S (f_callbackIndex_v2 f).
Proof.
  unfold loop_v2. intros Hloop.
  destruct (drain_v2 _ ci result t) as [[t1 p1]|] eqn:Ed.
  - simpl in Hloop. injection Hloop as -> ->. by apply drain_v2_frame in Ed.
  - simpl in Hloop. unfold returned_v2 in Hloop. by injection Hloop.
Qed.

(** A resumed run is suspended again by the inner loop, with its locals
    and the next item whatever the stage list holds by then, or by the
    outer loop, which reads the stage list anew. *)
Lemma resume_v2_frame f value t t' f' data :
  resume_v2 f (Fulfilled value) t = (t', Awaiting_v2 f' data) ->
  (f' = f /\ f_callbackIndex_v2 f = 0 /\
   callbackIndex_v2 t' = callbackIndex_v2 t /\
   callbacks_v2 t' = callbacks_v2 t /\ exists item, data = Item item) \/
  (callbacks_v2 t' !! f_callbackIndex_v2 f' = Some (f_callback_v2 f') /\
   callbackIndex_v2 t' = S (f_callbackIndex_v2 f')).
Proof.
  cbn [resume_v2]. destruct (f_callbackIndex_v2 f =? 0) eqn:E0.
  - apply Nat.eqb_eq in E0. unfold stage_v2, poll_v2. rewrite E0.
    change (0 =? 0) with true. change (0 <? 0) with false. cbn [andb].
    destruct (index_v2 t <? length (items_v2 t));
      [destruct (items_v2 t !! index_v2 t) as [item|]|].
    + intros [= <- <- <-]. left. repeat split; try done. by exists item.
    + intros H. right. by apply loop_v2_frame in H.
    + intros H. right. by apply loop_v2_frame in H.
  - intros H. right. by apply loop_v2_frame in H.
Qed.

(** X22. In the class without the run counter, whenever the stage call a
    run is suspended at throws, the error handler receives the thrown
    value, the backlog, the position of the item polled last, and the
    value of the run's variable [callbackIndex]; the engine is left not
    running with an empty backlog.  When [runAsync] or the outer loop of a
    resumed run suspends the run, that variable is the index under which
    the stage list holds the callback that is called; when the inner loop
    of a resumed run suspends it again, the variable is [0] and the
    callback is the one the run has called before, whatever the stage list
    holds by then. *)
Theorem error_result_names_the_stage_that_threw_v2
    (t : Tasq_v2) (f : Frame_v2) (error : Err) (h : TasqErrorCallback) :
  onError_v2 t = Some h ->
  (exists r,
    (resume_v2 f (Rejected error) t).2
    = Returned_v2 (mkResult_v2 (items_v2 t) (Some error))
                  (Some (OnError_v2 h r)) /\
    error_error r = Some error /\
    error_items r = getItems_v2 t /\
    error_index r = (Z.of_nat (getIndex_v2 t) - 1)%Z /\
    error_callbackIndex r = f_callbackIndex_v2 f /\
    isRunning_v2 (resume_v2 f (Rejected error) t).1 = false /\
    getItems_v2 (resume_v2 f (Rejected error) t).1 = []) /\
  (forall (callback : option TasqCallback) (rest : list TasqCallback)
          (t0 t1 : Tasq_v2) (f1 : Frame_v2) (data : Payload),
     runAsync_v2 callback rest t0 = (t1, Some (Awaiting_v2 f1 data)) ->
     callbacks_v2 t1 !! f_callbackIndex_v2 f1 = Some (f_callback_v2 f1) /\
     getCallbackIndex_v2 t1 = S (f_callbackIndex_v2 f1)) /\
  (forall (f0 : Frame_v2) (value : option TasqCallbackResult)
          (t0 t1 : Tasq_v2) (f1 : Frame_v2) (data : Payload),
     resume_v2 f0 (Fulfilled value) t0 = (t1, Awaiting_v2 f1 data) ->
     (f1 = f0 /\ f_callbackIndex_v2 f0 = 0 /\
      getCallbackIndex_v2 t1 = getCallbackIndex_v2 t0 /\
      callbacks_v2 t1 = callbacks_v2 t0 /\ exists item, data = Item item) \/
     (callbacks_v2 t1 !! f_callbackIndex_v2 f1 = Some (f_callback_v2 f1) /\
      getCallbackIndex_v2 t1 = S (f_callbackIndex_v2 f1))).
Proof.
  intros He. split; [|split].
  - cbn [resume_v2]. unfold returned_v2, finally_v2, finish_v2. simpl.
    rewrite He. eexists. by repeat split.
  - intros callback rest t0 t1 f1 data. unfold runAsync_v2.
    destruct (running_v2 _); [done|]. cbn [fst snd].
    destruct (loop_v2 _ _ _) as [t2 p2] eqn:Eloop. cbn [fst snd].
    intros [= -> ->]. by apply loop_v2_frame in Eloop.
  - intros f0 value t0 t1 f1 data. apply resume_v2_frame.
Qed.

(** ** The synchronous part of a run *)

(** X23. Between two [await]s the outer loop makes at most one pass per
    stage that is left: with that much fuel or more the loop of the model
    comes to a stage call or to [finally], and to the same one. *)
Theorem synchronous_part_terminates
    (fuel n : nat) (result : TasqCallbackResult) (t : Tasq) :
  length (callbacks t) - callbackIndex t < fuel ->
  drain fuel n result t = Some (loop n result t).
Proof.
  revert result t. induction fuel as [|fuel IH]; intros result t Hfuel; [lia|].
  rewrite loop_unfold. cbn [drain].
  destruct (negb (is_break result)); cbn [andb]; [|done].
  destruct (Nat.ltb_spec (callbackIndex t) (length (callbacks t)))
    as [Hlt|Hge]; [|done].
  change (callbacks (set_callbackIndex _ t)) with (callbacks t).
  destruct (lookup_lt_is_Some_2 (callbacks t) (callbackIndex t) Hlt)
    as [callback ->].
  cbn zeta. destruct (stage _ result _) as [t2 args|result' t2] eqn:Est; [done|].
  apply stage_Next in Est as (-> & -> & _). apply IH. simpl. lia.
Qed.

(** ** The class of [unnamed/part_001] *)

Lemma poll_plain f t :
  poll_v1 (plain_frame f) (plain t)
  = match poll_v2 f t with
    | Some (t', data) => Some (plain t', data)
    | None => None
    end.
Proof.
  unfold poll_v1, poll_v2.
  cbn [plain_frame plain f_cbIndex_v1 index_v1 items_v1].
  destruct (_ && _); [|done]. by destruct (items_v2 t !! index_v2 t).
Qed.

(** A pass looks at the working result only for its [break] and its
    [data]. *)
Lemma stage_plain f result result' t :
  is_break result = is_break result' -> res_data result = res_data result' ->
  stage_v1 (plain_frame f) result' (plain t)
  = match stage_v2 f result t with
    | Suspend_v2 t' data => Suspend_v1 (plain t') data
    | Next_v2 _ t' => Next_v1 result' (plain t')
    end.
Proof.
  intros Hb Hd. unfold stage_v1, stage_v2. rewrite poll_plain.
  destruct (poll_v2 f t) as [[t' data]|]; [done|].
  cbn [plain_frame f_cbIndex_v1]. rewrite Hb, Hd. by destruct (_ && _).
Qed.

Lemma stage_v2_Next f result t result' t' :
  stage_v2 f result t = Next_v2 result' t' -> result' = result.
Proof.
  unfold stage_v2. destruct (poll_v2 f t) as [[t1 d1]|]; [done|].
  destruct (_ && _); [done|]. by intros [= <- <-].
Qed.

Lemma finally_plain ci e d t :
  d = true \/ e = None ->
  plain (returned_v2 (finally_v2 ci e d t)).1
  = (returned_v1 (finally_v1 e d (plain t))).1 /\
  same_progress_v1 (returned_v2 (finally_v2 ci e d t)).2
                   (returned_v1 (finally_v1 e d (plain t))).2.
Proof.
  intros He.
  unfold returned_v1, returned_v2, finally_v1, finally_v2, finish_v1,
    finish_v2. simpl.
  destruct d; simpl.
  - by destruct (onError_v2 t).
  - destruct He as [?| ->]; [done|]. by destruct (onDone_v2 t).
Qed.

Lemma drain_plain fuel ci result result' t :
  is_break result = is_break result' -> res_data result = res_data result' ->
  match drain_v2 fuel ci result t with
  | Some out =>
      exists out', drain_v1 fuel result' (plain t) = Some out' /\
        plain out.1 = out'.1 /\ same_progress_v1 out.2 out'.2
  | None => drain_v1 fuel result' (plain t) = None
  end.
Proof.
  revert ci result result' t.
  induction fuel as [|fuel IH]; intros ci result result' t Hb Hd;
    cbn [drain_v1 drain_v2];
    change (cbIndex_v1 (plain t)) with (callbackIndex_v2 t);
    change (callbacks_v1 (plain t)) with (callbacks_v2 t);
    rewrite <- Hb;
    (destruct (_ && _);
     [|eexists; split; [done|apply finally_plain; by right]]); [done|].
  change (callbacks_v1 (set_cbIndex_v1 ?v (plain t))) with (callbacks_v2 t).
  change (callbacks_v2 (set_callbackIndex_v2 ?v t)) with (callbacks_v2 t).
  destruct (callbacks_v2 t !! callbackIndex_v2 t) as [callback|]; [|done].
  cbn zeta.
  change (set_cbIndex_v1 ?v (plain t))
    with (plain (set_callbackIndex_v2 v t)).
  change (mkFrame_v1 (callbackIndex_v2 t) callback)
    with (plain_frame (mkFrame_v2 (callbackIndex_v2 t) callback)).
  rewrite (stage_plain _ result result') by done.
  destruct (stage_v2 _ result _) as [t2 data|result2 t2] eqn:Est.
  - eexists. by split.
  - apply stage_v2_Next in Est as ->. by apply IH.
Qed.

Lemma loop_plain ci result result' t :
  is_break result = is_break result' -> res_data result = res_data result' ->
  plain (loop_v2 ci result t).1 = (loop_v1 result' (plain t)).1 /\
  same_progress_v1 (loop_v2 ci result t).2 (loop_v1 result' (plain t)).2.
Proof.
  intros Hb Hd. unfold loop_v1, loop_v2.
  change (cbIndex_v1 (plain t)) with (callbackIndex_v2 t).
  change (callbacks_v1 (plain t)) with (callbacks_v2 t).
  pose proof (drain_plain (S (length (callbacks_v2 t) - callbackIndex_v2 t))
                ci result result' t Hb Hd) as H.
  destruct (drain_v2 _ ci result t) as [out|].
  - destruct H as (out' & -> & Ht & Hp). by split.
  - rewrite H. apply finally_plain. by right.
Qed.

(** The fuel [loop_v1] gives its loop is enough. *)
Lemma drain_v1_enough fuel result t :
  length (callbacks_v1 t) - cbIndex_v1 t < fuel ->
  is_Some (drain_v1 fuel result t).
Proof.
  intros Hfuel.
  set (t0 := mkTasq_v2 (index_v1 t) (cbIndex_v1 t) (running_v1 t)
                       (current_v1 t) (items_v1 t) (callbacks_v1 t)
                       (onDone_v1 t) (onError_v1 t)).
  assert (Ht : plain t0 = t) by by destruct t.
  pose proof (drain_plain fuel 0 result result t0 eq_refl eq_refl) as H.
  destruct (drain_v2_enough fuel 0 result t0) as [out Hout]; [done|].
  rewrite Hout, Ht in H. destruct H as (out' & -> & _). by eexists.
Qed.

(** The mutators act alike on the two classes. *)
Lemma mutators_plain t :
  (forall xs, plain (add_v2 xs t) = add_v1 xs (plain t)) /\
  (forall h, plain (done_v2 h t) = done_v1 h (plain t)) /\
  (forall h, plain (catch_v2 h t) = catch_v1 h (plain t)) /\
  plain (clear_v2 t) = clear_v1 (plain t) /\
  (forall callback rest,
     plain (do_v2 callback rest t) = do_v1 callback rest (plain t)) /\
  getIndex_v1 (plain t) = mkIndex_v1 (getIndex_v2 t) (getCallbackIndex_v2 t) /\
  getCurrent_v1 (plain t) = getCurrent_v2 t /\
  getItems_v1 (plain t) = getItems_v2 t /\
  isRunning_v1 (plain t) = isRunning_v2 t /\
  plain new_v2 = new_v1.
Proof.
  repeat split. unfold clear_v1, clear_v2, _clear_v1, _clear_v2. simpl.
  by destruct (running_v2 t).
Qed.

Lemma prologue_plain callback rest t :
  plain (prologue_v2 callback rest t) = prologue_v1 callback rest (plain t).
Proof. by destruct callback. Qed.

(** X24. The class of [unnamed/part_001] and the class without the run
    counter do the same at a call of [run] or [runAsync] that is dropped, or
    that finds an item to poll: the engines are left in the same state, and
    the runs are suspended at the same stage call with the same data, or
    return the same items after the same done call. *)
Theorem plain_class_agrees_on_run_with_items
    (callback : option TasqCallback) (rest : list TasqCallback) (t : Tasq_v2) :
  running_v2 t = true \/ index_v2 t < length (items_v2 t) ->
  plain (runAsync_v2 callback rest t).1
  = (runAsync_v1 callback rest (plain t)).1 /\
  match (runAsync_v2 callback rest t).2,
        (runAsync_v1 callback rest (plain t)).2 with
  | Some p, Some p' => same_progress_v1 p p'
  | None, None => True
  | _, _ => False
  end /\
  run_v1 callback rest (plain t) = runAsync_v1 callback rest (plain t).
Proof.
  intros Hcase.
  cut (plain (runAsync_v2 callback rest t).1
       = (runAsync_v1 callback rest (plain t)).1 /\
       match (runAsync_v2 callback rest t).2,
             (runAsync_v1 callback rest (plain t)).2 with
       | Some p, Some p' => same_progress_v1 p p'
       | None, None => True
       | _, _ => False
       end); [intros [? ?]; by destruct callback|].
  unfold runAsync_v1, runAsync_v2.
  rewrite <- prologue_plain.
  change (running_v1 (plain ?x)) with (running_v2 x).
  assert (Hr : running_v2 (prologue_v2 callback rest t) = running_v2 t)
    by by destruct callback.
  assert (Hi : initial_v2 (set_running_v2 true (prologue_v2 callback rest t))
               = mkCallbackResult None
                   (Some (length (items_v2 t) <=? index_v2 t)))
    by by destruct callback.
  rewrite Hr, Hi. destruct (running_v2 t) eqn:Erun; [done|].
  destruct Hcase as [?|Hlt]; [done|].
  destruct (Nat.leb_spec (length (items_v2 t)) (index_v2 t)); [lia|].
  cbn [fst snd].
  change (set_running_v1 true (plain ?x)) with (plain (set_running_v2 true x)).
  by apply loop_plain.
Qed.

(** X25. When a stage call settles, the class of [unnamed/part_001] and the
    class without the run counter do the same, whatever it settles with: the
    runs are suspended at the same next stage call, or return the same items
    and thrown value, and the handler they call receives the same items and,
    for the error handler, the same thrown value. *)
Theorem plain_class_agrees_on_resumption
    (f : Frame_v2) (settled : Settled) (t : Tasq_v2) :
  plain (resume_v2 f settled t).1
  = (resume_v1 (plain_frame f) settled (plain t)).1 /\
  same_progress_v1 (resume_v2 f settled t).2
                   (resume_v1 (plain_frame f) settled (plain t)).2.
Proof.
  destruct settled as [value|error]; cbn [resume_v1 resume_v2].
  - change (f_cbIndex_v1 (plain_frame f)) with (f_callbackIndex_v2 f).
    destruct (f_callbackIndex_v2 f =? 0); [|by apply loop_plain].
    rewrite (stage_plain f (default empty_result value)
                         (default empty_result value)) by done.
    destruct (stage_v2 f _ t) as [t' data|result' t'] eqn:Est; [done|].
    apply stage_v2_Next in Est as ->. by apply loop_plain.
  - apply finally_plain. by left.
Qed.

Lemma drain_v1_step fuel result t callback :
  is_break result = false ->
  callbacks_v1 t !! cbIndex_v1 t = Some callback ->
  drain_v1 (S fuel) result t
  = match stage_v1 (mkFrame_v1 (cbIndex_v1 t) callback) result
                   (set_cbIndex_v1 (S (cbIndex_v1 t)) t) with
    | Suspend_v1 t2 data =>
        Some (t2, Awaiting_v1 (mkFrame_v1 (cbIndex_v1 t) callback) data)
    | Next_v1 result' t2 => drain_v1 fuel result' t2
    end.
Proof.
  intros Hb Hc. cbn [drain_v1]. rewrite Hb.
  destruct (Nat.ltb_spec (cbIndex_v1 t) (length (callbacks_v1 t)))
    as [_|Hge]; [|apply lookup_lt_Some in Hc; lia].
  change (callbacks_v1 (set_cbIndex_v1 _ t)) with (callbacks_v1 t).
  by rewrite Hc.
Qed.

Lemma stage_v1_exhausted f result t :
  f_cbIndex_v1 f = 0 -> length (items_v1 t) <= index_v1 t ->
  stage_v1 f result t = Next_v1 result t.
Proof.
  intros Hz Hle. unfold stage_v1, poll_v1. rewrite Hz.
  by destruct (Nat.ltb_spec (index_v1 t) (length (items_v1 t))); [lia|].
Qed.

Lemma stage_v1_later f result t :
  0 < f_cbIndex_v1 f -> is_break result = false ->
  stage_v1 f result t = Suspend_v1 t (Forwarded (res_data result)).
Proof.
  intros Hpos Hb. unfold stage_v1, poll_v1. rewrite Hb.
  destruct (Nat.eqb_spec (f_cbIndex_v1 f) 0); [lia|].
  by destruct (Nat.ltb_spec 0 (f_cbIndex_v1 f)); [|lia].
Qed.

(** X26. Where those two differ: on an exhausted backlog the class without
    the run counter does not enter the drain loop and calls the done handler
    at once, while the class of [unnamed/part_001] goes through the first
    stage without a call and invokes the second stage with no data. *)
Theorem plain_class_runs_later_stages_on_exhausted_backlog
    (c0 c1 : TasqCallback) (more : list TasqCallback) (t : Tasq_v2) :
  running_v2 t = false ->
  length (items_v2 t) <= index_v2 t ->
  (runAsync_v1 (Some c0) (c1 :: more) (plain t)).2
  = Some (Awaiting_v1 (mkFrame_v1 1 c1) (Forwarded None)) /\
  index_v1 (runAsync_v1 (Some c0) (c1 :: more) (plain t)).1 = index_v2 t /\
  (runAsync_v2 (Some c0) (c1 :: more) t).2
  = Some (Returned_v2 (mkResult_v2 (items_v2 t) None)
            match onDone_v2 t with
            | Some h => Some (OnDone_v2 h (items_v2 t))
            | None => None
            end).
Proof.
  intros Hr Hle.
  assert (Hr1 : running_v1 (prologue_v1 (Some c0) (c1 :: more) (plain t))
                = false) by exact Hr.
  assert (Hr2 : running_v2 (prologue_v2 (Some c0) (c1 :: more) t) = false)
    by exact Hr.
  unfold runAsync_v1, runAsync_v2. rewrite Hr1, Hr2. cbn [fst snd].
  set (t1 := set_running_v1 true _). set (t2 := set_running_v2 true _).
  assert (Hloop : loop_v1 empty_result t1
    = (set_cbIndex_v1 2 t1, Awaiting_v1 (mkFrame_v1 1 c1) (Forwarded None))).
  { unfold loop_v1.
    change (S (length (callbacks_v1 t1) - cbIndex_v1 t1))
      with (S (S (S (length more)))).
    rewrite (drain_v1_step _ _ _ c0) by done.
    rewrite stage_v1_exhausted by done.
    rewrite (drain_v1_step _ _ _ c1) by done.
    rewrite stage_v1_later by (simpl; done || lia). done. }
  rewrite Hloop. split; [done|]. split; [done|].
  assert (Hb : is_break (initial_v2 t2) = true).
  { unfold is_break, initial_v2. simpl. apply Nat.leb_le.
    by destruct t. }
  unfold loop_v2. cbn [drain_v2]. rewrite Hb. cbn [negb andb default].
  unfold returned_v2, finally_v2, finish_v2. simpl.
  by destruct (onDone_v2 t).
Qed.

(** ** How a run ends *)

(** X27. The error handler is called only in the step in which a stage call
    of the run throws, and the done handler only in a step in which the run
    ends otherwise: at the call of [run] or [runAsync] that started it, or
    when one of its stage calls returns. *)
Theorem handler_tells_how_the_run_ended (m : Machine) (i : Input) :
  exists new, trace (step m i) = trace m ++ new /\
    Forall (fun c => match c.2 with
                     | OnError _ _ =>
                         exists error, i = StageSettles c.1 (Rejected error)
                     | OnDone _ _ =>
                         (exists callback rest,
                            i = CallRun callback rest \/
                            i = CallRunAsync callback rest) \/
                         exists value, i = StageSettles c.1 (Fulfilled value)
                     end) (handled new).
Proof.
  assert (Hnone : forall P, exists new : list Event, trace m = trace m ++ new /\
    Forall P (handled new)).
  { intros P. exists []. rewrite app_nil_r. split; [done|]. constructor. }
  assert (Hfin : forall (P : RunId * HandlerCall -> Prop) id dr er d t'',
    (forall c, finish dr er d t'' = Some c -> P (id, c)) ->
    Forall P (calls_of id (finish dr er d t''))).
  { intros P id dr er d t'' HP.
    destruct (finish dr er d t'') as [c|]; simpl; [|constructor].
    constructor; [|constructor]. by apply HP. }
  assert (Hlaunch : forall i' callback rest,
    i' = CallRun callback rest \/ i' = CallRunAsync callback rest ->
    exists new, trace (launch (runAsync callback rest (task m)) m)
                = trace m ++ new /\
      Forall (fun c => match c.2 with
                     | OnError _ _ =>
                         exists error, i' = StageSettles c.1 (Rejected error)
                     | OnDone _ _ =>
                         (exists callback rest,
                            i' = CallRun callback rest \/
                            i' = CallRunAsync callback rest) \/
                         exists value, i' = StageSettles c.1 (Fulfilled value)
                     end) (handled new)).
  { intros i' callback rest Hi'. unfold runAsync.
    destruct (_ && _).
    - exists [Ignored]. split; [done|]. constructor.
    - destruct (accept _) as [t' p] eqn:Eacc. cbn [fst snd].
      rewrite launch_accepted.
      destruct (accept_cases _ _ _ Eacc)
        as [(f & args & -> & _)|(t'' & _ & _ & _ & -> & _)].
      + eexists [_; _]. rewrite book_Awaiting. cbn [trace].
        rewrite <- app_assoc. split; [done|]. constructor.
      + edestruct book_finally as (new & -> & Hh & _).
        eexists (_ :: new). cbn [trace]. rewrite <- app_assoc.
        split; [done|]. change (handled (?e :: new)) with (handled new).
        rewrite Hh. apply Hfin. intros c Hc. apply finish_registered in Hc.
        destruct c as [h r|h r]; [by destruct Hc as (_ & _ & ?)|].
        left. by exists callback, rest. }
  destruct i as [xs|cb|cb| |cb rest|cb rest|cb rest|id settled|id thrown];
    try apply Hnone.
  - cbn [step]. rewrite run_runAsync. apply Hlaunch. by left.
  - apply Hlaunch. by right.
  - cbn [step]. destruct (awaiting m !! id) as [f|]; [|apply Hnone].
    destruct (resume f settled (task m)) as [t' p] eqn:Eres.
    destruct (resume_cases _ _ _ _ _ Eres)
      as [(f' & args & -> & _)|(t'' & e & d & Hk & -> & Hset)].
    + eexists [_]. rewrite book_Awaiting. split; [done|]. constructor.
    + edestruct book_finally as (new & -> & Hh & _).
      exists new. split; [done|]. rewrite Hh. apply Hfin.
      intros c Hc. apply finish_registered in Hc.
      destruct settled as [value|error].
      * destruct Hset as [-> ->].
        destruct c as [h r|h r]; [by destruct Hc as (_ & _ & ?)|].
        right. by exists value.
      * destruct Hset as (-> & -> & ->).
        destruct c as [h r|h r]; [by exists error|].
        by destruct Hc as (_ & _ & ?).
  - cbn [step]. destruct (finishing m !! id) as [d|]; [|apply Hnone].
    destruct thrown as [error|]; [|apply Hnone].
    eexists [_]. split; [done|]. constructor.
Qed.

(** X28. The promise of [runAsync] is resolved, never rejected: the result
    of a run that ends carries the backlog as it is at that step, and the
    thrown value when (and only when) the run ends because a stage call
    throws. *)
Theorem run_result_carries_items_and_thrown_value (m : Machine) (i : Input) :
  exists new, trace (step m i) = trace m ++ new /\
    Forall (fun c => run_items c.2 = getItems (task m) /\
                     run_error c.2 = match i with
                                     | StageSettles _ (Rejected error) =>
                                         Some error
                                     | _ => None
                                     end) (results new).
Proof.
  assert (Hnone : forall P, exists new : list Event, trace m = trace m ++ new /\
    Forall P (results new)).
  { intros P. exists []. rewrite app_nil_r. split; [done|]. constructor. }
  assert (Hlaunch : forall callback rest,
    exists new, trace (launch (runAsync callback rest (task m)) m)
                = trace m ++ new /\
      Forall (fun c => run_items c.2 = getItems (task m) /\
                       run_error c.2 = None) (results new)).
  { intros callback rest. unfold runAsync.
    destruct (_ && _).
    - exists [Ignored]. split; [done|]. constructor.
    - destruct (prologue_keeps callback rest (task m))
        as (_ & _ & Hit & _).
      destruct (accept _) as [t' p] eqn:Eacc. cbn [fst snd].
      rewrite launch_accepted.
      destruct (accept_cases _ _ _ Eacc)
        as [(f & args & -> & _)|(t'' & Hit' & _ & _ & -> & _)].
      + eexists [_; _]. rewrite book_Awaiting. cbn [trace].
        rewrite <- app_assoc. split; [done|]. constructor.
      + edestruct book_finally_results as (new & -> & _ & Hres).
        eexists (_ :: new). cbn [trace]. rewrite <- app_assoc.
        split; [done|]. change (results (?e :: new)) with (results new).
        rewrite Hres. constructor; [|constructor]. simpl.
        split; [|done]. unfold getItems. congruence. }
  destruct i as [xs|cb|cb| |cb rest|cb rest|cb rest|id settled|id thrown];
    try apply Hnone.
  - cbn [step]. rewrite run_runAsync. apply Hlaunch.
  - apply Hlaunch.
  - cbn [step]. destruct (awaiting m !! id) as [f|]; [|apply Hnone].
    destruct (resume f settled (task m)) as [t' p] eqn:Eres.
    destruct (resume_cases _ _ _ _ _ Eres)
      as [(f' & args & -> & _)|(t'' & e & d & Hk & -> & Hset)].
    + eexists [_]. rewrite book_Awaiting. split; [done|]. constructor.
    + edestruct book_finally_results as (new & -> & _ & Hres).
      exists new. split; [done|]. rewrite Hres.
      constructor; [|constructor]. simpl.
      destruct Hk as (_ & _ & Hit & _). split; [done|].
      by destruct settled as [value|error];
        [destruct Hset as [-> ->]|destruct Hset as (-> & -> & _)].
  - cbn [step]. destruct (finishing m !! id) as [d|]; [|apply Hnone].
    destruct thrown as [error|]; [|apply Hnone].
    eexists [_]. split; [done|]. constructor.
Qed.

(** ** The first stage call of a run, and the stage cursor *)

(** X29. A call of [run] or [runAsync] that is not dropped and finds an item
    under the backlog cursor and a first stage starts a run with the next
    run number, which feeds that item to the first stage: the run is
    suspended at that call, the item is the current one, and both cursors
    have moved past what is being processed. *)
Theorem accepted_run_feeds_the_item_under_the_cursor
    (m : Machine) (start : Input)
    (callback : option TasqCallback) (rest : list TasqCallback)
    (x : T) (c0 : TasqCallback) :
  running (task m) && is_blocking (task m) = false ->
  start = CallRun callback rest \/ start = CallRunAsync callback rest ->
  items (task m) !! index (task m) = Some x ->
  callbacks (prologue callback rest (task m)) !! 0 = Some c0 ->
  let n := S (nth (task m)) in
  trace (step m start) =
    trace m ++ [Accepted (accepted m) n;
                Invoked (accepted m) (mkFrame n 0 c0) (mkArgs n (Item x))] /\
  awaiting (step m start) !! accepted m = Some (mkFrame n 0 c0) /\
  isRunning (task (step m start)) = true /\
  getCurrent (task (step m start)) = Some x /\
  getIndex (task (step m start)) = S (index (task m)) /\
  getCallbackIndex (task (step m start)) = 1.
Proof.
  intros Hg Hstart Hx Hc n.
  assert (Hs : step m start = launch (runAsync callback rest (task m)) m).
  { destruct Hstart as [-> | ->]; cbn [step]; by rewrite ?run_runAsync. }
  rewrite Hs, runAsync_accepted by done.
  destruct (prologue_keeps callback rest (task m))
    as (Hn & _ & Hit & Hix & _ & _ & _ & _ & Hci).
  set (t1 := prologue callback rest (task m)) in *.
  set (t2 := set_running true (set_nth (S (nth t1)) t1)).
  assert (Hacc : accept t1
    = (set_current (Some x)
         (set_index (S (index t2)) (set_callbackIndex 1 t2)),
       Awaiting (mkFrame n 0 c0) (mkArgs n (Item x)))).
  { unfold accept. fold t2. rewrite loop_unfold.
    assert (Hb : is_break (initial t2) = false).
    { unfold is_break, initial. cbn [res_break default].
      change (items t2) with (items t1). change (index t2) with (index t1).
      rewrite Hit, Hix. apply lookup_lt_Some in Hx. apply Nat.leb_gt. lia. }
    rewrite Hb. cbn [negb andb].
    change (callbackIndex t2) with (callbackIndex t1).
    change (callbacks t2) with (callbacks t1). rewrite Hci, Hc.
    destruct (Nat.ltb_spec 0 (length (callbacks t1)))
      as [_|Hge]; [|apply lookup_lt_Some in Hc; lia].
    cbn zeta. unfold stage. rewrite (poll_next _ _ x); [|done|].
    - by rewrite Hn.
    - change (items t1 !! index t1 = Some x). by rewrite Hit, Hix. }
  rewrite Hacc. cbn [fst snd]. rewrite launch_accepted, book_Awaiting.
  cbn [trace awaiting task number_of f_nth]. rewrite <- app_assoc.
  rewrite lookup_insert_eq. repeat split; try done.
  change (S (index t1) = S (index (task m))). by rewrite Hix.
Qed.

Lemma drain_frame fuel n result t t' f args :
  drain fuel n result t = Some (t', Awaiting f args) ->
  callbacks t' !! f_callbackIndex f = Some (f_callback f) /\
  callbackIndex t' = S (f_callbackIndex f).
Proof.
  revert result t. induction fuel as [|fuel IH]; intros result t; simpl.
  - by destruct (_ && _).
  - destruct (_ && _); [|done].
    destruct (callbacks t !! callbackIndex t) as [callback|] eqn:Ec; [|done].
    unfold stage, poll.
    destruct (_ && _); [destruct (items _ !! _)|]; simpl;
      try (destruct (_ && _)); try (by intros [= <- <- <-]); apply IH.
Qed.

Lemma loop_frame n result t t' f args :
  loop n result t = (t', Awaiting f args) ->
  callbacks t' !! f_callbackIndex f = Some (f_callback f) /\
  callbackIndex t' = S (f_callbackIndex f).
Proof. intros H. eapply drain_frame. rewrite loop_drain. by rewrite H. Qed.

(** A resumed run is suspended again by the inner loop, which leaves the
    stage cursor where it finds it, or by the outer loop, which moves it
    one past the stage it calls. *)
Lemma resume_frame f value t t' f' args :
  resume f (Fulfilled value) t = (t', Awaiting f' args) ->
  (f' = f /\ f_callbackIndex f = 0 /\ callbackIndex t' = callbackIndex t /\
   callbacks t' = callbacks t /\ exists item, arg_data args = Item item) \/
  (callbacks t' !! f_callbackIndex f' = Some (f_callback f') /\
   callbackIndex t' = S (f_callbackIndex f')).
Proof.
  cbn [resume]. destruct (f_callbackIndex f =? 0) eqn:E0.
  - apply Nat.eqb_eq in E0. unfold stage, poll. rewrite E0.
    change (0 =? 0) with true. change (0 <? 0) with false. cbn [andb].
    destruct (index t <? length (items t));
      [destruct (items t !! index t) as [item|]|].
    + intros [= <- <- <-]. left. repeat split; try done. by exists item.
    + intros H. right. by apply loop_frame in H.
    + intros H. right. by apply loop_frame in H.
  - intros H. right. by apply loop_frame in H.
Qed.

(** In blocking mode the stage cursor is one past the stage the suspended
    run is at, or [0] after a call of [run] that was dropped. *)
Lemma stage_cursor_step m i :
  single_run m ->
  (forall id f, awaiting m !! id = Some f ->
     callbackIndex (task m) = S (f_callbackIndex f) \/
     callbackIndex (task m) = 0) ->
  forall id f, awaiting (step m i) !! id = Some f ->
    callbackIndex (task (step m i)) = S (f_callbackIndex f) \/
    callbackIndex (task (step m i)) = 0.
Proof.
  intros [Hb Hcase] IH.
  assert (Hone : forall id id' f f',
    awaiting m !! id = Some f -> awaiting m !! id' = Some f' -> id = id').
  { intros id id' f f' H1 H2. destruct (running (task m)).
    - destruct Hcase as (id1 & f1 & Hm & _). rewrite Hm in H1, H2.
      apply lookup_singleton_Some in H1 as [<- _].
      by apply lookup_singleton_Some in H2 as [<- _].
    - destruct Hcase as (Hm & _). rewrite Hm in H1.
      by rewrite lookup_empty in H1. }
  assert (Hlaunch : forall callback rest id f,
    awaiting (launch (runAsync callback rest (task m)) m) !! id = Some f ->
    callbackIndex (task (launch (runAsync callback rest (task m)) m))
      = S (f_callbackIndex f) \/
    callbackIndex (task (launch (runAsync callback rest (task m)) m)) = 0).
  { intros callback rest id f. unfold runAsync.
    destruct (prologue_keeps callback rest (task m))
      as (_&Hr&_&_&_&_&_&Ho&Hci).
    unfold is_blocking in *. rewrite Hr, Ho, Hb, andb_true_r.
    destruct (running (task m)) eqn:Erun.
    - intros _. right. exact Hci.
    - destruct Hcase as (Hm & _).
      destruct (accept _) as [t' [f' args|r c]] eqn:Eacc; cbn [fst snd];
        rewrite launch_accepted.
      + rewrite book_Awaiting. cbn [awaiting task]. rewrite Hm.
        intros [[_ <-]|[_ H]]%lookup_insert_Some;
          [|by rewrite lookup_empty in H].
        left. unfold accept in Eacc. by apply loop_frame in Eacc as [_ ->].
      + destruct (book_Returned (accepted m) t' r c
          (mkMachine (task m) (awaiting m) (finishing m) (S (accepted m))
             (trace m ++ [Accepted (accepted m) (number_of (Returned r c))])))
          as (_ & -> & _).
        cbn [awaiting]. rewrite Hm, delete_empty. by rewrite lookup_empty. }
  destruct i as [xs|cb|cb| |cb rest|cb rest|cb rest|id' settled|id' thrown];
    intros id f; try (by apply IH).
  - cbn [step set_task awaiting task]. intros H.
    replace (callbackIndex (clear (task m))) with (callbackIndex (task m));
      [by eapply IH|].
    unfold clear, _clear. simpl. by destruct (running (task m)).
  - cbn [step]. rewrite run_runAsync. apply Hlaunch.
  - apply Hlaunch.
  - cbn [step]. destruct (awaiting m !! id') as [f'|] eqn:Hid'; [|by apply IH].
    destruct (resume f' settled (task m)) as [t' [f'' args|r c]] eqn:Eres.
    + rewrite book_Awaiting. cbn [awaiting task].
      destruct settled as [value|error]; [|done].
      intros [[<- <-]|[Hne H]]%lookup_insert_Some.
      * apply resume_frame in Eres
          as [(-> & _ & -> & _)|[_ ->]]; [by eapply IH|by left].
      * destruct Hne. by eapply Hone.
    + destruct (book_Returned id' t' r c m) as (_ & -> & _).
      intros [Hne H]%lookup_delete_Some. destruct Hne. by eapply Hone.
  - cbn [step]. destruct (finishing m !! id') as [d|]; [|by apply IH].
    destruct thrown; simpl; by apply IH.
Qed.

Lemma stage_cursor_exec inputs : forall m,
  single_run m ->
  (forall id f, awaiting m !! id = Some f ->
     callbackIndex (task m) = S (f_callbackIndex f) \/
     callbackIndex (task m) = 0) ->
  forall id f, awaiting (exec m inputs) !! id = Some f ->
    callbackIndex (task (exec m inputs)) = S (f_callbackIndex f) \/
    callbackIndex (task (exec m inputs)) = 0.
Proof.
  induction inputs as [|i inputs IH]; intros m Hs Hm; [done|].
  rewrite exec_cons. apply IH; [by apply single_run_step|].
  by apply stage_cursor_step.
Qed.

(** X30. Whenever the stage call a run is suspended at throws, the
    [callbackIndex] the error handler receives is the stage cursor of the
    engine at that point.  When [runAsync] or the outer loop of a resumed
    run suspends the run, the cursor is one past the index of the stage
    that is called, under which the stage list holds the callback; when
    the inner loop of a resumed run suspends it again on the next item,
    the cursor stays where it is, and a call of [run] that is dropped puts
    it back to [0].  So on a blocking engine, whatever the inputs, the
    cursor under a suspended run is one past the index of its stage, or
    [0]. *)
Theorem stage_cursor_under_a_suspended_run
    (t : Tasq) (f : Frame) (error : Err) (h : TasqErrorCallback) :
  onError t = Some h ->
  (exists r,
    (resume f (Rejected error) t).2
    = Returned (mkRunResult (f_nth f) (items t) (Some error))
               (Some (OnError h r)) /\
    err_callbackIndex r = getCallbackIndex t) /\
  (forall (callback : option TasqCallback) (rest : list TasqCallback)
          (t0 t1 : Tasq) (f1 : Frame) (args : TasqCallbackArgs),
     runAsync callback rest t0 = (t1, Some (Awaiting f1 args)) ->
     callbacks t1 !! f_callbackIndex f1 = Some (f_callback f1) /\
     getCallbackIndex t1 = S (f_callbackIndex f1)) /\
  (forall (f0 : Frame) (value : option TasqCallbackResult)
          (t0 t1 : Tasq) (f1 : Frame) (args : TasqCallbackArgs),
     resume f0 (Fulfilled value) t0 = (t1, Awaiting f1 args) ->
     (f1 = f0 /\ f_callbackIndex f0 = 0 /\
      getCallbackIndex t1 = getCallbackIndex t0 /\
      callbacks t1 = callbacks t0 /\ exists item, arg_data args = Item item) \/
     (callbacks t1 !! f_callbackIndex f1 = Some (f_callback f1) /\
      getCallbackIndex t1 = S (f_callbackIndex f1))) /\
  (forall (callback : option TasqCallback) (rest : list TasqCallback)
          (t0 : Tasq),
     (runAsync callback rest t0).2 = None ->
     getCallbackIndex (runAsync callback rest t0).1 = 0) /\
  (forall (opts : TasqOptions) (inputs : list Input) (id : RunId) (f1 : Frame),
     default true (blocking opts) = true ->
     awaiting (exec (boot opts) inputs) !! id = Some f1 ->
     getCallbackIndex (task (exec (boot opts) inputs)) = S (f_callbackIndex f1) \/
     getCallbackIndex (task (exec (boot opts) inputs)) = 0).
Proof.
  intros He. split; [|split; [|split; [|split]]].
  - cbn [resume]. rewrite finally_spec. unfold returned, finish.
    cbn [fst snd]. rewrite He. eexists. by split.
  - intros callback rest t0 t1 f1 args. unfold runAsync.
    destruct (_ && _); [done|].
    destruct (accept _) as [t2 p2] eqn:Eacc. cbn [fst snd].
    intros [= -> ->]. unfold accept in Eacc. by apply loop_frame in Eacc.
  - intros f0 value t0 t1 f1 args. apply resume_frame.
  - intros callback rest t0. unfold runAsync.
    destruct (_ && _); [|done]. intros _. cbn [fst].
    by destruct (prologue_keeps callback rest t0) as (_&_&_&_&_&_&_&_&?).
  - intros opts inputs id f1 Hb.
    apply (stage_cursor_exec inputs (boot opts)); [by apply single_run_boot|].
    intros id' f'. unfold boot. cbn [awaiting]. by rewrite lookup_empty.
Qed.

End Engine.

(** * The claims on concrete runs

    Items, forwarded data and thrown values are numbers; callbacks are
    named [0], [1], ...; the engine is created with default options
    (blocking) unless said otherwise. *)

(** The example of the README: [add(1, 2)], [run(s0, s1, s2, s3)] and a
    done handler; [s0] forwards its item, [s1] waits, [s2] returns
    [{ break: true }]; [add(4, 5).run()] and [add(6).run()] arrive while
    [s1] waits.  The stage calls and the done call are those of the output
    the README lists. *)
Example readme_output :
  let m := exec (boot (Err := nat) (mkOptions None))
    [CallAdd [1; 2]; CallRun (Some 0) [1; 2; 3]; CallDone 9;
     StageSettles 0 (Fulfilled (Some (mkCallbackResult (Some 1) None)));
     StageSettles 0 (Fulfilled (Some (mkCallbackResult (Some 2) None)));
     CallAdd [4; 5]; CallRun None [];
     StageSettles 0 (Fulfilled None);
     StageSettles 0 (Fulfilled (Some (mkCallbackResult (Some 4) None)));
     StageSettles 0 (Fulfilled (Some (mkCallbackResult (Some 5) None)));
     CallAdd [6]; CallRun None [];
     StageSettles 0 (Fulfilled None);
     StageSettles 0 (Fulfilled (Some (mkCallbackResult (Some 6) None)));
     StageSettles 0 (Fulfilled None);
     StageSettles 0 (Fulfilled (Some (mkCallbackResult None (Some true))))] in
  invoked (trace m)
  = [(0, 0, mkArgs 1 (Item 1)); (0, 0, mkArgs 1 (Item 2));
     (0, 1, mkArgs 1 (Forwarded (Some 2)));
     (0, 0, mkArgs 1 (Item 4)); (0, 0, mkArgs 1 (Item 5));
     (0, 1, mkArgs 1 (Forwarded (Some 5)));
     (0, 0, mkArgs 1 (Item 6));
     (0, 1, mkArgs 1 (Forwarded (Some 6)));
     (0, 2, mkArgs 1 (Forwarded None))] /\
  handled (trace m) = [(0, OnDone 9 (mkDoneResult 1 [1; 2; 4; 5; 6]))] /\
  getItems (task m) = [] /\ isRunning (task m) = false.
Proof. vm_compute. by repeat split. Qed.

(** C1. Two items, an error handler [5], stages [0] and [1]; the first
    stage throws [42] on the first item.  The error handler is called once
    and the done handler is not, but the result the error handler receives
    has no [error]: the thrown value only reaches the result of the
    promise. *)
Example thrown_value_is_not_passed_to_error_handler :
  trace (exec (boot (mkOptions None))
           [CallAdd [1; 2]; CallCatch 5; CallDone 6; CallRun (Some 0) [1];
            StageSettles 0 (Rejected (D := nat) 42)])
  = [Accepted 0 1;
     Invoked 0 (mkFrame 1 0 0) (mkArgs 1 (Item 1));
     Handled 0 (OnError 5 (mkErrorResult 1 [1; 2] None 0 1));
     Resolved 0 (mkRunResult 1 [1; 2] (Some 42))].
Proof. reflexivity. Qed.

(** C2. Two items, stages [0] and [1]; the first stage returns
    [{ break: true }] on the first item and nothing on the second.  The
    second item is still fed to the first stage, and the second stage is
    still invoked. *)
Example break_in_first_stage_does_not_stop_the_run :
  invoked (trace (exec (boot (Err := nat) (mkOptions None))
           [CallAdd [1; 2]; CallRun (Some 0) [1];
            StageSettles 0
              (Fulfilled (Some (mkCallbackResult (D := nat) None (Some true))));
            StageSettles 0 (Fulfilled None)]))
  = [(0, 0, mkArgs 1 (Item 1));
     (0, 0, mkArgs 1 (Item 2));
     (0, 1, mkArgs 1 (Forwarded None))].
Proof. reflexivity. Qed.

(** C3, as stated, fails: two runs one after the other on the same engine
    both get the number [1], so the later run's number is not greater than
    the earlier one's. *)
Lemma run_numbers_repeat :
  numbers (trace (exec (boot (mkOptions None))
             [CallAdd (D := nat) (Err := nat) [7]; CallRun (Some 0) [];
              StageSettles 0 (Fulfilled None);
              CallAdd [8]; CallRun None []]))
  = [1; 1] /\
  ~ (forall (inputs : list (@Input nat nat nat)) (i j ni nj : nat),
       i < j ->
       numbers (trace (exec (boot (mkOptions None)) inputs)) !! i = Some ni ->
       numbers (trace (exec (boot (mkOptions None)) inputs)) !! j = Some nj ->
       ni < nj).
Proof.
  pose (inputs := [CallAdd (D := nat) (Err := nat) [7]; CallRun (Some 0) [];
                   StageSettles 0 (Fulfilled None);
                   CallAdd [8]; CallRun None []]).
  assert (Hn : numbers (trace (exec (boot (mkOptions None)) inputs)) = [1; 1])
    by (vm_compute; reflexivity).
  split; [exact Hn|]. intros H.
  specialize (H inputs 0 1 1 1). rewrite Hn in H. clear Hn inputs.
  assert (1 < 1) by (apply H; [lia|reflexivity|reflexivity]). lia.
Qed.

(** C3 as the code has it, on two overlapping runs of a non-blocking
    engine: they get the numbers [1] and [2]. *)
Lemma run_numbers_count_up_while_runs_are_suspended_witness :
  let opts := mkOptions (Some false) in
  let pre := [CallAdd (D := nat) (Err := nat) [1; 2]; CallDo (Some 0) []] in
  let inputs := [CallRun (T := nat) (D := nat) (Err := nat) None [];
                 CallRun None []] in
  let new := [Accepted 0 1; Invoked 0 (mkFrame 1 0 0) (mkArgs 1 (Item 1));
              Accepted 1 2; Invoked 1 (mkFrame 2 0 0) (mkArgs 2 (Item 2))] in
  let m := exec (boot opts) pre in
  (trace (exec m inputs) = trace m ++ new /\
   size (awaiting (exec m inputs)) = size (awaiting m) + length (numbers new)) /\
  numbers new = seq (S (nth (task m))) (length (numbers new)) /\
  nth (task (exec m inputs)) = nth (task m) + length (numbers new) /\
  nth (fst (finally (Err := nat) 1 None false (task m))) = 0 /\
  (forall (m0 : Machine (T := nat) (D := nat) (Err := nat)) (i : Input)
          (id : nat),
     is_Some (awaiting m0 !! id) -> awaiting (step m0 i) !! id = None ->
     nth (task (step m0 i)) = 0 /\
     numbers (trace (step (step m0 i) (CallRun None [])))
     = numbers (trace (step m0 i)) ++ [1]).
Proof.
  intros opts pre inputs new m.
  assert (H1 : trace (exec m inputs) = trace m ++ new)
    by (vm_compute; reflexivity).
  assert (H2 : size (awaiting (exec m inputs))
               = size (awaiting m) + length (numbers new))
    by (vm_compute; reflexivity).
  split; [by split|].
  apply (run_numbers_count_up_while_runs_are_suspended opts pre inputs new 1
           None false (task m) H1 H2).
Defined.

(** C4, as stated, fails: the first stage throws on the first of two
    items; the backlog cursor is [1] and the stage that was running is
    stage [0], but the error handler receives position [0] and stage
    index [1]. *)
Lemma error_result_positions_are_shifted :
  (awaiting (exec (boot (mkOptions None))
                  [CallAdd (D := nat) (Err := nat) [1; 2]; CallCatch 5;
                   CallRun (Some 0) [1]]) !! 0
   = Some (mkFrame 1 0 0) /\
   getIndex (task (exec (boot (mkOptions None))
                        [CallAdd (D := nat) (Err := nat) [1; 2]; CallCatch 5;
                         CallRun (Some 0) [1]]))
   = 1 /\
   handled (trace (step (exec (boot (mkOptions None))
                              [CallAdd [1; 2]; CallCatch 5;
                               CallRun (Some 0) [1]])
                        (StageSettles 0 (Rejected (D := nat) 42))))
   = [(0, OnError 5 (mkErrorResult 1 [1; 2] None 0 1))]) /\
  ~ (forall (m : @Machine nat nat nat) (id : nat) (f : Frame) (error : nat)
            (h : TasqErrorCallback) (r : TasqErrorResult),
       awaiting m !! id = Some f ->
       (id, OnError h r)
         ∈ handled (trace (step m (StageSettles id (Rejected error)))) ->
       err_index r = Z.of_nat (getIndex (task m)) /\
       err_callbackIndex r = f_callbackIndex f /\
       err_nth r = f_nth f /\
       err_items r = getItems (task m)).
Proof.
  pose (m := exec (boot (mkOptions None))
                  [CallAdd (D := nat) (Err := nat) [1; 2]; CallCatch 5;
                   CallRun (Some 0) [1]]).
  assert (Ha : awaiting m !! 0 = Some (mkFrame 1 0 0))
    by (vm_compute; reflexivity).
  assert (Hc : getIndex (task m) = 1) by (vm_compute; reflexivity).
  assert (Hh : handled (trace (step m (StageSettles 0 (Rejected (D := nat) 42))))
               = [(0, OnError 5 (mkErrorResult 1 [1; 2] None 0 1))])
    by (vm_compute; reflexivity).
  split; [by repeat split|]. intros H.
  destruct (H m 0 (mkFrame 1 0 0) 42 5 (mkErrorResult 1 [1; 2] None 0 1))
    as (Hix & Hci & _).
  - exact Ha.
  - rewrite Hh. by apply list_elem_of_singleton.
  - clear H Hci. rewrite Hc in Hix. simpl in Hix. discriminate Hix.
Qed.

(** C4 as the code has it, on the same run. *)
Lemma error_handler_receives_failure_context_witness :
  let m := exec (boot (mkOptions None))
                [CallAdd [1; 2]; CallCatch 5; CallRun (Some 0) [1]] in
  (awaiting m !! 0 = Some (mkFrame 1 0 0) /\ onError (task m) = Some 5) /\
  exists r : TasqErrorResult,
    handled (trace (step m (StageSettles 0 (Rejected (D := nat) 42))))
      = handled (trace m) ++ [(0, OnError 5 r)] /\
    err_nth r = 1 /\
    err_items r = getItems (task m) /\
    err_index r = (Z.of_nat (getIndex (task m)) - 1)%Z.
Proof.
  intros m. split; [split; vm_compute; reflexivity|].
  apply (error_handler_receives_failure_context m 0 (mkFrame 1 0 0) 42 5);
    vm_compute; reflexivity.
Defined.

(** C5 on the live-feed scenario: [add(1, 2)], [run(s0, s1)], and [add(3)]
    while the first stage is busy with item [2]. *)
Lemma done_receives_every_fed_item_in_order_witness :
  let t := add [1; 2] (done 9 (constructor (mkOptions None))) in
  let start := CallRun (T := nat) (D := nat) (Err := nat) (Some 0) [1] in
  let sched := [StageSettles 0 (Fulfilled None); CallAdd [3];
                StageSettles 0 (Fulfilled None);
                StageSettles 0 (Fulfilled None);
                StageSettles 0 (Fulfilled None)] in
  (running t = false /\ onDone t = Some 9 /\
   forallb (feeding 0) sched = true /\
   awaiting (exec (idle t) (start :: sched)) !! 0 = None) /\
  exists pre post,
    sched = pre ++ post /\
    handled (trace (exec (idle t) (start :: sched)))
      = [(0, OnDone 9 (mkDoneResult (S (nth t)) (items t ++ adds pre)))] /\
    items (task (exec (idle t) (start :: pre))) = [] /\
    items (task (exec (idle t) (start :: sched))) = adds post.
Proof.
  intros t start sched.
  split; [repeat split; vm_compute; reflexivity|].
  apply (done_receives_every_fed_item_in_order t 9 start (Some 0) [1] sched);
    [vm_compute; reflexivity|vm_compute; reflexivity|by left
    |vm_compute; reflexivity|vm_compute; reflexivity].
Defined.

(** C6 when [run()] is called again while the first stage is busy. *)
Lemma blocked_run_is_dropped_witness :
  let m := exec (boot (mkOptions None))
                [CallAdd [1; 2]; CallRun (Some 0) [1]] in
  let start := CallRun (T := nat) (D := nat) (Err := nat) None [] in
  (running (task m) = true /\ is_blocking (task m) = true) /\
  is_blocking (constructor (T := nat) (mkOptions None)) = true /\
  snd (runAsync (D := nat) (Err := nat) None [] (task m)) = None /\
  snd (run (D := nat) (Err := nat) None [] (task m)) = None /\
  trace (step m start) = trace m ++ [Ignored] /\
  handled (trace (step m start)) = handled (trace m) /\
  invoked (trace (step m start)) = invoked (trace m) /\
  awaiting (step m start) = awaiting m /\
  finishing (step m start) = finishing m /\
  accepted (step m start) = accepted m /\
  task (step m start) = prologue None [] (task m) /\
  items (task (step m start)) = items (task m) /\
  index (task (step m start)) = index (task m) /\
  current (task (step m start)) = current (task m) /\
  nth (task (step m start)) = nth (task m) /\
  running (task (step m start)) = true.
Proof.
  intros m start. split; [split; vm_compute; reflexivity|].
  apply (blocked_run_is_dropped m start None []);
    [vm_compute; reflexivity|vm_compute; reflexivity|by left].
Defined.

(** C8 on a fresh engine with a done handler. *)
Lemma empty_run_calls_done_once_witness :
  let m := exec (boot (mkOptions None))
                [CallDone (T := nat) (D := nat) (Err := nat) 9] in
  (running (task m) = false /\ items (task m) = [] /\
   callbacks (task m) = [] /\ onDone (task m) = Some 9) /\
  trace (step m (CallRun None [])) =
    trace m ++ [Accepted (accepted m) (S (nth (task m)));
                Handled (accepted m)
                        (OnDone 9 (mkDoneResult (S (nth (task m))) []));
                Resolved (accepted m)
                         (mkRunResult (S (nth (task m))) [] None)] /\
  invoked (trace (step m (CallRun None []))) = invoked (trace m) /\
  awaiting (step m (CallRun None [])) !! accepted m = None /\
  items (task (step m (CallRun None []))) = [] /\
  (forall t : Tasq (T := nat),
     is_break (D := nat) (initial t) = true <-> length (items t) <= index t) /\
  (forall t : Tasq (T := nat), length (items t) <= index t ->
     accept (D := nat) (Err := nat) t
     = returned (finally (S (nth t)) None false
                         (set_running true (set_nth (S (nth t)) t)))).
Proof.
  intros m. split; [repeat split; vm_compute; reflexivity|].
  apply (empty_run_calls_done_once m 9 (CallRun None []));
    [vm_compute; reflexivity|vm_compute; reflexivity|vm_compute; reflexivity
    |vm_compute; reflexivity|by left].
Defined.

(** C9 when the done handler of an empty run throws [7]. *)
Lemma handler_exception_is_caught_and_logged_witness :
  let m := exec (boot (mkOptions None))
                [CallDone (T := nat) (D := nat) (Err := nat) 9;
                 CallRun None []] in
  finishing m !! 0 = Some false /\
  (exists call r,
      Handled 0 call ∈ trace m /\ Resolved 0 r ∈ trace m /\
      didError_of call = false) /\
  finish_settle false (Some 7) = Reported "done"%string 7 /\
  trace (step m (HandlerSettles 0 (Some 7)))
    = trace m ++ [Logged 0 "done"%string 7] /\
  task (step m (HandlerSettles 0 (Some 7))) = task m /\
  awaiting (step m (HandlerSettles 0 (Some 7))) = awaiting m /\
  finishing (step m (HandlerSettles 0 (Some 7))) = delete 0 (finishing m).
Proof.
  intros m. split; [vm_compute; reflexivity|].
  apply (handler_exception_is_caught_and_logged (mkOptions None)
           [CallDone 9; CallRun None []] 0 false 7).
  vm_compute; reflexivity.
Defined.



(** * The further properties on concrete runs *)

(** X2 on an instance. One run at a time, on a blocking engine that is asked
    to run twice. *)
Lemma blocking_engine_runs_one_at_a_time_witness :
  let opts := mkOptions None in
  let inputs := [CallAdd (D := nat) (Err := nat) [1; 2]; CallRun (Some 0) [1];
                 CallRun None []] in
  default true (blocking opts) = true /\
  single_run (exec (boot opts) inputs).
Proof.
  intros opts inputs. split; [reflexivity|].
  apply (blocking_engine_runs_one_at_a_time opts inputs). reflexivity.
Defined.

(** X3 on an instance. Feeding order, when items are appended and [run()] is
    called again while the first stage is busy. *)
Lemma items_are_fed_once_in_order_witness :
  let opts := mkOptions None in
  let inputs := [CallAdd (D := nat) (Err := nat) [1; 2]; CallRun (Some 0) [1];
                 CallAdd [3]; CallRun None [];
                 StageSettles 0 (Fulfilled None)] in
  (default true (blocking opts) = true /\ CallClear ∉ inputs) /\
  fed_in_order (exec (boot opts) inputs).
Proof.
  intros opts inputs.
  assert (Hnc : CallClear ∉ inputs).
  { unfold inputs. rewrite !not_elem_of_cons. repeat split; try discriminate.
    apply not_elem_of_nil. }
  split; [split; [reflexivity|exact Hnc]|].
  apply (items_are_fed_once_in_order opts inputs); [reflexivity|exact Hnc].
Defined.


(** X7 on an instance. [do(null, s3, s4)] and [run()] on a backlog of two
    items with a done handler. *)
Lemma run_without_stages_hands_backlog_to_done_witness :
  let m := exec (boot (mkOptions None))
                [CallAdd (D := nat) (Err := nat) [1; 2]; CallDone 9] in
  running (task m) && is_blocking (task m) = false /\
  let m' := exec m [CallDo None [3; 4]; CallRun None []] in
  let n := S (nth (task m)) in
  trace m' =
    trace m ++ Accepted (accepted m) n ::
      match onDone (task m) with
      | Some h =>
          [Handled (accepted m) (OnDone h (mkDoneResult n (items (task m))))]
      | None => []
      end ++ [Resolved (accepted m) (mkRunResult n (items (task m)) None)] /\
  getItems (task m') = [] /\
  isRunning (task m') = false /\
  awaiting m' !! accepted m = None.
Proof.
  intros m. split; [vm_compute; reflexivity|].
  apply (run_without_stages_hands_backlog_to_done m [3; 4]).
  vm_compute; reflexivity.
Defined.

(** X9 on an instance. A second [run()] on a non-blocking engine whose first
    run is suspended. *)
Lemma nonblocking_engine_accepts_every_run_witness :
  let m := exec (boot (mkOptions (Some false)))
                [CallAdd (D := nat) (Err := nat) [1; 2]; CallRun (Some 0) []] in
  let start := CallRun (T := nat) (D := nat) (Err := nat) None [] in
  is_blocking (task m) = false /\
  exists new,
    trace (step m start)
      = trace m ++ Accepted (accepted m) (S (nth (task m))) :: new /\
    accepted (step m start) = S (accepted m) /\
    forall id, id <> accepted m ->
      awaiting (step m start) !! id = awaiting m !! id.
Proof.
  intros m start. split; [vm_compute; reflexivity|].
  apply (nonblocking_engine_accepts_every_run m start None []);
    [vm_compute; reflexivity|by left].
Defined.

(** X10 on an instance. Two overlapping runs of a non-blocking engine; the
    stage call of the first one throws. *)
Lemma finalization_leaves_other_runs_suspended_witness :
  let m := exec (boot (mkOptions (Some false)))
                [CallAdd (D := nat) (Err := nat) [1; 2]; CallRun (Some 0) [];
                 CallRun None []] in
  (awaiting m !! 0 = Some (mkFrame 1 0 0) /\
   awaiting m !! 1 = Some (mkFrame 2 0 0) /\ 0 <> 1) /\
  let m' := step m (StageSettles 0 (Rejected 42)) in
  awaiting m' !! 1 = Some (mkFrame 2 0 0) /\
  awaiting m' !! 0 = None /\
  isRunning (task m') = false /\
  getItems (task m') = [] /\
  getIndex (task m') = 0 /\
  nth (task m') = 0.
Proof.
  intros m.
  split; [split; [vm_compute; reflexivity|split; [vm_compute; reflexivity|lia]]|].
  apply (finalization_leaves_other_runs_suspended m 0 1 (mkFrame 1 0 0)
           (mkFrame 2 0 0) 42); [vm_compute; reflexivity|vm_compute; reflexivity|lia].
Defined.

(** X11 on an instance. Items [2] and [3] are appended while the first stage
    is busy with the only item of the backlog. *)
Lemma appended_item_is_fed_to_running_first_stage_witness :
  let m := exec (boot (mkOptions None))
                [CallAdd (D := nat) (Err := nat) [1]; CallRun (Some 0) [1]] in
  (awaiting m !! 0 = Some (mkFrame 1 0 0) /\
   f_callbackIndex (mkFrame 1 0 0) = 0 /\
   index (task m) = length (items (task m))) /\
  let m' := exec m [CallAdd [2; 3]; StageSettles 0 (Fulfilled None)] in
  trace m' = trace m ++ [Invoked 0 (mkFrame 1 0 0) (mkArgs 1 (Item 2))] /\
  awaiting m' !! 0 = Some (mkFrame 1 0 0) /\
  getCurrent (task m') = Some 2 /\
  getIndex (task m') = S (index (task m)) /\
  getItems (task m') = items (task m) ++ [2; 3].
Proof.
  intros m. split; [repeat split; vm_compute; reflexivity|].
  apply (appended_item_is_fed_to_running_first_stage m 0 (mkFrame 1 0 0) 2 [3]
           None); vm_compute; reflexivity.
Defined.

(** X12 on an instance. The stage list is replaced by [s7, s8] while the
    first stage is busy with item [1]; item [2] still goes to the callback
    [s0]. *)
Lemma first_stage_keeps_its_callback_witness :
  let m := exec (boot (mkOptions None))
                [CallAdd (D := nat) (Err := nat) [1; 2]; CallRun (Some 0) [1]] in
  (awaiting m !! 0 = Some (mkFrame 1 0 0) /\
   f_callbackIndex (mkFrame 1 0 0) = 0 /\
   items (task m) !! index (task m) = Some 2) /\
  let m' := exec m [CallDo (Some 7) [8]; StageSettles 0 (Fulfilled None)] in
  trace m' = trace m ++ [Invoked 0 (mkFrame 1 0 0) (mkArgs 1 (Item 2))] /\
  awaiting m' !! 0 = Some (mkFrame 1 0 0).
Proof.
  intros m. split; [repeat split; vm_compute; reflexivity|].
  apply (first_stage_keeps_its_callback m 0 (mkFrame 1 0 0) (Some 7) [8] None 2);
    vm_compute; reflexivity.
Defined.


(** X14 on an instance. The second stage is busy, item [2] has been
    appended, and [run()] is called again: when the second stage returns,
    item [2] is fed to the first stage. *)
Lemma dropped_run_restarts_the_pipeline_witness :
  let m := exec (boot (mkOptions None))
                [CallAdd (D := nat) (Err := nat) [1]; CallRun (Some 0) [1];
                 StageSettles 0 (Fulfilled None); CallAdd [2]] in
  let f := mkFrame 1 1 1 in
  let value := @None (TasqCallbackResult (D := nat)) in
  (awaiting m !! 0 = Some f /\ 0 < f_callbackIndex f /\
   running (task m) = true /\ is_blocking (task m) = true /\
   items (task m) !! index (task m) = Some 2 /\
   callbacks (task m) !! 0 = Some 0 /\
   is_break (default empty_result value) = false) /\
  let m' := exec m [CallRun None []; StageSettles 0 (Fulfilled value)] in
  trace m' =
    trace m ++ [Ignored;
                Invoked 0 (mkFrame (f_nth f) 0 0) (mkArgs (f_nth f) (Item 2))] /\
  getIndex (task m') = S (index (task m)) /\
  getCurrent (task m') = Some 2.
Proof.
  intros m f value.
  assert (H1 : 0 < f_callbackIndex f) by (vm_compute; lia).
  split; [repeat split; try done; vm_compute; reflexivity|].
  apply (dropped_run_restarts_the_pipeline m 0 f value 2 0);
    try exact H1; vm_compute; reflexivity.
Defined.

(** X15 on an instance. The second stage returns [{ break: true }] while a
    third stage is registered. *)
Lemma run_ends_on_break_or_after_the_last_stage_witness :
  let m := exec (boot (mkOptions None))
                [CallAdd (D := nat) (Err := nat) [1]; CallDone 9;
                 CallRun (Some 0) [1; 2]; StageSettles 0 (Fulfilled None)] in
  let f := mkFrame 1 1 1 in
  let value := Some (mkCallbackResult (D := nat) None (Some true)) in
  (awaiting m !! 0 = Some f /\
   (0 < f_callbackIndex f \/ length (items (task m)) <= index (task m)) /\
   (is_break (default empty_result value) = true \/
    length (callbacks (task m)) <= callbackIndex (task m))) /\
  let m' := step m (StageSettles 0 (Fulfilled value)) in
  exists new,
    trace m' = trace m ++ new /\
    invoked new = [] /\
    handled new =
      match onDone (task m) with
      | Some h => [(0, OnDone h (mkDoneResult (f_nth f) (items (task m))))]
      | None => []
      end /\
    results new = [(0, mkRunResult (f_nth f) (items (task m)) None)] /\
    awaiting m' !! 0 = None /\
    getItems (task m') = [] /\
    isRunning (task m') = false.
Proof.
  intros m f value.
  assert (H0 : awaiting m !! 0 = Some f) by (vm_compute; reflexivity).
  assert (H1 : 0 < f_callbackIndex f \/ length (items (task m)) <= index (task m))
    by (left; vm_compute; lia).
  assert (H2 : is_break (default empty_result value) = true \/
               length (callbacks (task m)) <= callbackIndex (task m))
    by (left; reflexivity).
  split; [by repeat split|].
  apply (run_ends_on_break_or_after_the_last_stage m 0 f value H0 H1 H2).
Defined.

(** X16 on an instance. Item [2] is appended while the second stage is busy:
    it is not fed to the first stage. *)
Lemma items_added_in_later_stage_are_not_fed_witness :
  let m := exec (boot (mkOptions None))
                [CallAdd (D := nat) (Err := nat) [1]; CallRun (Some 0) [1];
                 StageSettles 0 (Fulfilled None)] in
  let f := mkFrame 1 1 1 in
  let sched := [CallAdd (D := nat) (Err := nat) [2];
                StageSettles 0 (Fulfilled None)] in
  (awaiting m !! 0 = Some f /\ 0 < f_callbackIndex f /\
   0 < getCallbackIndex (task m) /\ forallb (driving 0) sched = true) /\
  forall id', fed id' (trace (exec m sched)) = fed id' (trace m).
Proof.
  intros m f sched.
  assert (H1 : 0 < f_callbackIndex f) by (vm_compute; lia).
  assert (H2 : 0 < getCallbackIndex (task m)) by (vm_compute; lia).
  split; [repeat split; try done; vm_compute; reflexivity|].
  apply (items_added_in_later_stage_are_not_fed sched m 0 f);
    [vm_compute; reflexivity|exact H1|exact H2|vm_compute; reflexivity].
Defined.

(** X17 on an instance. The current item, while the first stage is busy with
    the second of two items. *)
Lemma current_is_the_item_fed_last_witness :
  let opts := mkOptions None in
  let inputs := [CallAdd (D := nat) (Err := nat) [1; 2]; CallRun (Some 0) [1];
                 StageSettles 0 (Fulfilled None)] in
  default true (blocking opts) = true /\
  if isRunning (task (exec (boot opts) inputs))
  then exists id f,
         awaiting (exec (boot opts) inputs) = {[ id := f ]} /\
         getCurrent (task (exec (boot opts) inputs))
         = last (fed id (trace (exec (boot opts) inputs)))
  else getCurrent (task (exec (boot opts) inputs)) = None.
Proof.
  intros opts inputs. split; [reflexivity|].
  apply (current_is_the_item_fed_last opts inputs). reflexivity.
Defined.

(** X19 on an instance. The first [run(s0, s1)] on two items, on both
    classes. *)
Lemma classes_agree_on_run_witness :
  let t := add [1; 2] (constructor (mkOptions None)) in
  (running t = false \/ is_blocking t = true) /\
  forget (runAsync (D := nat) (Err := nat) (Some 0) [1] t).1
  = (runAsync_v2 (D := nat) (Err := nat) (Some 0) [1] (forget t)).1 /\
  match (runAsync (D := nat) (Err := nat) (Some 0) [1] t).2,
        (runAsync_v2 (D := nat) (Err := nat) (Some 0) [1] (forget t)).2 with
  | Some p, Some p' => same_progress p p'
  | None, None => True
  | _, _ => False
  end /\
  run (D := nat) (Err := nat) (Some 0) [1] t = runAsync (Some 0) [1] t /\
  run_v2 (D := nat) (Err := nat) (Some 0) [1] (forget t)
  = runAsync_v2 (Some 0) [1] (forget t).
Proof.
  intros t.
  assert (H : running t = false \/ is_blocking t = true) by (left; reflexivity).
  split; [exact H|].
  apply (classes_agree_on_run (Some 0) [1] t H).
Defined.

(** X21 on an instance. The first stage throws [42] on the first of two
    items, on both classes. *)
Lemma classes_differ_in_error_result_witness :
  let t := task (exec (boot (mkOptions None))
                      [CallAdd (D := nat) (Err := nat) [1; 2]; CallCatch 5;
                       CallRun (Some 0) [1]]) in
  let f := mkFrame 1 0 0 in
  onError t = Some 5 /\
  (resume (D := nat) f (Rejected 42) t).2
  = Returned (mkRunResult (f_nth f) (items t) (Some 42))
      (Some (OnError 5
         (mkErrorResult (f_nth f) (items t) None (Z.of_nat (index t) - 1)
                        (callbackIndex t)))) /\
  (resume_v2 (D := nat) (forget_frame f) (Rejected 42) (forget t)).2
  = Returned_v2 (mkResult_v2 (items t) (Some 42))
      (Some (OnError_v2 5
         (mkErrorResult_v2 (items t) (Some 42) (Z.of_nat (index t) - 1)
                           (f_callbackIndex f)))).
Proof.
  intros t f.
  assert (H : onError t = Some 5) by (vm_compute; reflexivity).
  split; [exact H|].
  apply (classes_differ_in_error_result f 42 t 5 H).
Defined.

(** X22 on an instance. The class without the run counter: [run(s0)] on
    two items with an error handler, [do(s9)] while [s0] is busy with the
    first item, then [s0] returns and is called with the second item, on
    which it throws [42]: the handler receives the stage index [0], under
    which the stage list holds [s9]. *)
Lemma error_result_names_the_stage_that_threw_v2_witness :
  let t0 := (runAsync_v2 (D := nat) (Err := nat) (Some 0) []
               (catch_v2 5 (add_v2 [1; 2] new_v2))).1 in
  let f := mkFrame_v2 0 0 in
  let t := (resume_v2 (D := nat) (Err := nat) f (Fulfilled None)
              (do_v2 (Some 9) [] t0)).1 in
  (onError_v2 t = Some 5 /\
   runAsync_v2 (D := nat) (Err := nat) (Some 0) []
     (catch_v2 5 (add_v2 [1; 2] new_v2))
   = (t0, Some (Awaiting_v2 f (Item 1))) /\
   resume_v2 (D := nat) (Err := nat) f (Fulfilled None) (do_v2 (Some 9) [] t0)
   = (t, Awaiting_v2 f (Item 2)) /\
   callbacks_v2 t = [9] /\
   (resume_v2 (D := nat) f (Rejected 42) t).2
   = Returned_v2 (mkResult_v2 [1; 2] (Some 42))
       (Some (OnError_v2 5 (mkErrorResult_v2 [1; 2] (Some 42) 1 0)))) /\
  (exists r,
    (resume_v2 (D := nat) f (Rejected 42) t).2
    = Returned_v2 (mkResult_v2 (items_v2 t) (Some 42))
                  (Some (OnError_v2 5 r)) /\
    error_error r = Some 42 /\
    error_items r = getItems_v2 t /\
    error_index r = (Z.of_nat (getIndex_v2 t) - 1)%Z /\
    error_callbackIndex r = f_callbackIndex_v2 f /\
    isRunning_v2 (resume_v2 (D := nat) f (Rejected 42) t).1 = false /\
    getItems_v2 (resume_v2 (D := nat) f (Rejected 42) t).1 = []) /\
  (forall (callback : option nat) (rest : list nat)
          (t0 t1 : Tasq_v2 (T := nat)) (f1 : Frame_v2) (data : Payload),
     runAsync_v2 (D := nat) (Err := nat) callback rest t0
     = (t1, Some (Awaiting_v2 f1 data)) ->
     callbacks_v2 t1 !! f_callbackIndex_v2 f1 = Some (f_callback_v2 f1) /\
     getCallbackIndex_v2 t1 = S (f_callbackIndex_v2 f1)) /\
  (forall (f0 : Frame_v2) (value : option TasqCallbackResult)
          (t0 t1 : Tasq_v2 (T := nat)) (f1 : Frame_v2) (data : Payload),
     resume_v2 (D := nat) (Err := nat) f0 (Fulfilled value) t0
     = (t1, Awaiting_v2 f1 data) ->
     (f1 = f0 /\ f_callbackIndex_v2 f0 = 0 /\
      getCallbackIndex_v2 t1 = getCallbackIndex_v2 t0 /\
      callbacks_v2 t1 = callbacks_v2 t0 /\ exists item, data = Item item) \/
     (callbacks_v2 t1 !! f_callbackIndex_v2 f1 = Some (f_callback_v2 f1) /\
      getCallbackIndex_v2 t1 = S (f_callbackIndex_v2 f1))).
Proof.
  intros t0 f t.
  assert (H : onError_v2 t = Some 5) by (vm_compute; reflexivity).
  split; [repeat split; vm_compute; reflexivity|].
  apply (error_result_names_the_stage_that_threw_v2 t f 42 5 H).
Defined.

(** X23 on an instance. Two stages and fuel for five passes. *)
Lemma synchronous_part_terminates_witness :
  let t := set_running true
             (prologue (Some 0) [1] (add [1; 2] (constructor (mkOptions None)))) in
  length (callbacks t) - callbackIndex t < 5 /\
  drain (D := nat) (Err := nat) 5 1 (initial t) t = Some (loop 1 (initial t) t).
Proof.
  intros t.
  assert (H : length (callbacks t) - callbackIndex t < 5) by (vm_compute; lia).
  split; [exact H|].
  apply (synchronous_part_terminates 5 1 (initial t) t H).
Defined.

(** X24 on an instance. The first [run(s0, s1)] on two items, on the class
    without the run counter and on the class of [unnamed/part_001]. *)
Lemma plain_class_agrees_on_run_with_items_witness :
  let t := add_v2 [1; 2] new_v2 in
  (running_v2 t = true \/ index_v2 t < length (items_v2 t)) /\
  plain (runAsync_v2 (D := nat) (Err := nat) (Some 0) [1] t).1
  = (runAsync_v1 (D := nat) (Err := nat) (Some 0) [1] (plain t)).1 /\
  match (runAsync_v2 (D := nat) (Err := nat) (Some 0) [1] t).2,
        (runAsync_v1 (D := nat) (Err := nat) (Some 0) [1] (plain t)).2 with
  | Some p, Some p' => same_progress_v1 p p'
  | None, None => True
  | _, _ => False
  end /\
  run_v1 (D := nat) (Err := nat) (Some 0) [1] (plain t)
  = runAsync_v1 (Some 0) [1] (plain t).
Proof.
  intros t.
  assert (H : running_v2 t = true \/ index_v2 t < length (items_v2 t))
    by (right; vm_compute; lia).
  split; [exact H|].
  apply (plain_class_agrees_on_run_with_items (Some 0) [1] t H).
Defined.

(** X26 on an instance. [run(s0, s1)] on fresh engines, with nothing in the
    backlog. *)
Lemma plain_class_runs_later_stages_on_exhausted_backlog_witness :
  let t := new_v2 (T := nat) in
  (running_v2 t = false /\ length (items_v2 t) <= index_v2 t) /\
  (runAsync_v1 (D := nat) (Err := nat) (Some 0) [1] (plain t)).2
  = Some (Awaiting_v1 (mkFrame_v1 1 1) (Forwarded None)) /\
  index_v1 (runAsync_v1 (D := nat) (Err := nat) (Some 0) [1] (plain t)).1
  = index_v2 t /\
  (runAsync_v2 (D := nat) (Err := nat) (Some 0) [1] t).2
  = Some (Returned_v2 (mkResult_v2 (items_v2 t) None)
            match onDone_v2 t with
            | Some h => Some (OnDone_v2 h (items_v2 t))
            | None => None
            end).
Proof.
  intros t.
  assert (H1 : running_v2 t = false) by reflexivity.
  assert (H2 : length (items_v2 t) <= index_v2 t) by (vm_compute; lia).
  split; [by split|].
  apply (plain_class_runs_later_stages_on_exhausted_backlog 0 1 [] t H1 H2).
Defined.

(** X29 on an instance. The first [run(s0, s1)] on a backlog of two
    items. *)
Lemma accepted_run_feeds_the_item_under_the_cursor_witness :
  let m := exec (boot (mkOptions None))
                [CallAdd (D := nat) (Err := nat) [1; 2]] in
  let start := CallRun (T := nat) (D := nat) (Err := nat) (Some 0) [1] in
  (running (task m) && is_blocking (task m) = false /\
   items (task m) !! index (task m) = Some 1 /\
   callbacks (prologue (Some 0) [1] (task m)) !! 0 = Some 0) /\
  let n := S (nth (task m)) in
  trace (step m start) =
    trace m ++ [Accepted (accepted m) n;
                Invoked (accepted m) (mkFrame n 0 0) (mkArgs n (Item 1))] /\
  awaiting (step m start) !! accepted m = Some (mkFrame n 0 0) /\
  isRunning (task (step m start)) = true /\
  getCurrent (task (step m start)) = Some 1 /\
  getIndex (task (step m start)) = S (index (task m)) /\
  getCallbackIndex (task (step m start)) = 1.
Proof.
  intros m start. split; [repeat split; vm_compute; reflexivity|].
  apply (accepted_run_feeds_the_item_under_the_cursor m start (Some 0) [1] 1 0);
    [vm_compute; reflexivity|by left|vm_compute; reflexivity
    |vm_compute; reflexivity].
Defined.

(** X30 on an instance. [run(s0, s1)] on two items with an error handler
    and a call of [run()] that is dropped while [s0] is busy with the
    first item; [s0] returns and is called with the second item, on which
    it throws [42]: the stage cursor is [0], and so is the [callbackIndex]
    the handler receives. *)
Lemma stage_cursor_under_a_suspended_run_witness :
  let m := exec (boot (mkOptions None))
             [CallAdd (D := nat) (Err := nat) [1; 2]; CallCatch 5;
              CallRun (Some 0) [1]; CallRun None [];
              StageSettles 0 (Fulfilled None)] in
  let t := task m in
  let f := mkFrame 1 0 0 in
  (onError t = Some 5 /\
   awaiting m !! 0 = Some f /\
   last (invoked (trace m)) = Some (0, 0, mkArgs 1 (Item 2)) /\
   getCallbackIndex t = 0 /\
   handled (trace (step m (StageSettles 0 (Rejected 42))))
   = [(0, OnError 5 (mkErrorResult 1 [1; 2] None 1 0))]) /\
  (exists r,
    (resume (D := nat) f (Rejected 42) t).2
    = Returned (mkRunResult (f_nth f) (items t) (Some 42))
               (Some (OnError 5 r)) /\
    err_callbackIndex r = getCallbackIndex t) /\
  (forall (callback : option nat) (rest : list nat)
          (t0 t1 : Tasq (T := nat)) (f1 : Frame) (args : TasqCallbackArgs),
     runAsync (D := nat) (Err := nat) callback rest t0
     = (t1, Some (Awaiting f1 args)) ->
     callbacks t1 !! f_callbackIndex f1 = Some (f_callback f1) /\
     getCallbackIndex t1 = S (f_callbackIndex f1)) /\
  (forall (f0 : Frame) (value : option TasqCallbackResult)
          (t0 t1 : Tasq (T := nat)) (f1 : Frame) (args : TasqCallbackArgs),
     resume (D := nat) (Err := nat) f0 (Fulfilled value) t0
     = (t1, Awaiting f1 args) ->
     (f1 = f0 /\ f_callbackIndex f0 = 0 /\
      getCallbackIndex t1 = getCallbackIndex t0 /\
      callbacks t1 = callbacks t0 /\ exists item, arg_data args = Item item) \/
     (callbacks t1 !! f_callbackIndex f1 = Some (f_callback f1) /\
      getCallbackIndex t1 = S (f_callbackIndex f1))) /\
  (forall (callback : option nat) (rest : list nat) (t0 : Tasq (T := nat)),
     (runAsync (D := nat) (Err := nat) callback rest t0).2 = None ->
     getCallbackIndex (runAsync (D := nat) (Err := nat) callback rest t0).1
     = 0) /\
  (forall (opts : TasqOptions) (inputs : list (@Input nat nat nat))
          (id : nat) (f1 : Frame),
     default true (blocking opts) = true ->
     awaiting (exec (boot opts) inputs) !! id = Some f1 ->
     getCallbackIndex (task (exec (boot opts) inputs)) = S (f_callbackIndex f1) \/
     getCallbackIndex (task (exec (boot opts) inputs)) = 0).
Proof.
  intros m t f.
  assert (H : onError t = Some 5) by (vm_compute; reflexivity).
  split; [repeat split; vm_compute; reflexivity|].
  apply (stage_cursor_under_a_suspended_run t f 42 5 H).
Defined.
